(** * Esp32Basecamp: network mode control and boot resilience

    A shallow embedding of [src/WifiControl.cpp] and [src/src/Basecamp.cpp]
    (default build: none of the [BASECAMP_*] feature macros is defined, so
    the wireless variant of every function is the one embedded).

    Layout: platform types and the Arduino [String] helpers, the
    [std::ostringstream] fragment used by [format6Bytes], the device state
    with a small run monad (a call either returns or restarts the device),
    then [WifiControl] and [Basecamp]; the theorems come last. *)

From Stdlib Require Import ZArith NArith List Lia Bool.
From Stdlib.Strings Require Import String Ascii Byte.
From stdpp Require Import gmap strings list fin_maps.

Local Open Scope Z_scope.

(* ===================================================================== *)
(** ** Arduino [String] and <ctype.h> helpers *)
(* ===================================================================== *)

Module Arduino.

(** An Arduino [String] is a NUL-terminated character buffer with its
    length; it is modelled by [string], and [c_str()] is the identity. *)

(** [tolower] of the C locale. *)
Definition tolower (c : ascii) : ascii :=
  let n := nat_of_ascii c in
  if ((65 <=? n) && (n <=? 90))%nat then ascii_of_nat (n + 32) else c.

(** [isalnum] of the C locale. *)
Definition isalnum (c : ascii) : bool :=
  let n := nat_of_ascii c in
  (((48 <=? n) && (n <=? 57)) || ((65 <=? n) && (n <=? 90))
   || ((97 <=? n) && (n <=? 122)))%nat.

(** [String::toLowerCase]. *)
Fixpoint toLowerCase (s : string) : string :=
  match s with
  | EmptyString => EmptyString
  | String c s' => String (tolower c) (toLowerCase s')
  end.

(** The character loop of [String::equalsIgnoreCase], run once the
    lengths are known to agree. *)
Fixpoint equalsIgnoreCase_loop (p1 p2 : string) : bool :=
  match p1, p2 with
  | String c1 r1, String c2 r2 =>
      if Ascii.eqb (tolower c1) (tolower c2)
      then equalsIgnoreCase_loop r1 r2 else false
  | _, _ => true
  end.

(** [String::equalsIgnoreCase]: different lengths are unequal, two empty
    strings are equal, otherwise compare character-wise under [tolower]. *)
Definition equalsIgnoreCase (s s2 : string) : bool :=
  if negb (String.length s =? String.length s2)%nat then false
  else if (String.length s =? 0)%nat then true
  else equalsIgnoreCase_loop s s2.

(** [String::operator[]] on a const string: NUL when out of range. *)
Definition charAt (s : string) (index : nat) : ascii :=
  match String.get index s with
  | Some c => c
  | None => zero
  end.

(** [String::operator+=(char)]. *)
Definition concat_char (s : string) (c : ascii) : string :=
  s +:+ String c EmptyString.

End Arduino.

(* ===================================================================== *)
(** ** The [std::ostringstream] fragment used by [format6Bytes] *)
(* ===================================================================== *)

Module OStream.

(** Formatting state of a stream: the buffer, the fill character, the
    field width of the next formatted output and the integer base. *)
Record ostringstream : Type := mkStream {
  buffer : string;
  fill : ascii;
  width : nat;
  base : N
}.

(** A freshly constructed stream: blank fill, no width, decimal. *)
Definition empty : ostringstream :=
  {| buffer := EmptyString; fill := " "%char; width := 0%nat; base := 10%N |}.

Definition setfill (c : ascii) (os : ostringstream) : ostringstream :=
  {| buffer := buffer os; fill := c; width := width os; base := base os |}.

Definition setw (n : nat) (os : ostringstream) : ostringstream :=
  {| buffer := buffer os; fill := fill os; width := n; base := base os |}.

(** The [std::hex] manipulator. *)
Definition hex (os : ostringstream) : ostringstream :=
  {| buffer := buffer os; fill := fill os; width := width os; base := 16%N |}.

(** Digit characters; lowercase because [std::uppercase] is never set. *)
Definition digit_char (d : N) : ascii :=
  Arduino.charAt "0123456789abcdef" (N.to_nat d).

(** Digits of [n] in base [b], most significant first; [fuel] bounds the
    number of digits (32 suffices for a 32-bit [unsigned int]). *)
Fixpoint digits (fuel : nat) (b n : N) (acc : string) : string :=
  match fuel with
  | O => acc
  | S fuel' =>
      let acc' := String (digit_char (n mod b)%N) acc in
      if (n / b =? 0)%N then acc' else digits fuel' b (n / b)%N acc'
  end.

Definition uint_repr (b n : N) : string := digits 32 b n EmptyString.

(** [count] copies of the fill character. *)
Fixpoint padding (count : nat) (c : ascii) : string :=
  match count with
  | O => EmptyString
  | S k => String c (padding k c)
  end.

(** A formatted insertion: pad on the left up to the field width (the
    default adjustment), append, and reset the width to 0. *)
Definition insert_formatted (s : string) (os : ostringstream) : ostringstream :=
  {| buffer := buffer os +:+ padding (width os - String.length s) (fill os) +:+ s;
     fill := fill os;
     width := 0%nat;
     base := base os |}.

(** [stream << const char*]. *)
Definition put_cstr (s : string) (os : ostringstream) : ostringstream :=
  insert_formatted s os.

(** [stream << unsigned int]. *)
Definition put_uint (n : N) (os : ostringstream) : ostringstream :=
  insert_formatted (uint_repr (base os) n) os.

Definition str (os : ostringstream) : string := buffer os.

End OStream.

(* ===================================================================== *)
(** ** [format6Bytes] (WifiControl.cpp, anonymous namespace) *)
(* ===================================================================== *)

(** [bytes[i]] for a [uint8_t[6]] argument. *)
Definition byte_at (bytes : list byte) (i : nat) : byte := nth i bytes x00.

(** One iteration of the loop body of [format6Bytes]. *)
Definition format6Bytes_step (bytes : list byte) (delimiter : string)
    (stream : OStream.ostringstream) (i : nat) : OStream.ostringstream :=
  let stream :=
    if (negb (i =? 0) && (0 <? String.length delimiter))%nat
    then OStream.put_cstr delimiter stream
    else stream in
  OStream.put_uint (Byte.to_N (byte_at bytes i))
    (OStream.hex (OStream.setw 2 (OStream.setfill "0"%char stream))).

Definition format6Bytes (bytes : list byte) (delimiter : string) : string :=
  OStream.str
    (fold_left (format6Bytes_step bytes delimiter) (seq 0 6) OStream.empty).

(** The wording of the specification, for comparison with the loop above:
    a two-digit lowercase hexadecimal group per byte ... *)
Definition hex_group (b : byte) : string :=
  String (OStream.digit_char (Byte.to_N b / 16)%N)
    (String (OStream.digit_char (Byte.to_N b mod 16)%N) EmptyString).

(** ... and the groups joined by the delimiter. *)
Definition format6BytesAsHex_spec (bytes : list byte) (delimiter : string) : string :=
  String.concat delimiter (map hex_group bytes).


(** The separator written before group [i]. *)
Definition separator (delimiter : string) (i : nat) : string :=
  if (i =? 0)%nat then EmptyString else delimiter.

(** Value of a lowercase hexadecimal digit, if it is one. *)
Definition hex_value (c : ascii) : option N :=
  let n := N_of_ascii c in
  if ((48 <=? n) && (n <=? 57))%N then Some (n - 48)%N
  else if ((97 <=? n) && (n <=? 102))%N then Some (n - 87)%N
  else None.

Fixpoint string_forallb (p : ascii -> bool) (s : string) : bool :=
  match s with
  | EmptyString => true
  | String c rest => p c && string_forallb p rest
  end.

(* ===================================================================== *)
(** ** Device state *)
(* ===================================================================== *)

(** [uint32_t] / [unsigned int] values are kept in [Z], reduced modulo 2^32. *)
Definition wrap32 (z : Z) : Z := z mod 2 ^ 32.

Inductive LogLevel : Type := LOG_ERROR | LOG_WARN | LOG_INFO | LOG_DEBUG.

Inductive wifi_mode_t : Type := WIFI_STA | WIFI_AP | WIFI_AP_STA.

Module Mode.
(** Modelled from the spec: [WifiControl::Mode] is declared in
    WifiControl.hpp, which is not among the sources; the specification gives
    the enumeration {Uninitialized, Client, AccessPoint}. *)
Inductive t : Type := unconfigured | accessPoint | client.
End Mode.

(** [Basecamp::SetupModeWifiEncryption]: how to handle encryption in setup
    mode (AP mode). *)
Module SetupModeWifiEncryption.
Inductive t : Type := none | secured.
End SetupModeWifiEncryption.

(** [Basecamp::ConfigurationUI]: when to enable the configuration UI. *)
Module ConfigurationUI.
Inductive t : Type := always | accessPoint.
End ConfigurationUI.

(** The keys of the configuration store that Basecamp.cpp uses
    ([enum class ConfigurationKey]). *)
Module ConfigurationKey.
Inductive t : Type :=
  | deviceName
  | accessPointSecret
  | wifiEssid
  | wifiPassword
  | wifiConfigured
  | mqttActive
  | mqttHost
  | haDiscoveryPrefix
  | otaActive
  | otaPass.

#[global] Instance eq_dec : EqDecision t.
Proof. solve_decision. Defined.

Definition to_nat (key : t) : nat :=
  match key with
  | deviceName => 0
  | accessPointSecret => 1
  | wifiEssid => 2
  | wifiPassword => 3
  | wifiConfigured => 4
  | mqttActive => 5
  | mqttHost => 6
  | haDiscoveryPrefix => 7
  | otaActive => 8
  | otaPass => 9
  end.

Definition of_nat (n : nat) : option t :=
  match n with
  | 0 => Some deviceName
  | 1 => Some accessPointSecret
  | 2 => Some wifiEssid
  | 3 => Some wifiPassword
  | 4 => Some wifiConfigured
  | 5 => Some mqttActive
  | 6 => Some mqttHost
  | 7 => Some haDiscoveryPrefix
  | 8 => Some otaActive
  | 9 => Some otaPass
  | _ => None
  end%nat.

#[global] Instance countable : Countable t.
Proof.
  refine (inj_countable to_nat of_nat _). intros key; destruct key; reflexivity.
Defined.
End ConfigurationKey.

(** The events [WifiControl::WiFiEvent] distinguishes; every other member
    of [WiFiEvent_t] is [SYSTEM_EVENT_OTHER] with its numeric id. *)
Inductive WiFiEvent_t : Type :=
  | SYSTEM_EVENT_STA_GOT_IP
  | SYSTEM_EVENT_STA_DISCONNECTED
  | SYSTEM_EVENT_OTHER (id : Z).

(** Effects on the platform and on the collaborators, in execution order.
    Log entries carry the level and the format string. *)
Inductive Call : Type :=
  | CLog (level : LogLevel) (format : string)
  | CPreferencesBegin (name : string) (readOnly : bool)
  | CPreferencesPutUInt (key : string) (value : Z)
  | CPreferencesEnd
  | CConfigurationLoad
  | CConfigurationReset
  | CConfigurationSet (key : ConfigurationKey.t) (value : string)
  | CConfigurationSave
  | CSpiffsFormat
  | CEspRestart
  | CWiFiOnEvent
  | CWiFiBegin (ssid passphrase : string)
  | CWiFiSetHostname (name : string)
  | CWiFiMode (m : wifi_mode_t)
  | CWiFiSoftAP (ssid : string) (passphrase : option string)
  | CWiFiReconnect
  | CWiFiMacAddress
  | CExternal (component method : string) (args : list string).

(** The device: hardware and persistent storage, the [Basecamp] object and
    its [network] member (a [WifiControl]), and the trace of calls made. *)
Record World : Type := mkWorld {
  (* hardware *)
  reset_reason : Z;                      (* rtc_get_reset_reason(0) of this boot *)
  nvs : gmap string Z;                   (* Preferences namespace "basecamp" *)
  spiffs : option (gmap ConfigurationKey.t string);  (* /basecamp.json, None when absent or unreadable *)
  efuse_mac : list byte;                 (* esp_efuse_mac_get_default *)
  wifi_mac : list byte;                  (* WiFi.macAddress *)
  entropy : nat -> Z;                    (* successive results of esp_random *)
  drawn : nat;                           (* number of esp_random draws so far *)
  calls : list Call;
  (* Basecamp *)
  configuration : gmap ConfigurationKey.t string;
  setupModeWifiEncryption_ : SetupModeWifiEncryption.t;
  configurationUi_ : ConfigurationUI.t;
  hostname : string;
  mac : string;
  (* Basecamp::network (WifiControl) *)
  operationMode_ : Mode.t;
  _wifiEssid : string;
  _wifiPassword : string;
  _wifiAPName : string
}.

Definition set_nvs (v : gmap string Z) (w : World) : World :=
  mkWorld (reset_reason w) v (spiffs w) (efuse_mac w) (wifi_mac w) (entropy w)
    (drawn w) (calls w) (configuration w) (setupModeWifiEncryption_ w)
    (configurationUi_ w) (hostname w) (mac w) (operationMode_ w)
    (_wifiEssid w) (_wifiPassword w) (_wifiAPName w).

Definition set_spiffs (v : option (gmap ConfigurationKey.t string)) (w : World) : World :=
  mkWorld (reset_reason w) (nvs w) v (efuse_mac w) (wifi_mac w) (entropy w)
    (drawn w) (calls w) (configuration w) (setupModeWifiEncryption_ w)
    (configurationUi_ w) (hostname w) (mac w) (operationMode_ w)
    (_wifiEssid w) (_wifiPassword w) (_wifiAPName w).

Definition set_drawn (v : nat) (w : World) : World :=
  mkWorld (reset_reason w) (nvs w) (spiffs w) (efuse_mac w) (wifi_mac w) (entropy w)
    v (calls w) (configuration w) (setupModeWifiEncryption_ w)
    (configurationUi_ w) (hostname w) (mac w) (operationMode_ w)
    (_wifiEssid w) (_wifiPassword w) (_wifiAPName w).

Definition set_calls (v : list Call) (w : World) : World :=
  mkWorld (reset_reason w) (nvs w) (spiffs w) (efuse_mac w) (wifi_mac w) (entropy w)
    (drawn w) v (configuration w) (setupModeWifiEncryption_ w)
    (configurationUi_ w) (hostname w) (mac w) (operationMode_ w)
    (_wifiEssid w) (_wifiPassword w) (_wifiAPName w).

Definition set_configuration (v : gmap ConfigurationKey.t string) (w : World) : World :=
  mkWorld (reset_reason w) (nvs w) (spiffs w) (efuse_mac w) (wifi_mac w) (entropy w)
    (drawn w) (calls w) v (setupModeWifiEncryption_ w)
    (configurationUi_ w) (hostname w) (mac w) (operationMode_ w)
    (_wifiEssid w) (_wifiPassword w) (_wifiAPName w).

Definition set_setupModeWifiEncryption_ (v : SetupModeWifiEncryption.t) (w : World) : World :=
  mkWorld (reset_reason w) (nvs w) (spiffs w) (efuse_mac w) (wifi_mac w) (entropy w)
    (drawn w) (calls w) (configuration w) v
    (configurationUi_ w) (hostname w) (mac w) (operationMode_ w)
    (_wifiEssid w) (_wifiPassword w) (_wifiAPName w).

Definition set_hostname (v : string) (w : World) : World :=
  mkWorld (reset_reason w) (nvs w) (spiffs w) (efuse_mac w) (wifi_mac w) (entropy w)
    (drawn w) (calls w) (configuration w) (setupModeWifiEncryption_ w)
    (configurationUi_ w) v (mac w) (operationMode_ w)
    (_wifiEssid w) (_wifiPassword w) (_wifiAPName w).

Definition set_mac (v : string) (w : World) : World :=
  mkWorld (reset_reason w) (nvs w) (spiffs w) (efuse_mac w) (wifi_mac w) (entropy w)
    (drawn w) (calls w) (configuration w) (setupModeWifiEncryption_ w)
    (configurationUi_ w) (hostname w) v (operationMode_ w)
    (_wifiEssid w) (_wifiPassword w) (_wifiAPName w).

Definition set_operationMode_ (v : Mode.t) (w : World) : World :=
  mkWorld (reset_reason w) (nvs w) (spiffs w) (efuse_mac w) (wifi_mac w) (entropy w)
    (drawn w) (calls w) (configuration w) (setupModeWifiEncryption_ w)
    (configurationUi_ w) (hostname w) (mac w) v
    (_wifiEssid w) (_wifiPassword w) (_wifiAPName w).

Definition set__wifiEssid (v : string) (w : World) : World :=
  mkWorld (reset_reason w) (nvs w) (spiffs w) (efuse_mac w) (wifi_mac w) (entropy w)
    (drawn w) (calls w) (configuration w) (setupModeWifiEncryption_ w)
    (configurationUi_ w) (hostname w) (mac w) (operationMode_ w)
    v (_wifiPassword w) (_wifiAPName w).

Definition set__wifiPassword (v : string) (w : World) : World :=
  mkWorld (reset_reason w) (nvs w) (spiffs w) (efuse_mac w) (wifi_mac w) (entropy w)
    (drawn w) (calls w) (configuration w) (setupModeWifiEncryption_ w)
    (configurationUi_ w) (hostname w) (mac w) (operationMode_ w)
    (_wifiEssid w) v (_wifiAPName w).

Definition set__wifiAPName (v : string) (w : World) : World :=
  mkWorld (reset_reason w) (nvs w) (spiffs w) (efuse_mac w) (wifi_mac w) (entropy w)
    (drawn w) (calls w) (configuration w) (setupModeWifiEncryption_ w)
    (configurationUi_ w) (hostname w) (mac w) (operationMode_ w)
    (_wifiEssid w) (_wifiPassword w) v.

(* ===================================================================== *)
(** ** The run monad: a call returns a value or restarts the device *)
(* ===================================================================== *)

(** [ESP.restart()] does not return to its caller: whatever follows it in
    the source is not executed.  [Restarted] carries the state in which the
    device goes down. *)
Inductive Outcome (A : Type) : Type :=
  | Returned (a : A) (w : World)
  | Restarted (w : World).
Arguments Returned {A} a w.
Arguments Restarted {A} w.

Definition Run (A : Type) : Type := World -> Outcome A.

#[global] Instance Run_ret : MRet Run := fun A a w => Returned a w.

#[global] Instance Run_bind : MBind Run := fun A B f m w =>
  match m w with
  | Returned a w' => f a w'
  | Restarted w' => Restarted w'
  end.

(** The state a run ends in, whichever way it ends. *)
Definition final {A : Type} (o : Outcome A) : World :=
  match o with
  | Returned _ w => w
  | Restarted w => w
  end.

Definition restarted {A : Type} (o : Outcome A) : bool :=
  match o with
  | Returned _ _ => false
  | Restarted _ => true
  end.

Definition gets {A : Type} (f : World -> A) : Run A := fun w => Returned (f w) w.
Definition modify (f : World -> World) : Run unit := fun w => Returned tt (f w).
Definition emit (c : Call) : Run unit :=
  modify (fun w => set_calls (calls w ++ [c]) w).

Definition ESP_LOGE (format : string) : Run unit := emit (CLog LOG_ERROR format).
Definition ESP_LOGW (format : string) : Run unit := emit (CLog LOG_WARN format).
Definition ESP_LOGI (format : string) : Run unit := emit (CLog LOG_INFO format).
Definition ESP_LOGD (format : string) : Run unit := emit (CLog LOG_DEBUG format).

(** A call into a collaborator outside the core (web UI, OTA, MQTT, SNTP):
    recorded, and assumed to return. *)
Definition external (component method : string) (args : list string) : Run unit :=
  emit (CExternal component method args).

Module ESP.
Definition restart : Run unit :=
  fun w => Restarted (set_calls (calls w ++ [CEspRestart]) w).
End ESP.

Definition rtc_get_reset_reason : Run Z := gets reset_reason.

Definition esp_random : Run Z := fun w =>
  Returned (wrap32 (entropy w (drawn w))) (set_drawn (S (drawn w)) w).

(** The [Preferences] key-value store on namespace "basecamp".  Storage
    operations are taken to succeed; a missing key reads as the default. *)
Module Preferences.
Definition begin (name : string) (readOnly : bool) : Run unit :=
  emit (CPreferencesBegin name readOnly).
Definition getUInt (key : string) (defaultValue : Z) : Run Z :=
  gets (fun w => wrap32 (default defaultValue (nvs w !! key))).
Definition putUInt (key : string) (value : Z) : Run unit :=
  modify (fun w => set_nvs (<[key := wrap32 value]> (nvs w)) w);;
  emit (CPreferencesPutUInt key (wrap32 value)).
Definition end_ : Run unit := emit CPreferencesEnd.
End Preferences.

Module SPIFFS.
(** Formatting the flash file system removes the stored configuration. *)
Definition format : Run unit :=
  modify (set_spiffs None);; emit CSpiffsFormat.
End SPIFFS.

(** The configuration store (Configuration.hpp/.cpp) is a collaborator that
    is not among the sources. *)
Module Configuration.
(** Modelled from the spec: the store is an opaque string-valued store
    with get/set/isSet/save/reset; an unset key reads as the empty string. *)
Definition get (key : ConfigurationKey.t) : Run string :=
  gets (fun w => default EmptyString (configuration w !! key)).
(** Modelled from the spec: "isSet" of the store. *)
Definition isKeySet (key : ConfigurationKey.t) : Run bool :=
  gets (fun w => bool_decide (is_Some (configuration w !! key))).
(** Modelled from the spec: "set" changes the value held in memory. *)
Definition set (key : ConfigurationKey.t) (value : string) : Run unit :=
  modify (fun w => set_configuration (<[key := value]> (configuration w)) w);;
  emit (CConfigurationSet key value).
(** Modelled from the spec: "save" persists the values held in memory. *)
Definition save : Run unit :=
  modify (fun w => set_spiffs (Some (configuration w)) w);;
  emit CConfigurationSave.
(** Modelled from the spec: loading reads the persisted values and fails
    when there are none to read. *)
Definition load : Run bool := fun w =>
  match spiffs w with
  | Some stored =>
      Returned true (set_calls (calls w ++ [CConfigurationLoad])
                       (set_configuration stored w))
  | None => Returned false (set_calls (calls w ++ [CConfigurationLoad]) w)
  end.
(** Modelled from the spec: "reset" empties the store, in memory and
    persisted. *)
Definition reset : Run unit :=
  modify (fun w => set_spiffs (Some ∅) (set_configuration ∅ w));;
  emit CConfigurationReset.
End Configuration.

Module WiFi.
Definition onEvent : Run unit := emit CWiFiOnEvent.
Definition begin (ssid passphrase : string) : Run unit := emit (CWiFiBegin ssid passphrase).
Definition setHostname (name : string) : Run unit := emit (CWiFiSetHostname name).
Definition mode (m : wifi_mode_t) : Run unit := emit (CWiFiMode m).
Definition softAP (ssid : string) (passphrase : option string) : Run unit :=
  emit (CWiFiSoftAP ssid passphrase).
Definition reconnect : Run unit := emit CWiFiReconnect.
Definition macAddress : Run (list byte) := emit CWiFiMacAddress;; gets wifi_mac.
End WiFi.

(* ===================================================================== *)
(** ** WifiControl.cpp *)
(* ===================================================================== *)

Module WifiControl.

(** Minimum access point secret length to be generated. *)
Definition minApSecretLength : N := 8.

Definition getMinimumSecretLength : N := minApSecretLength.

(** The default delimiter of the two address getters is declared in
    WifiControl.hpp, which is not among the sources; the empty [String]
    is taken.  No statement below depends on it. *)
Definition defaultDelimiter : string := EmptyString.

(** The format string of the log line at WifiControl.cpp:60; its last
    character is the line feed the C literal ends in. *)
Definition apPasswordLogFormat : string :=
  String.append "Starting AP with password %s" (String (ascii_of_nat 10) EmptyString).

Definition getHardwareMacAddress (delimiter : string) : Run string :=
  rawMac ← gets efuse_mac;
  mret (format6Bytes rawMac delimiter).

Definition getSoftwareMacAddress (delimiter : string) : Run string :=
  rawMac ← WiFi.macAddress;
  mret (format6Bytes rawMac delimiter).

Definition getOperationMode : Run Mode.t := gets operationMode_.

Definition setAPName (name : string) : Run unit := modify (set__wifiAPName name).

Definition getAPName : Run string := gets _wifiAPName.

Definition begin (essid password configured hostname apSecret : string) : Run unit :=
  ESP_LOGI "Connecting to Wifi";;
  let _wifiConfigured := configured in
  modify (set__wifiEssid essid);;
  modify (set__wifiPassword password);;
  apName ← gets _wifiAPName;
  (if (String.length apName =? 0)%nat
   then hwMac ← getHardwareMacAddress defaultDelimiter;
        modify (set__wifiAPName ("ESP32_" +:+ hwMac))
   else mret tt);;
  WiFi.onEvent;;
  if Arduino.equalsIgnoreCase _wifiConfigured "true"
  then
    modify (set_operationMode_ Mode.client);;
    ESP_LOGI "Wifi is configured, connecting to '%s'";;
    ssid ← gets _wifiEssid;
    passphrase ← gets _wifiPassword;
    WiFi.begin ssid passphrase;;
    WiFi.setHostname hostname
  else
    modify (set_operationMode_ Mode.accessPoint);;
    ESP_LOGW "Wifi is NOT configured, starting Wifi AP '%s'";;
    WiFi.mode WIFI_AP_STA;;
    if (0 <? String.length apSecret)%nat
    then
      (* Start with password protection *)
      ESP_LOGD apPasswordLogFormat;;
      ssid ← gets _wifiAPName;
      WiFi.softAP ssid (Some apSecret)
    else
      (* Start without password protection *)
      ssid ← gets _wifiAPName;
      WiFi.softAP ssid None.

(** [WifiControl::WiFiEvent]; the local [Preferences] object is closed by
    its destructor when the handler returns. *)
Definition WiFiEvent (event : WiFiEvent_t) : Run unit :=
  Preferences.begin "basecamp" false;;
  bootCounter ← Preferences.getUInt "bootcounter" 0;
  ESP_LOGD "WiFiEvent %d, Bootcounter is %d";;
  match event with
  | SYSTEM_EVENT_STA_GOT_IP =>
      (* ip = WiFi.localIP() is only read for the log line *)
      ESP_LOGI "WIFI Got IPv4 address %u.%u.%u.%u";;
      Preferences.putUInt "bootcounter" 0
  | SYSTEM_EVENT_STA_DISCONNECTED =>
      ESP_LOGI "WIFI Lost connection";;
      WiFi.reconnect
  | SYSTEM_EVENT_OTHER _ =>
      (* INFO: Default = do nothing *)
      mret tt
  end;;
  Preferences.end_.

(** There is no "O" (Oh) to reduce confusion. *)
Definition validChars : string :=
  "abcdefghjkmnopqrstuvwxyzABCDEFGHJKMNPQRSTUVWXYZ23456789.-,:$/".

(** The loop of [generateRandomSecret], with [remaining] iterations left. *)
Fixpoint generateRandomSecret_loop (remaining : nat) (returnValue : string) : Run string :=
  match remaining with
  | O => mret returnValue
  | S remaining' =>
      r ← esp_random;
      let randomValue :=
        Arduino.charAt validChars
          (Z.to_nat (r mod Z.of_nat (String.length validChars))) in
      generateRandomSecret_loop remaining' (Arduino.concat_char returnValue randomValue)
  end.

Definition generateRandomSecret (length : N) : Run string :=
  let useLength :=
    if (length <? minApSecretLength)%N then minApSecretLength else length in
  generateRandomSecret_loop (N.to_nat useLength) EmptyString.

End WifiControl.

(* ===================================================================== *)
(** ** Basecamp.cpp *)
(* ===================================================================== *)

Module Basecamp.

(** Default length for access point mode password. *)
Definition defaultApSecretLength : N := 8.

(** [String::setCharAt]: nothing happens past the end of the string. *)
Fixpoint setCharAt (s : string) (loc : nat) (c : ascii) : string :=
  match s, loc with
  | EmptyString, _ => EmptyString
  | String _ rest, O => String c rest
  | String x rest, S loc' => String x (setCharAt rest loc' c)
  end.

(** One iteration of the replacement loop of [_cleanHostname]. *)
Definition _cleanHostname_step (clean_hostname : string) (i : nat) : string :=
  if negb (Arduino.isalnum (Arduino.charAt clean_hostname i))
  then setCharAt clean_hostname i "-"%char
  else clean_hostname.

(** This function generates a cleaned string from the device name set by
    the user.  The loop runs for [i] from 0 up to and including the length. *)
Definition _cleanHostname : Run string :=
  clean_hostname ← Configuration.get ConfigurationKey.deviceName;
  if String.eqb clean_hostname EmptyString
  then mret "basecamp-device"%string
  else
    let clean_hostname := Arduino.toLowerCase clean_hostname in
    let clean_hostname :=
      fold_left _cleanHostname_step
        (seq 0 (S (String.length clean_hostname))) clean_hostname in
    ESP_LOGD "clean_hostname: %s";;
    mret clean_hostname.

Definition isSetupModeWifiEncrypted : Run bool :=
  gets (fun w => match setupModeWifiEncryption_ w with
                 | SetupModeWifiEncryption.secured => true
                 | SetupModeWifiEncryption.none => false
                 end).

Definition getSetupModeWifiName : Run string := WifiControl.getAPName.

Definition getSetupModeWifiSecret : Run string :=
  Configuration.get ConfigurationKey.accessPointSecret.

Definition shouldEnableConfigWebserver : Run bool :=
  ui ← gets configurationUi_;
  opMode ← WifiControl.getOperationMode;
  mret (match ui, opMode with
        | ConfigurationUI.always, _ => true
        | ConfigurationUI.accessPoint, Mode.accessPoint => true
        | ConfigurationUI.accessPoint, _ => false
        end).

(** This function checks the reset reason returned by the ESP and resets
    the configuration if necessary.  It counts all system reboots that
    occurred by power cycles or button resets. *)
Definition checkResetReason : Run unit :=
  Preferences.begin "basecamp" false;;
  (* Get the reset reason for the current boot *)
  reason ← rtc_get_reset_reason;
  ESP_LOGI "Reset reason: %d";;
  (if (reason =? 1) || (reason =? 16)
   then
     (* Get the current number of unsuccessful boots stored *)
     bootCounter ← Preferences.getUInt "bootcounter" 0;
     (* increment it *)
     let bootCounter := wrap32 (bootCounter + 1) in
     ESP_LOGI "Unsuccessful boots: %d";;
     if 3 <? bootCounter
     then
       ESP_LOGW "Configuration forcibly reset.";;
       (* Mark the WiFi configuration as invalid *)
       Configuration.set ConfigurationKey.wifiConfigured "False";;
       (* Save the configuration immediately *)
       Configuration.save;;
       (* Reset the boot counter *)
       Preferences.putUInt "bootcounter" 0;;
       Preferences.end_;;
       ESP_LOGW "Resetting the WiFi configuration.";;
       (* Reboot *)
       ESP.restart
     else
     wifiConfigured ← Configuration.get ConfigurationKey.wifiConfigured;
     if (2 <? bootCounter) && Arduino.equalsIgnoreCase wifiConfigured "false"
     then
       ESP_LOGW "Factory reset was forced.";;
       (* Format the flash storage *)
       SPIFFS.format;;
       (* Reset the boot counter *)
       Preferences.putUInt "bootcounter" 0;;
       Preferences.end_;;
       ESP_LOGW "Rebooting.";;
       (* Reboot *)
       ESP.restart
     else
       (* In every other case: store the current boot count *)
       Preferences.putUInt "bootcounter" bootCounter
   else
     (* if the reset has been for any other cause, reset the counter *)
     Preferences.putUInt "bootcounter" 0);;
  Preferences.end_.

Definition endl : string := String (ascii_of_nat 10) EmptyString.

(** This shows basic information about the system. *)
Definition showSystemInfo : Run string :=
  mac ← gets mac;
  hwMac ← WifiControl.getHardwareMacAddress ":";
  let info := "MAC-Address: " +:+ mac +:+ ", Hardware MAC: " +:+ hwMac +:+ endl in
  isSet ← Configuration.isKeySet ConfigurationKey.accessPointSecret;
  if (isSet : bool)
  then
    secret ← Configuration.get ConfigurationKey.accessPointSecret;
    mret (info +:+ "*******************************************" +:+ endl
          +:+ "* ACCESS POINT PASSWORD: " +:+ secret +:+ endl
          +:+ "*******************************************" +:+ endl)
  else mret info.

(** The configuration web interface set up by [begin] when the web server
    is enabled (all calls go to the web UI collaborator). *)
Definition setupWebInterface : Run unit :=
  external "web" "addInterfaceElement" ["heading"; "h1"; EmptyString; "#wrapper"];;
  external "web" "setInterfaceElementAttribute" ["heading"; "class"; "fat-border"];;
  external "web" "addInterfaceElement" ["logo"; "img"; EmptyString; "#heading"];;
  external "web" "setInterfaceElementAttribute" ["logo"; "src"; "/logo.svg"];;
  DeviceName ← Configuration.get ConfigurationKey.deviceName;
  let DeviceName :=
    if String.eqb DeviceName EmptyString
    then "Unconfigured Basecamp Device"%string else DeviceName in
  external "web" "addInterfaceElement" ["title"; "title"; DeviceName; "head"];;
  external "web" "addInterfaceElement" ["devicename"; "span"; DeviceName; "#heading"];;
  external "web" "setInterfaceElementAttribute" ["heading"; "class"; "fat-border"];;
  external "web" "addInterfaceElement"
    ["infotext1"; "p";
     "Configure your device with the following options (!!!space to clear!!!):";
     "#wrapper"];;
  external "web" "addInterfaceElement" ["configform"; "form"; EmptyString; "#wrapper"];;
  external "web" "setInterfaceElementAttribute" ["configform"; "action"; "#"];;
  external "web" "setInterfaceElementAttribute"
    ["configform"; "onsubmit"; "collectConfiguration()"];;
  external "web" "addInterfaceElement"
    ["DeviceName"; "input"; "Device name"; "#configform"; "DeviceName"];;
  external "web" "addInterfaceElement"
    ["WifiEssid"; "input"; "WIFI SSID:"; "#configform"; "WifiEssid"];;
  external "web" "addInterfaceElement"
    ["WifiPassword"; "input"; "WIFI Password:"; "#configform"; "WifiPassword"];;
  external "web" "setInterfaceElementAttribute" ["WifiPassword"; "type"; "password"];;
  external "web" "addInterfaceElement"
    ["WifiConfigured"; "input"; EmptyString; "#configform"; "WifiConfigured"];;
  external "web" "setInterfaceElementAttribute" ["WifiConfigured"; "type"; "hidden"];;
  external "web" "setInterfaceElementAttribute" ["WifiConfigured"; "value"; "true"];;
  mqttActive ← Configuration.get ConfigurationKey.mqttActive;
  (if negb (Arduino.equalsIgnoreCase mqttActive "false")
   then
     external "web" "addInterfaceElement"
       ["MQTTHost"; "input"; "MQTT URI:"; "#configform"; "MQTTHost"];;
     external "web" "addInterfaceElement"
       ["MQTTTopicPrefix"; "input"; "MQTT Topic Prefix (suggested 'esp-basecamp'):";
        "#configform"; "MQTTTopicPrefix"];;
     external "web" "addInterfaceElement"
       ["HaDiscoveryPrefix"; "input";
        "Home Assistant MQTT Discovery Topic Prefix (suggested 'homeassistant', space/empty to disable):";
        "#configform"; "HaDiscoveryPrefix"]
   else mret tt);;
  external "web" "addInterfaceElement"
    ["SyslogServer"; "input"; "Syslog Server (space/empty to disable):";
     "#configform"; "SyslogServer"];;
  external "web" "addInterfaceElement" ["saveform"; "button"; "Save"; "#configform"];;
  external "web" "setInterfaceElementAttribute" ["saveform"; "type"; "submit"];;
  mac ← gets mac;
  let infotext2 := "This device has the MAC-Address: " +:+ mac in
  external "web" "addInterfaceElement" ["infotext2"; "p"; infotext2; "#wrapper"];;
  external "web" "addInterfaceElement" ["footer"; "footer"; "Powered by "; "body"];;
  external "web" "addInterfaceElement" ["footerlink"; "a"; "Basecamp"; "footer"];;
  external "web" "setInterfaceElementAttribute"
    ["footerlink"; "href"; "https://github.com/merlinschumacher/Basecamp"];;
  external "web" "setInterfaceElementAttribute" ["footerlink"; "target"; "_blank"];;
  (* Start webserver and pass the configuration object to it *)
  external "web" "begin" [].

(** Over-the-air update set-up of [begin]. *)
Definition setupOTA : Run unit :=
  otaPass ← Configuration.get ConfigurationKey.otaPass;
  (if negb (String.length otaPass =? 0)%nat
   then external "ArduinoOTA" "setPassword" [otaPass]
   else mret tt);;
  hostname ← gets hostname;
  external "ArduinoOTA" "setHostname" [hostname];;
  external "ArduinoOTA" "onStart" [];;
  external "ArduinoOTA" "onEnd" [];;
  external "ArduinoOTA" "onProgress" [];;
  external "ArduinoOTA" "onError" [];;
  external "ArduinoOTA" "begin" [].

(** [Basecamp::begin], block by block in source order (lines 79-86,
    88-98, 100-103, 111-128, 131-141, 143-150, 152-200, 202-275, 277-283);
    [begin] below runs them in sequence around [checkResetReason]. *)

(** Make sure we only accept valid passwords for ap. *)
Definition begin_acceptFixedSecret (fixedWiFiApEncryptionPassword : string) : Run unit :=
  let passwordLength := N.of_nat (String.length fixedWiFiApEncryptionPassword) in
  if negb (passwordLength =? 0)%N
  then
    if (WifiControl.getMinimumSecretLength <=? passwordLength)%N
    then modify (set_setupModeWifiEncryption_ SetupModeWifiEncryption.secured)
    else ESP_LOGE "Error: Given fixed ap secret is too short. Refusing."
  else mret tt.

(** Display a simple lifesign, then load configuration from internal flash
    storage; if [configuration.load()] fails, reset the configuration. *)
Definition begin_loadConfiguration : Run unit :=
  ESP_LOGW "********************";;
  ESP_LOGW "Basecamp Startup";;
  ESP_LOGW "********************";;
  loaded ← Configuration.load;
  if negb loaded
  then ESP_LOGW "Configuration is broken. Resetting.";; Configuration.reset
  else mret tt.

(** Get a cleaned version of the device name. *)
Definition begin_assignHostname : Run unit :=
  cleaned ← _cleanHostname;
  modify (set_hostname cleaned);;
  ESP_LOGD "hostname: %s".

(** If there is no access point secret set yet, generate one and save it. *)
Definition begin_provisionApSecret (fixedWiFiApEncryptionPassword : string) : Run unit :=
  let passwordLength := N.of_nat (String.length fixedWiFiApEncryptionPassword) in
  secretSet ← Configuration.isKeySet ConfigurationKey.accessPointSecret;
  (if negb secretSet || (WifiControl.getMinimumSecretLength <=? passwordLength)%N
   then
     let apSecret := fixedWiFiApEncryptionPassword in
     apSecret ←
       (if (N.of_nat (String.length apSecret) <? WifiControl.getMinimumSecretLength)%N
        then
          (* Not set or too short. Generate a random one. *)
          ESP_LOGW "Generating access point secret.";;
          WifiControl.generateRandomSecret defaultApSecretLength
        else
          ESP_LOGW "Using fixed access point secret.";;
          mret apSecret);
     Configuration.set ConfigurationKey.accessPointSecret apSecret;;
     Configuration.save
   else mret tt);;
  ESP_LOGD "accessPointSecret: %s".

(** Initialize Wifi with the stored configuration data, and get the WiFi MAC. *)
Definition begin_startNetwork : Run unit :=
  essid ← Configuration.get ConfigurationKey.wifiEssid;
  password ← Configuration.get ConfigurationKey.wifiPassword;
  configured ← Configuration.get ConfigurationKey.wifiConfigured;
  hostname ← gets hostname;
  encryption ← gets setupModeWifiEncryption_;
  apSecret ←
    match encryption with
    | SetupModeWifiEncryption.none => mret EmptyString
    | SetupModeWifiEncryption.secured => Configuration.get ConfigurationKey.accessPointSecret
    end;
  WifiControl.begin essid password configured hostname apSecret;;
  softMac ← WifiControl.getSoftwareMacAddress ":";
  modify (set_mac softMac).

(** Check if MQTT has been disabled by the user. *)
Definition begin_startMqtt : Run unit :=
  mqttActive ← Configuration.get ConfigurationKey.mqttActive;
  if negb (Arduino.equalsIgnoreCase mqttActive "false")
  then
    mqttUri ← Configuration.get ConfigurationKey.mqttHost;
    mqttHaDiscoveryPrefix ← Configuration.get ConfigurationKey.haDiscoveryPrefix;
    hostname ← gets hostname;
    external "mqtt" "Begin" [mqttUri; hostname; mqttHaDiscoveryPrefix]
  else mret tt.

(** Set up Over-the-Air-Updates (OTA) if it hasn't been disabled. *)
Definition begin_startOTA : Run unit :=
  otaActive ← Configuration.get ConfigurationKey.otaActive;
  if negb (Arduino.equalsIgnoreCase otaActive "false")
  then setupOTA
  else mret tt.

Definition begin_startWeb : Run unit :=
  enableWeb ← shouldEnableConfigWebserver;
  if (enableWeb : bool) then setupWebInterface else mret tt.

Definition begin_startSntp : Run unit :=
  external "sntp" "setoperatingmode" ["SNTP_OPMODE_POLL"];;
  external "sntp" "setservername" ["0"; "pool.ntp.org"];;
  external "sntp" "init" [];;
  external "libc" "setenv" ["TZ"; "CET-1CEST,M3.5.0/2:00,M10.5.0/3:00"; "1"];;
  external "libc" "tzset" [].

(** Everything [begin] does once [checkResetReason] has returned. *)
Definition begin_services (fixedWiFiApEncryptionPassword : string) : Run bool :=
  begin_provisionApSecret fixedWiFiApEncryptionPassword;;
  begin_startNetwork;;
  begin_startMqtt;;
  begin_startOTA;;
  begin_startWeb;;
  begin_startSntp;;
  info ← showSystemInfo;
  ESP_LOGW "%s";;
  (* TODO: only return true if everything setup up correctly *)
  mret true.

(** This is the initialisation function for the Basecamp class. *)
Definition begin (fixedWiFiApEncryptionPassword : string) : Run bool :=
  begin_acceptFixedSecret fixedWiFiApEncryptionPassword;;
  begin_loadConfiguration;;
  begin_assignHostname;;
  (* Have checkResetReason() control if the device configuration
     should be reset or not. *)
  checkResetReason;;
  begin_services fixedWiFiApEncryptionPassword.

End Basecamp.

(* ===================================================================== *)
(** ** Observations on the device state *)
(* ===================================================================== *)

(** The persisted boot counter, as [getUInt("bootcounter", 0)] reads it. *)
Definition bootCounter (w : World) : Z :=
  wrap32 (default 0 (nvs w !! "bootcounter")).

(** The value [configuration.get(ConfigurationKey::wifiConfigured)] returns. *)
Definition wifiConfiguredFlag (w : World) : string :=
  default EmptyString (configuration w !! ConfigurationKey.wifiConfigured).

(** The test [checkResetReason] applies to the configuration store to tell
    that the network is not configured. *)
Definition reportsNotConfigured (w : World) : bool :=
  Arduino.equalsIgnoreCase (wifiConfiguredFlag w) "false".

Definition append_calls (cs : list Call) (w : World) : World :=
  set_calls (calls w ++ cs) w.

(** The two escalation actions of the boot resilience check: marking the
    network configuration unconfigured, and formatting the flash storage. *)
Definition is_network_reset (c : Call) : bool :=
  match c with
  | CConfigurationSet _ _ => true
  | _ => false
  end.

Definition is_storage_wipe (c : Call) : bool :=
  match c with
  | CSpiffsFormat => true
  | _ => false
  end.

Definition is_escalation (c : Call) : bool :=
  is_network_reset c || is_storage_wipe c.

Definition is_restart (c : Call) : bool :=
  match c with
  | CEspRestart => true
  | _ => false
  end.

Definition is_reconnect (c : Call) : bool :=
  match c with
  | CWiFiReconnect => true
  | _ => false
  end.

Definition is_connect (c : Call) : bool :=
  match c with
  | CWiFiBegin _ _ => true
  | _ => false
  end.

Definition is_log (c : Call) : bool :=
  match c with
  | CLog _ _ => true
  | _ => false
  end.

(** Closed form of [Basecamp.checkResetReason]: outcome, final state and
    the calls made, per branch (see [checkResetReason_run]). *)
Definition checkResetReason_summary (w : World) : Outcome unit :=
  if (reset_reason w =? 1) || (reset_reason w =? 16)
  then
    let n := wrap32 (bootCounter w + 1) in
    if 3 <? n
    then
      let cfg := <[ConfigurationKey.wifiConfigured := "False"%string]> (configuration w) in
      Restarted (append_calls
        [CPreferencesBegin "basecamp" false;
         CLog LOG_INFO "Reset reason: %d";
         CLog LOG_INFO "Unsuccessful boots: %d";
         CLog LOG_WARN "Configuration forcibly reset.";
         CConfigurationSet ConfigurationKey.wifiConfigured "False";
         CConfigurationSave;
         CPreferencesPutUInt "bootcounter" 0;
         CPreferencesEnd;
         CLog LOG_WARN "Resetting the WiFi configuration.";
         CEspRestart]
        (set_nvs (<["bootcounter" := 0]> (nvs w))
           (set_spiffs (Some cfg) (set_configuration cfg w))))
    else if (2 <? n) && reportsNotConfigured w
    then
      Restarted (append_calls
        [CPreferencesBegin "basecamp" false;
         CLog LOG_INFO "Reset reason: %d";
         CLog LOG_INFO "Unsuccessful boots: %d";
         CLog LOG_WARN "Factory reset was forced.";
         CSpiffsFormat;
         CPreferencesPutUInt "bootcounter" 0;
         CPreferencesEnd;
         CLog LOG_WARN "Rebooting.";
         CEspRestart]
        (set_nvs (<["bootcounter" := 0]> (nvs w)) (set_spiffs None w)))
    else
      Returned tt (append_calls
        [CPreferencesBegin "basecamp" false;
         CLog LOG_INFO "Reset reason: %d";
         CLog LOG_INFO "Unsuccessful boots: %d";
         CPreferencesPutUInt "bootcounter" n;
         CPreferencesEnd]
        (set_nvs (<["bootcounter" := n]> (nvs w)) w))
  else
    Returned tt (append_calls
      [CPreferencesBegin "basecamp" false;
       CLog LOG_INFO "Reset reason: %d";
       CPreferencesPutUInt "bootcounter" 0;
       CPreferencesEnd]
      (set_nvs (<["bootcounter" := 0]> (nvs w)) w)).

(** The access point name [WifiControl::begin] settles on: the name set
    beforehand, or "ESP32_" followed by the hardware address. *)
Definition accessPointName (w : World) : string :=
  if (String.length (_wifiAPName w) =? 0)%nat
  then "ESP32_" +:+ format6Bytes (efuse_mac w) WifiControl.defaultDelimiter
  else _wifiAPName w.

(** Closed form of [WifiControl.begin] (see [WifiControl_begin_run]). *)
Definition WifiControl_begin_summary
    (essid password configured hostname apSecret : string) (w : World) : World :=
  let w1 := set__wifiAPName (accessPointName w)
              (set__wifiPassword password (set__wifiEssid essid w)) in
  if Arduino.equalsIgnoreCase configured "true"
  then
    append_calls
      [CLog LOG_INFO "Connecting to Wifi";
       CWiFiOnEvent;
       CLog LOG_INFO "Wifi is configured, connecting to '%s'";
       CWiFiBegin essid password;
       CWiFiSetHostname hostname]
      (set_operationMode_ Mode.client w1)
  else if (0 <? String.length apSecret)%nat
  then
    append_calls
      [CLog LOG_INFO "Connecting to Wifi";
       CWiFiOnEvent;
       CLog LOG_WARN "Wifi is NOT configured, starting Wifi AP '%s'";
       CWiFiMode WIFI_AP_STA;
       CLog LOG_DEBUG WifiControl.apPasswordLogFormat;
       CWiFiSoftAP (accessPointName w) (Some apSecret)]
      (set_operationMode_ Mode.accessPoint w1)
  else
    append_calls
      [CLog LOG_INFO "Connecting to Wifi";
       CWiFiOnEvent;
       CLog LOG_WARN "Wifi is NOT configured, starting Wifi AP '%s'";
       CWiFiMode WIFI_AP_STA;
       CWiFiSoftAP (accessPointName w) None]
      (set_operationMode_ Mode.accessPoint w1).

(** What every step of [Basecamp.begin] other than the fixed-secret check
    and [checkResetReason] leaves alone: the reset cause, the persisted
    counter store and the setup-mode encryption setting; calls are only
    ever added. *)
Definition frame (w w' : World) : Prop :=
  reset_reason w' = reset_reason w
  /\ nvs w' = nvs w
  /\ setupModeWifiEncryption_ w' = setupModeWifiEncryption_ w
  /\ exists new, calls w' = calls w ++ new.

(** A run that always returns, with a result satisfying [P], within [frame]. *)
Definition steady {A : Type} (P : A -> Prop) (m : Run A) : Prop :=
  forall w, exists a w', m w = Returned a w' /\ P a /\ frame w w'.

Definition tooShortLog : Call :=
  CLog LOG_ERROR "Error: Given fixed ap secret is too short. Refusing.".

(** Number of reconnect requests in a trace. *)
Definition reconnects (cs : list Call) : nat :=
  List.length (List.filter is_reconnect cs).

(** The network stack delivering a sequence of events to the handler. *)
Definition deliver (events : list WiFiEvent_t) (w : World) : World :=
  fold_left (fun w e => final (WifiControl.WiFiEvent e w)) events w.

Fixpoint string_mem (c : ascii) (s : string) : bool :=
  match s with
  | EmptyString => false
  | String x rest => Ascii.eqb c x || string_mem c rest
  end.

(** "Case-insensitively equals": equal after lowering both sides. *)
Definition equalsCaseInsensitively (s t : string) : Prop :=
  Arduino.toLowerCase s = Arduino.toLowerCase t.

(** A device at boot, used to exercise the statements below: reset cause
    [reason], stored counter [counter], stored configuration [cfg]. *)
Definition device_at_boot (reason counter : Z)
    (cfg : gmap ConfigurationKey.t string) : World :=
  {| reset_reason := reason;
     nvs := {["bootcounter" := counter]};
     spiffs := Some cfg;
     efuse_mac := [x24; x6f; x28; xab; x01; x2c];
     wifi_mac := [x24; x6f; x28; xab; x01; x2c];
     entropy := fun k => Z.of_nat k * 2654435761 + 12345;
     drawn := 0%nat;
     calls := [];
     configuration := cfg;
     setupModeWifiEncryption_ := SetupModeWifiEncryption.none;
     configurationUi_ := ConfigurationUI.always;
     hostname := EmptyString;
     mac := EmptyString;
     operationMode_ := Mode.unconfigured;
     _wifiEssid := EmptyString;
     _wifiPassword := EmptyString;
     _wifiAPName := EmptyString |}.

(* ===================================================================== *)
(** ** Further observations *)
(* ===================================================================== *)

Definition is_got_ip (e : WiFiEvent_t) : bool :=
  match e with
  | SYSTEM_EVENT_STA_GOT_IP => true
  | _ => false
  end.

Definition is_disconnected (e : WiFiEvent_t) : bool :=
  match e with
  | SYSTEM_EVENT_STA_DISCONNECTED => true
  | _ => false
  end.

Definition is_store_open (c : Call) : bool :=
  match c with
  | CPreferencesBegin _ _ => true
  | _ => false
  end.

Definition is_store_close (c : Call) : bool :=
  match c with
  | CPreferencesEnd => true
  | _ => false
  end.

(** Number of calls of a kind in a trace. *)
Definition count_calls (kind : Call -> bool) (cs : list Call) : nat :=
  List.length (List.filter kind cs).

(** The character the [i]-th iteration of [generateRandomSecret] appends
    on a device in state [w]: the alphabet indexed by the [i]-th next
    random number. *)
Definition secret_char (w : World) (i : nat) : ascii :=
  Arduino.charAt WifiControl.validChars
    (Z.to_nat (wrap32 (entropy w (drawn w + i)%nat)
               mod Z.of_nat (String.length WifiControl.validChars))).

Definition is_soft_ap (c : Call) : bool :=
  match c with
  | CWiFiSoftAP _ _ => true
  | _ => false
  end.

Definition is_wifi_mode (c : Call) : bool :=
  match c with
  | CWiFiMode _ => true
  | _ => false
  end.

Definition is_set_hostname (c : Call) : bool :=
  match c with
  | CWiFiSetHostname _ => true
  | _ => false
  end.

(** The replacement [_cleanHostname] applies to one character. *)
Definition clean_char (c : ascii) : ascii :=
  if Arduino.isalnum c then c else "-"%char.

Fixpoint string_map (f : ascii -> ascii) (s : string) : string :=
  match s with
  | EmptyString => EmptyString
  | String c rest => String (f c) (string_map f rest)
  end.

(** Closed form of the host name [_cleanHostname] returns for a device
    name (see [cleanHostname_run]). *)
Definition cleanName (deviceName : string) : string :=
  if String.eqb deviceName EmptyString
  then "basecamp-device"%string
  else string_map clean_char (Arduino.toLowerCase deviceName).

(** Characters of a clean host name: digits, lowercase letters, '-'. *)
Definition is_hostname_char (c : ascii) : bool :=
  let n := nat_of_ascii c in
  (((48 <=? n) && (n <=? 57)) || ((97 <=? n) && (n <=? 122)) || (n =? 45))%nat.

(** The device name held by the configuration store. *)
Definition deviceNameOf (w : World) : string :=
  default EmptyString (configuration w !! ConfigurationKey.deviceName).

(** The configuration [begin] works with once it has loaded it: the
    persisted one, or the empty one when nothing readable is persisted. *)
Definition loadedConfiguration (w : World) : gmap ConfigurationKey.t string :=
  match spiffs w with
  | Some stored => stored
  | None => ∅
  end.

(** The persisted "configured" flag. *)
Definition persistedFlag (w : World) : string :=
  default EmptyString (loadedConfiguration w !! ConfigurationKey.wifiConfigured).

(** State changes of the blocks of [Basecamp.begin], calls apart. *)

Definition accepted (fixedWiFiApEncryptionPassword : string) (w : World) : World :=
  if (8 <=? String.length fixedWiFiApEncryptionPassword)%nat
  then set_setupModeWifiEncryption_ SetupModeWifiEncryption.secured w
  else w.

Definition loaded (w : World) : World :=
  set_spiffs (Some (loadedConfiguration w))
    (set_configuration (loadedConfiguration w) w).

Definition named (w : World) : World :=
  set_hostname (cleanName (deviceNameOf w)) w.

Definition suspiciousCause (w : World) : bool :=
  (reset_reason w =? 1) || (reset_reason w =? 16).

(** Whether [checkResetReason] restarts the device. *)
Definition checkRestarts (w : World) : bool :=
  suspiciousCause w
  && ((3 <? wrap32 (bootCounter w + 1))
      || ((2 <? wrap32 (bootCounter w + 1)) && reportsNotConfigured w)).

(** The counter [checkResetReason] stores when it returns. *)
Definition countedBoot (w : World) : Z :=
  if suspiciousCause w then wrap32 (bootCounter w + 1) else 0.

Definition checked (w : World) : World :=
  set_nvs (<["bootcounter" := countedBoot w]> (nvs w)) w.

(** The characters [generateRandomSecret] appends in [n] iterations
    starting with the [i]-th next random number. *)
Fixpoint secret_from (w : World) (i n : nat) : string :=
  match n with
  | O => EmptyString
  | S n' => String (secret_char w i) (secret_from w (S i) n')
  end.

(** The secret [begin] generates on a device in state [w]. *)
Definition generatedSecret (w : World) : string := secret_from w 0 8.

Definition secretIsSet (w : World) : bool :=
  bool_decide (is_Some (configuration w !! ConfigurationKey.accessPointSecret)).

Definition storedSecret (w : World) : string :=
  default EmptyString (configuration w !! ConfigurationKey.accessPointSecret).

Definition provisioned (fixedWiFiApEncryptionPassword : string) (w : World) : World :=
  if negb (secretIsSet w) || (8 <=? String.length fixedWiFiApEncryptionPassword)%nat
  then
    if (String.length fixedWiFiApEncryptionPassword <? 8)%nat
    then
      let cfg := <[ConfigurationKey.accessPointSecret := generatedSecret w]>
                   (configuration w) in
      set_spiffs (Some cfg)
        (set_configuration cfg (set_drawn (drawn w + 8)%nat w))
    else
      let cfg := <[ConfigurationKey.accessPointSecret := fixedWiFiApEncryptionPassword]>
                   (configuration w) in
      set_spiffs (Some cfg) (set_configuration cfg w)
  else w.

(** The secret [begin] hands to [WifiControl::begin]. *)
Definition apSecretArgument (w : World) : string :=
  match setupModeWifiEncryption_ w with
  | SetupModeWifiEncryption.none => EmptyString
  | SetupModeWifiEncryption.secured => storedSecret w
  end.

Definition networkMode (w : World) : Mode.t :=
  if Arduino.equalsIgnoreCase (wifiConfiguredFlag w) "true"
  then Mode.client else Mode.accessPoint.

Definition networked (w : World) : World :=
  set_mac (format6Bytes (wifi_mac w) ":")
    (set_operationMode_ (networkMode w)
       (set__wifiAPName (accessPointName w)
          (set__wifiPassword
             (default EmptyString (configuration w !! ConfigurationKey.wifiPassword))
             (set__wifiEssid
                (default EmptyString (configuration w !! ConfigurationKey.wifiEssid))
                w)))).

(** The calls [WifiControl::begin] makes when [begin] starts the network. *)
Definition networkCalls (w : World) : list Call :=
  if Arduino.equalsIgnoreCase (wifiConfiguredFlag w) "true"
  then
    [CLog LOG_INFO "Connecting to Wifi";
     CWiFiOnEvent;
     CLog LOG_INFO "Wifi is configured, connecting to '%s'";
     CWiFiBegin
       (default EmptyString (configuration w !! ConfigurationKey.wifiEssid))
       (default EmptyString (configuration w !! ConfigurationKey.wifiPassword));
     CWiFiSetHostname (hostname w)]
  else if (0 <? String.length (apSecretArgument w))%nat
  then
    [CLog LOG_INFO "Connecting to Wifi";
     CWiFiOnEvent;
     CLog LOG_WARN "Wifi is NOT configured, starting Wifi AP '%s'";
     CWiFiMode WIFI_AP_STA;
     CLog LOG_DEBUG WifiControl.apPasswordLogFormat;
     CWiFiSoftAP (accessPointName w) (Some (apSecretArgument w))]
  else
    [CLog LOG_INFO "Connecting to Wifi";
     CWiFiOnEvent;
     CLog LOG_WARN "Wifi is NOT configured, starting Wifi AP '%s'";
     CWiFiMode WIFI_AP_STA;
     CWiFiSoftAP (accessPointName w) None].

(** The calls of the network block of [begin]: those of
    [WifiControl::begin], then the address read of [getSoftwareMacAddress]. *)
Definition startNetworkCalls (w : World) : list Call :=
  networkCalls w ++ [CWiFiMacAddress].

Definition is_web_begin (c : Call) : bool :=
  match c with
  | CExternal "web" "begin" _ => true
  | _ => false
  end.

Definition is_web_call (c : Call) : bool :=
  match c with
  | CExternal "web" _ _ => true
  | _ => false
  end.

Definition is_wifi_call (c : Call) : bool :=
  match c with
  | CWiFiOnEvent | CWiFiBegin _ _ | CWiFiSetHostname _ | CWiFiMode _
  | CWiFiSoftAP _ _ | CWiFiReconnect | CWiFiMacAddress => true
  | _ => false
  end.

(** Calls that concern neither the WiFi stack nor the web interface, and
    neither restart the device nor format its flash. *)
Definition is_plain_call (c : Call) : bool :=
  negb (is_wifi_call c) && negb (is_web_call c)
  && negb (is_restart c) && negb (is_storage_wipe c).

(** Calls that only log or address a collaborator outside the core. *)
Definition is_service_call (c : Call) : bool :=
  match c with
  | CLog _ _ => true
  | CExternal _ _ _ => true
  | _ => false
  end.

(** A run that always returns and only adds calls, all of them allowed by
    [ok], with a result satisfying [P]. *)
Definition quiet {A : Type} (ok : Call -> bool) (P : A -> Prop) (m : Run A) : Prop :=
  forall w, exists a new,
    m w = Returned a (append_calls new w) /\ forallb ok new = true /\ P a.

(** The state in which [begin] ends when it returns, calls apart. *)
Definition begun (fixedWiFiApEncryptionPassword : string) (w : World) : World :=
  networked
    (provisioned fixedWiFiApEncryptionPassword
       (checked (named (loaded (accepted fixedWiFiApEncryptionPassword w))))).

(** Whether the configuration web interface is set up by [begin]. *)
Definition webEnabled (w : World) : bool :=
  match configurationUi_ w, operationMode_ w with
  | ConfigurationUI.always, _ => true
  | ConfigurationUI.accessPoint, Mode.accessPoint => true
  | ConfigurationUI.accessPoint, _ => false
  end.

(** Whether a boot escalates, read off the state [begin] starts in: the
    reset cause, the persisted counter and the persisted flag. *)
Definition escalates (w : World) : bool :=
  suspiciousCause w
  && ((3 <? wrap32 (bootCounter w + 1))
      || ((2 <? wrap32 (bootCounter w + 1))
          && Arduino.equalsIgnoreCase (persistedFlag w) "false")).

(** Whether [begin] writes the access point secret: none is stored yet, or
    a fixed one of sufficient length is given. *)
Definition writesSecret (fixedWiFiApEncryptionPassword : string) (w : World) : bool :=
  negb (bool_decide (is_Some (loadedConfiguration w !! ConfigurationKey.accessPointSecret)))
  || (8 <=? String.length fixedWiFiApEncryptionPassword)%nat.

(** The access point secret the configuration holds after [begin]. *)
Definition secretAfterBegin (fixedWiFiApEncryptionPassword : string) (w : World) : string :=
  if writesSecret fixedWiFiApEncryptionPassword w
  then
    if (String.length fixedWiFiApEncryptionPassword <? 8)%nat
    then generatedSecret w
    else fixedWiFiApEncryptionPassword
  else default EmptyString
         (loadedConfiguration w !! ConfigurationKey.accessPointSecret).

(** The encryption setting after the fixed-secret check of [begin]. *)
Definition encryptionAfterBegin (fixedWiFiApEncryptionPassword : string) (w : World)
    : SetupModeWifiEncryption.t :=
  if (8 <=? String.length fixedWiFiApEncryptionPassword)%nat
  then SetupModeWifiEncryption.secured
  else setupModeWifiEncryption_ w.

(** The password of the access point [begin] starts: none when the
    encryption setting is [none] or the stored secret is empty. *)
Definition accessPointPassphrase (fixedWiFiApEncryptionPassword : string) (w : World)
    : option string :=
  match encryptionAfterBegin fixedWiFiApEncryptionPassword w with
  | SetupModeWifiEncryption.none => None
  | SetupModeWifiEncryption.secured =>
      if (0 <? String.length (secretAfterBegin fixedWiFiApEncryptionPassword w))%nat
      then Some (secretAfterBegin fixedWiFiApEncryptionPassword w)
      else None
  end.

(** The credentials and the host name [begin] hands to the WiFi stack. *)
Definition loadedEssid (w : World) : string :=
  default EmptyString (loadedConfiguration w !! ConfigurationKey.wifiEssid).

Definition loadedPassword (w : World) : string :=
  default EmptyString (loadedConfiguration w !! ConfigurationKey.wifiPassword).

Definition loadedHostname (w : World) : string :=
  cleanName (default EmptyString
               (loadedConfiguration w !! ConfigurationKey.deviceName)).

(** [next] is the device at its next power-up after the boot that started
    in [w]: [begin] ran, the events [events] were handled without an
    address ever being obtained, and only the persistent storage (the
    preferences and the flash file system) was carried over. *)
Definition next_boot (fixedWiFiApEncryptionPassword : string)
    (events : list WiFiEvent_t) (w next : World) : Prop :=
  existsb is_got_ip events = false
  /\ nvs next
     = nvs (deliver events (final (Basecamp.begin fixedWiFiApEncryptionPassword w)))
  /\ spiffs next
     = spiffs (deliver events (final (Basecamp.begin fixedWiFiApEncryptionPassword w))).

Arguments wrap32 : simpl never.
Arguments Arduino.equalsIgnoreCase : simpl never.
Arguments format6Bytes : simpl never.

(* ===================================================================== *)
(** * Properties *)
(* ===================================================================== *)

(** ** Strings *)

Lemma append_cons (c : ascii) (s1 s2 : string) :
  String c s1 +:+ s2 = String c (s1 +:+ s2).
Proof. reflexivity. Qed.

Lemma append_empty_l (s : string) : EmptyString +:+ s = s.
Proof. reflexivity. Qed.

Lemma append_assoc (s1 s2 s3 : string) : (s1 +:+ s2) +:+ s3 = s1 +:+ (s2 +:+ s3).
Proof.
  induction s1 as [|c s1 IH]; [reflexivity|].
  now rewrite !append_cons, IH.
Qed.

Lemma append_empty_r (s : string) : s +:+ EmptyString = s.
Proof.
  induction s as [|c s IH]; [reflexivity|]. now rewrite append_cons, IH.
Qed.

Lemma length_append (s1 s2 : string) :
  String.length (s1 +:+ s2) = (String.length s1 + String.length s2)%nat.
Proof.
  induction s1 as [|c s1 IH]; [reflexivity|].
  rewrite append_cons. simpl. now rewrite IH.
Qed.

(** ** format6Bytes *)

(** A byte printed in base 16 into a field of width 2 filled with '0' is
    its two-digit group. *)
Lemma put_uint_byte (b : byte) (os : OStream.ostringstream) :
  OStream.fill os = "0"%char -> OStream.width os = 2%nat -> OStream.base os = 16%N ->
  OStream.buffer (OStream.put_uint (Byte.to_N b) os)
  = OStream.buffer os +:+ hex_group b.
Proof.
  intros Hf Hw Hb. unfold OStream.put_uint, OStream.insert_formatted.
  cbn [OStream.buffer]. rewrite Hf, Hw, Hb. f_equal.
  destruct b; vm_compute; reflexivity.
Qed.

(** Effect of one loop iteration on a stream whose pending width is 0:
    the delimiter is written unpadded, the group follows, and the width is
    0 again. *)
Lemma format6Bytes_step_buffer bytes delimiter os i :
  OStream.width os = 0%nat ->
  OStream.buffer (format6Bytes_step bytes delimiter os i)
  = OStream.buffer os +:+ separator delimiter i +:+ hex_group (byte_at bytes i)
  /\ OStream.width (format6Bytes_step bytes delimiter os i) = 0%nat.
Proof.
  intros Hw. unfold format6Bytes_step, separator. split; [|reflexivity].
  destruct i as [|i]; cbn [Nat.eqb negb andb].
  - rewrite put_uint_byte by reflexivity. reflexivity.
  - destruct delimiter as [|c d]; cbn [String.length Nat.ltb Nat.leb].
    + rewrite put_uint_byte by reflexivity. reflexivity.
    + rewrite put_uint_byte by reflexivity.
      cbn [OStream.hex OStream.setw OStream.setfill OStream.buffer
           OStream.put_cstr OStream.insert_formatted].
      rewrite Hw. cbn [Nat.sub OStream.padding].
      rewrite append_empty_l. now rewrite append_assoc.
Qed.

Lemma hex_group_length (b : byte) : String.length (hex_group b) = 2%nat.
Proof. reflexivity. Qed.

(** Both characters of a group are lowercase hexadecimal digits, and they
    read back as the byte. *)
Lemma hex_group_digits (b : byte) :
  exists hi lo,
    hex_group b = String hi (String lo EmptyString)
    /\ exists h l, hex_value hi = Some h /\ hex_value lo = Some l
                   /\ (16 * h + l)%N = Byte.to_N b.
Proof.
  exists (OStream.digit_char (Byte.to_N b / 16)%N),
         (OStream.digit_char (Byte.to_N b mod 16)%N).
  split; [reflexivity|].
  exists (Byte.to_N b / 16)%N, (Byte.to_N b mod 16)%N.
  destruct b; vm_compute; repeat split; reflexivity.
Qed.

(** C6. [format6Bytes], applied to exactly six bytes and any delimiter,
    returns the six groups of the bytes joined by the delimiter, where the
    group of a byte is two lowercase hexadecimal digits whose value is the
    byte (so small bytes are padded with 0); with the empty delimiter the
    groups follow each other directly; the bytes ab 01 2c 00 ff 10 with ":"
    give "ab:01:2c:00:ff:10".  Being a function of its two arguments only,
    the result depends on nothing else. *)
Theorem format6Bytes_joins_hex_groups (bytes : list byte) (delimiter : string) :
  List.length bytes = 6%nat ->
  format6Bytes bytes delimiter = format6BytesAsHex_spec bytes delimiter
  /\ (forall b : byte,
        exists hi lo h l,
          hex_group b = String hi (String lo EmptyString)
          /\ hex_value hi = Some h /\ hex_value lo = Some l
          /\ (16 * h + l)%N = Byte.to_N b)
  /\ format6Bytes bytes EmptyString
     = fold_right String.append EmptyString (map hex_group bytes)
  /\ format6Bytes [xab; x01; x2c; x00; xff; x10] ":" = "ab:01:2c:00:ff:10"%string.
Proof.
  intros Hlen.
  destruct bytes as [|b0 [|b1 [|b2 [|b3 [|b4 [|b5 [|b6 rest]]]]]]];
    simpl in Hlen; try discriminate.
  assert (Hgen : forall d,
    format6Bytes [b0; b1; b2; b3; b4; b5] d
    = hex_group b0 +:+ d +:+ hex_group b1 +:+ d +:+ hex_group b2 +:+ d
      +:+ hex_group b3 +:+ d +:+ hex_group b4 +:+ d +:+ hex_group b5).
  { intros d. unfold format6Bytes, OStream.str. cbn [seq fold_left].
    repeat match goal with
    | |- context [OStream.buffer (format6Bytes_step ?bs ?dl ?os ?i)] =>
        let H := fresh in
        assert (H : OStream.width os = 0%nat)
          by (first [reflexivity | apply format6Bytes_step_buffer; trivial]);
        rewrite (proj1 (format6Bytes_step_buffer bs dl os i H))
    end.
    cbn [separator Nat.eqb byte_at nth OStream.empty OStream.buffer].
    rewrite !append_empty_l. now rewrite !append_assoc. }
  split; [|split; [|split]].
  - rewrite Hgen. unfold format6BytesAsHex_spec. cbn [map String.concat].
    reflexivity.
  - intros b. destruct (hex_group_digits b) as (hi & lo & Hg & h & l & H).
    exists hi, lo, h, l. tauto.
  - rewrite Hgen. cbn [map fold_right].
    now rewrite !append_empty_l, append_empty_r.
  - vm_compute. reflexivity.
Qed.

Lemma format6Bytes_joins_hex_groups_witness :
  List.length [xab; x01; x2c; x00; xff; x10] = 6%nat
  /\ format6Bytes [xab; x01; x2c; x00; xff; x10] "-"
     = format6BytesAsHex_spec [xab; x01; x2c; x00; xff; x10] "-".
Proof.
  split; [reflexivity|].
  apply (format6Bytes_joins_hex_groups [xab; x01; x2c; x00; xff; x10] "-").
  reflexivity.
Defined.

(** ** Case-insensitive comparison *)

Lemma toLowerCase_length (s : string) :
  String.length (Arduino.toLowerCase s) = String.length s.
Proof. induction s as [|c s IH]; simpl; [reflexivity | now rewrite IH]. Qed.

Lemma equalsIgnoreCase_loop_spec (s t : string) :
  String.length s = String.length t ->
  Arduino.equalsIgnoreCase_loop s t = true
  <-> Arduino.toLowerCase s = Arduino.toLowerCase t.
Proof.
  revert t. induction s as [|c s IH]; intros [|d t] Hlen;
    simpl in Hlen; try discriminate.
  - simpl. tauto.
  - simpl. destruct (Ascii.eqb_spec (Arduino.tolower c) (Arduino.tolower d)) as [Heq|Hne].
    + rewrite IH by lia. rewrite Heq. split; [intros ->; reflexivity|].
      intros H. now inversion H.
    + split; [discriminate|]. intros H. inversion H. contradiction.
Qed.

(** [String::equalsIgnoreCase] decides equality up to letter case. *)
Lemma equalsIgnoreCase_spec (s t : string) :
  Arduino.equalsIgnoreCase s t = true <-> equalsCaseInsensitively s t.
Proof.
  unfold Arduino.equalsIgnoreCase, equalsCaseInsensitively.
  destruct (Nat.eqb_spec (String.length s) (String.length t)) as [Hlen|Hlen];
    cbn [negb].
  - destruct (Nat.eqb_spec (String.length s) 0) as [H0|H0].
    + destruct s; [|discriminate]. destruct t; [|discriminate]. tauto.
    + now apply equalsIgnoreCase_loop_spec.
  - split; [discriminate|]. intros H. exfalso. apply Hlen.
    rewrite <- (toLowerCase_length s), <- (toLowerCase_length t). now rewrite H.
Qed.

Lemma equalsIgnoreCase_false (s t : string) :
  Arduino.equalsIgnoreCase s t = false <-> ~ equalsCaseInsensitively s t.
Proof.
  rewrite <- equalsIgnoreCase_spec.
  destruct (Arduino.equalsIgnoreCase s t); split; congruence.
Qed.

(** ** Running the boot resilience check *)

Lemma wrap32_idem z : wrap32 (wrap32 z) = wrap32 z.
Proof. unfold wrap32. apply Z.mod_mod. lia. Qed.

Lemma wrap32_range z : 0 <= wrap32 z < 2 ^ 32.
Proof. unfold wrap32. apply Z.mod_pos_bound. lia. Qed.

Lemma wrap32_small z : 0 <= z < 2 ^ 32 -> wrap32 z = z.
Proof. intros H. unfold wrap32. now apply Z.mod_small. Qed.

Ltac run_unfold :=
  repeat progress unfold mbind, Run_bind, mret, Run_ret,
    Preferences.begin, Preferences.putUInt, Preferences.end_, Preferences.getUInt,
    Configuration.get, Configuration.set, Configuration.save, Configuration.isKeySet,
    SPIFFS.format, ESP.restart, rtc_get_reset_reason,
    WiFi.onEvent, WiFi.begin, WiFi.setHostname, WiFi.mode, WiFi.softAP,
    WiFi.reconnect, WiFi.macAddress,
    ESP_LOGE, ESP_LOGW, ESP_LOGI, ESP_LOGD, external, emit, modify, gets.

(** [checkResetReason] computes its closed form. *)
Lemma checkResetReason_run w :
  Basecamp.checkResetReason w = checkResetReason_summary w.
Proof.
  unfold Basecamp.checkResetReason, checkResetReason_summary, reportsNotConfigured,
    bootCounter, wifiConfiguredFlag, append_calls.
  run_unfold. cbn. change (wrap32 0) with 0.
  destruct ((reset_reason w =? 1) || (reset_reason w =? 16)); cbn.
  - destruct (3 <? _); cbn.
    + rewrite <- !app_assoc. reflexivity.
    + destruct (2 <? _); cbn.
      * destruct (Arduino.equalsIgnoreCase _ _); cbn.
        -- rewrite <- !app_assoc. reflexivity.
        -- rewrite <- !app_assoc, !wrap32_idem. reflexivity.
      * rewrite <- !app_assoc, !wrap32_idem. reflexivity.
  - rewrite <- !app_assoc. reflexivity.
Qed.

Lemma bootCounter_range w : 0 <= bootCounter w < 2 ^ 32.
Proof. apply wrap32_range. Qed.

Lemma bootCounter_stored (m : gmap string Z) (v : Z) (w : World) :
  bootCounter (set_nvs (<["bootcounter" := v]> m) w) = wrap32 v.
Proof. unfold bootCounter. cbn. now rewrite lookup_insert_eq. Qed.

Lemma bootCounter_append_calls cs w : bootCounter (append_calls cs w) = bootCounter w.
Proof. reflexivity. Qed.

(** The increment [bootCounter++] is the mathematical successor except at
    the largest [unsigned int], where it wraps to 0. *)
Lemma increment_no_wrap w :
  bootCounter w < 2 ^ 32 - 1 -> wrap32 (bootCounter w + 1) = bootCounter w + 1.
Proof. intros H. apply wrap32_small. pose proof (bootCounter_range w). lia. Qed.

Lemma suspicious_cause_test (reason : Z) :
  reason = 1 \/ reason = 16 -> (reason =? 1) || (reason =? 16) = true.
Proof. intros [-> | ->]; reflexivity. Qed.

Lemma other_cause_test (reason : Z) :
  reason <> 1 -> reason <> 16 -> (reason =? 1) || (reason =? 16) = false.
Proof.
  intros H1 H16.
  destruct (Z.eqb_spec reason 1); [contradiction|].
  destruct (Z.eqb_spec reason 16); [contradiction|]. reflexivity.
Qed.

Lemma false_flag_reports_not_configured
    (cfg : gmap ConfigurationKey.t string) (w : World) :
  reportsNotConfigured
    (set_configuration (<[ConfigurationKey.wifiConfigured := "False"%string]> cfg) w)
  = true.
Proof.
  unfold reportsNotConfigured, wifiConfiguredFlag. cbn.
  now rewrite lookup_insert_eq.
Qed.

(** A store that reports "not configured" to the check also sends
    [WifiControl::begin] into access point mode; the converse fails for a
    flag that is neither "true" nor "false" (see
    [counter_2_unset_flag_counts]). *)
Lemma reportsNotConfigured_not_true w :
  reportsNotConfigured w = true ->
  Arduino.equalsIgnoreCase (wifiConfiguredFlag w) "true" = false.
Proof.
  unfold reportsNotConfigured. intros Hfalse.
  destruct (Arduino.equalsIgnoreCase (wifiConfiguredFlag w) "true") eqn:Htrue;
    [|reflexivity].
  apply equalsIgnoreCase_spec in Hfalse, Htrue.
  unfold equalsCaseInsensitively in *. rewrite Hfalse in Htrue. discriminate.
Qed.

(** C1. On a boot whose reset cause is 1 or 16, with the persisted counter
    at [c] and [n] the incremented counter ([bootCounter++] on a 32-bit
    unsigned, i.e. [c+1] for every [c] below 2^32-1):
    - if [n <= 2], or no escalation branch fires, [n] is persisted and the
      check returns without a restart;
    - if [n = 3] and the configuration store reports "not configured" (the
      stored flag equals "false" ignoring case), the flash storage is
      formatted, the counter is reset to 0, the store is closed and the
      device restarts;
    - if [n > 3], whatever the flag, the network configuration is marked
      unconfigured and saved, the counter is reset to 0, the store is
      closed and the device restarts. *)
Theorem checkResetReason_suspicious_cause (w : World) :
  reset_reason w = 1 \/ reset_reason w = 16 ->
  let c := bootCounter w in
  let n := wrap32 (c + 1) in
  (c < 2 ^ 32 - 1 -> n = c + 1)
  /\ (n <= 2 \/ (n = 3 /\ reportsNotConfigured w = false) ->
      exists w',
        Basecamp.checkResetReason w = Returned tt w'
        /\ bootCounter w' = n
        /\ configuration w' = configuration w
        /\ spiffs w' = spiffs w
        /\ calls w' = calls w ++
             [CPreferencesBegin "basecamp" false;
              CLog LOG_INFO "Reset reason: %d";
              CLog LOG_INFO "Unsuccessful boots: %d";
              CPreferencesPutUInt "bootcounter" n;
              CPreferencesEnd])
  /\ (n = 3 /\ reportsNotConfigured w = true ->
      exists w',
        Basecamp.checkResetReason w = Restarted w'
        /\ spiffs w' = None
        /\ bootCounter w' = 0
        /\ calls w' = calls w ++
             [CPreferencesBegin "basecamp" false;
              CLog LOG_INFO "Reset reason: %d";
              CLog LOG_INFO "Unsuccessful boots: %d";
              CLog LOG_WARN "Factory reset was forced.";
              CSpiffsFormat;
              CPreferencesPutUInt "bootcounter" 0;
              CPreferencesEnd;
              CLog LOG_WARN "Rebooting.";
              CEspRestart])
  /\ (n > 3 ->
      exists w',
        Basecamp.checkResetReason w = Restarted w'
        /\ configuration w'
           = <[ConfigurationKey.wifiConfigured := "False"%string]> (configuration w)
        /\ spiffs w' = Some (configuration w')
        /\ reportsNotConfigured w' = true
        /\ bootCounter w' = 0
        /\ calls w' = calls w ++
             [CPreferencesBegin "basecamp" false;
              CLog LOG_INFO "Reset reason: %d";
              CLog LOG_INFO "Unsuccessful boots: %d";
              CLog LOG_WARN "Configuration forcibly reset.";
              CConfigurationSet ConfigurationKey.wifiConfigured "False";
              CConfigurationSave;
              CPreferencesPutUInt "bootcounter" 0;
              CPreferencesEnd;
              CLog LOG_WARN "Resetting the WiFi configuration.";
              CEspRestart]).
Proof.
  intros Hcause c n.
  pose proof (suspicious_cause_test _ Hcause) as Htest.
  assert (Hn : wrap32 n = n) by apply wrap32_idem.
  split; [apply increment_no_wrap|].
  rewrite checkResetReason_run. unfold checkResetReason_summary.
  rewrite Htest. fold c. fold n. cbv zeta.
  split; [|split].
  - intros Hnormal.
    assert (H3 : (3 <? n) = false) by (apply Z.ltb_ge; lia).
    assert (H2 : (2 <? n) && reportsNotConfigured w = false).
    { destruct Hnormal as [Hle | [_ ->]]; [|apply andb_false_r].
      apply andb_false_intro1, Z.ltb_ge. lia. }
    rewrite H3, H2. eexists. split; [reflexivity|].
    rewrite bootCounter_append_calls, bootCounter_stored. auto.
  - intros [Hn3 Hflag].
    assert (H3 : (3 <? n) = false) by (apply Z.ltb_ge; lia).
    assert (H2 : (2 <? n) = true) by (apply Z.ltb_lt; lia).
    rewrite H3, H2, Hflag. eexists. split; [reflexivity|].
    rewrite bootCounter_append_calls, bootCounter_stored. auto.
  - intros Hgt.
    assert (H3 : (3 <? n) = true) by (apply Z.ltb_lt; lia).
    rewrite H3. eexists. split; [reflexivity|].
    rewrite bootCounter_append_calls, bootCounter_stored.
    repeat split. apply false_flag_reports_not_configured.
Qed.

Lemma checkResetReason_suspicious_cause_witness :
  (reset_reason (device_at_boot 1 3 ∅) = 1 \/ reset_reason (device_at_boot 1 3 ∅) = 16)
  /\ exists w',
       Basecamp.checkResetReason (device_at_boot 1 3 ∅) = Restarted w'
       /\ reportsNotConfigured w' = true
       /\ bootCounter w' = 0.
Proof.
  split; [left; reflexivity|].
  destruct (checkResetReason_suspicious_cause (device_at_boot 1 3 ∅)
              (or_introl eq_refl)) as (_ & _ & _ & Hreset).
  destruct Hreset as (w' & Hrun & _ & _ & Hflag & Hcount & _).
  - vm_compute. reflexivity.
  - exists w'. auto.
Defined.

(** C2. On a boot whose reset cause is neither 1 nor 16, the check stores
    0 in the boot counter whatever it held, performs no escalation action
    (the configuration and the flash storage are untouched, the only calls
    are opening the store, a log line, the counter write and closing the
    store) and returns without restarting. *)
Theorem checkResetReason_other_cause (w : World) :
  reset_reason w <> 1 -> reset_reason w <> 16 ->
  exists w',
    Basecamp.checkResetReason w = Returned tt w'
    /\ bootCounter w' = 0
    /\ configuration w' = configuration w
    /\ spiffs w' = spiffs w
    /\ calls w' = calls w ++
         [CPreferencesBegin "basecamp" false;
          CLog LOG_INFO "Reset reason: %d";
          CPreferencesPutUInt "bootcounter" 0;
          CPreferencesEnd].
Proof.
  intros H1 H16.
  rewrite checkResetReason_run. unfold checkResetReason_summary.
  rewrite (other_cause_test _ H1 H16).
  eexists. split; [reflexivity|].
  rewrite bootCounter_append_calls, bootCounter_stored. auto.
Qed.

Lemma checkResetReason_other_cause_witness :
  reset_reason (device_at_boot 12 3 ∅) <> 1
  /\ reset_reason (device_at_boot 12 3 ∅) <> 16
  /\ exists w',
       Basecamp.checkResetReason (device_at_boot 12 3 ∅) = Returned tt w'
       /\ bootCounter w' = 0.
Proof.
  assert (H1 : reset_reason (device_at_boot 12 3 ∅) <> 1) by (simpl; lia).
  assert (H16 : reset_reason (device_at_boot 12 3 ∅) <> 16) by (simpl; lia).
  split; [exact H1|]. split; [exact H16|].
  destruct (checkResetReason_other_cause (device_at_boot 12 3 ∅) H1 H16)
    as (w' & Hrun & Hcount & _).
  exists w'. auto.
Defined.

(** The two boundary scenarios of the specification, and two boundary
    inputs of the case split. *)

Example counter_2_unconfigured_wipes :
  let o := Basecamp.checkResetReason
             (device_at_boot 1 2 {[ConfigurationKey.wifiConfigured := "false"%string]}) in
  restarted o = true
  /\ spiffs (final o) = None
  /\ bootCounter (final o) = 0
  /\ existsb is_storage_wipe (calls (final o)) = true
  /\ existsb is_network_reset (calls (final o)) = false.
Proof. vm_compute. repeat split. Qed.

Example counter_3_resets_network :
  let o := Basecamp.checkResetReason
             (device_at_boot 16 3 {[ConfigurationKey.wifiConfigured := "true"%string]}) in
  restarted o = true
  /\ wifiConfiguredFlag (final o) = "False"%string
  /\ bootCounter (final o) = 0
  /\ existsb is_network_reset (calls (final o)) = true
  /\ existsb is_storage_wipe (calls (final o)) = false.
Proof. vm_compute. repeat split. Qed.

(** A flag that is neither "true" nor "false" (here: unset) does not count
    as "not configured" for the wipe: the third suspicious boot is only
    counted. *)
Example counter_2_unset_flag_counts :
  let o := Basecamp.checkResetReason (device_at_boot 1 2 ∅) in
  restarted o = false /\ bootCounter (final o) = 3 /\ spiffs (final o) = Some ∅.
Proof. vm_compute. repeat split. Qed.

(** At the largest [unsigned int] the increment wraps to 0. *)
Example counter_wraps_at_max :
  let o := Basecamp.checkResetReason (device_at_boot 1 4294967295 ∅) in
  restarted o = false /\ bootCounter (final o) = 0.
Proof. vm_compute. repeat split. Qed.

(** Whatever the check finds, it leaves a counter of at most 3 behind, so
    the increment of the next boot cannot wrap. *)
Lemma checkResetReason_counter_bound w :
  0 <= bootCounter (final (Basecamp.checkResetReason w)) <= 3.
Proof.
  rewrite checkResetReason_run. unfold checkResetReason_summary.
  destruct (_ || _); cbv zeta.
  - destruct (3 <? _) eqn:H3.
    + cbn [final]. rewrite bootCounter_append_calls, bootCounter_stored.
      vm_compute. split; discriminate.
    + apply Z.ltb_ge in H3.
      destruct (_ && _); cbn [final];
        rewrite bootCounter_append_calls, bootCounter_stored.
      * vm_compute. split; discriminate.
      * rewrite wrap32_idem. pose proof (wrap32_range (bootCounter w + 1)). lia.
  - cbn [final]. rewrite bootCounter_append_calls, bootCounter_stored.
    vm_compute. split; discriminate.
Qed.

(** C9. In one execution of [checkResetReason] at most one escalation
    action is performed, never both kinds; whenever the device is restarted,
    the counter write and the closing of the store come before the restart
    call, which is the last call made, and exactly one escalation action
    precedes them; when the check returns, no escalation action and no
    restart happened. *)
Theorem checkResetReason_single_escalation (w : World) :
  exists new,
    calls (final (Basecamp.checkResetReason w)) = calls w ++ new
    /\ (List.length (List.filter is_escalation new) <= 1)%nat
    /\ ~ (existsb is_network_reset new = true /\ existsb is_storage_wipe new = true)
    /\ (restarted (Basecamp.checkResetReason w) = true ->
        exists before logs,
          new = before
                ++ [CPreferencesPutUInt "bootcounter" 0; CPreferencesEnd]
                ++ logs ++ [CEspRestart]
          /\ List.length (List.filter is_escalation before) = 1%nat
          /\ existsb is_restart before = false
          /\ forallb is_log logs = true)
    /\ (restarted (Basecamp.checkResetReason w) = false ->
        List.filter is_escalation new = [] /\ existsb is_restart new = false).
Proof.
  rewrite checkResetReason_run. unfold checkResetReason_summary.
  destruct ((reset_reason w =? 1) || (reset_reason w =? 16)); cbv zeta.
  - destruct (3 <? _).
    + eexists. split; [reflexivity|].
      split; [cbn; lia|]. split; [cbn; intros [_ H]; discriminate|].
      split; [|cbn; discriminate].
      intros _.
      exists [CPreferencesBegin "basecamp" false;
              CLog LOG_INFO "Reset reason: %d";
              CLog LOG_INFO "Unsuccessful boots: %d";
              CLog LOG_WARN "Configuration forcibly reset.";
              CConfigurationSet ConfigurationKey.wifiConfigured "False";
              CConfigurationSave],
             [CLog LOG_WARN "Resetting the WiFi configuration."].
      repeat split.
    + destruct ((2 <? _) && reportsNotConfigured w).
      * eexists. split; [reflexivity|].
        split; [cbn; lia|]. split; [cbn; intros [H _]; discriminate|].
        split; [|cbn; discriminate].
        intros _.
        exists [CPreferencesBegin "basecamp" false;
                CLog LOG_INFO "Reset reason: %d";
                CLog LOG_INFO "Unsuccessful boots: %d";
                CLog LOG_WARN "Factory reset was forced.";
                CSpiffsFormat],
               [CLog LOG_WARN "Rebooting."].
        repeat split.
      * eexists. split; [reflexivity|].
        split; [cbn; lia|]. split; [cbn; intros [H _]; discriminate|].
        split; [cbn; discriminate|]. intros _. split; reflexivity.
  - eexists. split; [reflexivity|].
    split; [cbn; lia|]. split; [cbn; intros [H _]; discriminate|].
    split; [cbn; discriminate|]. intros _. split; reflexivity.
Qed.

(** ** The network event handler *)

Lemma WiFiEvent_got_ip_run w :
  WifiControl.WiFiEvent SYSTEM_EVENT_STA_GOT_IP w
  = Returned tt (append_calls
      [CPreferencesBegin "basecamp" false;
       CLog LOG_DEBUG "WiFiEvent %d, Bootcounter is %d";
       CLog LOG_INFO "WIFI Got IPv4 address %u.%u.%u.%u";
       CPreferencesPutUInt "bootcounter" 0;
       CPreferencesEnd]
      (set_nvs (<["bootcounter" := 0]> (nvs w)) w)).
Proof.
  unfold WifiControl.WiFiEvent, append_calls. run_unfold. cbn.
  change (wrap32 0) with 0. rewrite <- !app_assoc. reflexivity.
Qed.

Lemma WiFiEvent_disconnected_run w :
  WifiControl.WiFiEvent SYSTEM_EVENT_STA_DISCONNECTED w
  = Returned tt (append_calls
      [CPreferencesBegin "basecamp" false;
       CLog LOG_DEBUG "WiFiEvent %d, Bootcounter is %d";
       CLog LOG_INFO "WIFI Lost connection";
       CWiFiReconnect;
       CPreferencesEnd] w).
Proof.
  unfold WifiControl.WiFiEvent, append_calls. run_unfold. cbn.
  rewrite <- !app_assoc. reflexivity.
Qed.

Lemma deliver_cons e events w :
  deliver (e :: events) w = deliver events (final (WifiControl.WiFiEvent e w)).
Proof. reflexivity. Qed.

Lemma deliver_got_ip_nvs k w :
  nvs (deliver (List.repeat SYSTEM_EVENT_STA_GOT_IP (S k)) w)
  = <["bootcounter" := 0]> (nvs w).
Proof.
  revert w. induction k as [|k IH]; intros w.
  - cbn [List.repeat]. rewrite deliver_cons, WiFiEvent_got_ip_run. reflexivity.
  - change (List.repeat SYSTEM_EVENT_STA_GOT_IP (S (S k)))
      with (SYSTEM_EVENT_STA_GOT_IP :: List.repeat SYSTEM_EVENT_STA_GOT_IP (S k)).
    rewrite deliver_cons, IH, WiFiEvent_got_ip_run. cbn.
    apply insert_insert_eq.
Qed.

(** C3. An address-acquired event makes the handler store 0 in the
    persisted boot counter and return; after any sequence of one or more
    such events the counter is 0, and the store is the same as after the
    first of them (repeating the event changes nothing more). *)
Theorem WiFiEvent_got_ip_resets_counter (w : World) :
  (exists w',
     WifiControl.WiFiEvent SYSTEM_EVENT_STA_GOT_IP w = Returned tt w'
     /\ bootCounter w' = 0)
  /\ (forall k,
        bootCounter (deliver (List.repeat SYSTEM_EVENT_STA_GOT_IP (S k)) w) = 0)
  /\ (forall k,
        nvs (deliver (List.repeat SYSTEM_EVENT_STA_GOT_IP (S k)) w)
        = nvs (deliver [SYSTEM_EVENT_STA_GOT_IP] w)).
Proof.
  split; [|split].
  - rewrite WiFiEvent_got_ip_run. eexists. split; [reflexivity|].
    now rewrite bootCounter_append_calls, bootCounter_stored.
  - intros k. unfold bootCounter. rewrite deliver_got_ip_nvs.
    now rewrite lookup_insert_eq.
  - intros k. rewrite deliver_got_ip_nvs.
    symmetry. apply (deliver_got_ip_nvs 0).
Qed.

Lemma reconnects_app cs1 cs2 :
  reconnects (cs1 ++ cs2) = (reconnects cs1 + reconnects cs2)%nat.
Proof. unfold reconnects. now rewrite List.filter_app, List.length_app. Qed.

(** C4. A link-lost event makes the handler request a reconnect at once:
    the calls of the invocation are opening the store, two log lines, the
    reconnect request and closing the store, whatever happened before, so
    [k] such events in a row give [k] reconnect requests for every [k];
    the persisted store, hence the boot counter, is left as it was. *)
Theorem WiFiEvent_disconnected_reconnects (w : World) :
  (exists w',
     WifiControl.WiFiEvent SYSTEM_EVENT_STA_DISCONNECTED w = Returned tt w'
     /\ nvs w' = nvs w
     /\ bootCounter w' = bootCounter w
     /\ calls w' = calls w ++
          [CPreferencesBegin "basecamp" false;
           CLog LOG_DEBUG "WiFiEvent %d, Bootcounter is %d";
           CLog LOG_INFO "WIFI Lost connection";
           CWiFiReconnect;
           CPreferencesEnd])
  /\ (forall k,
        let w' := deliver (List.repeat SYSTEM_EVENT_STA_DISCONNECTED k) w in
        reconnects (calls w') = (reconnects (calls w) + k)%nat
        /\ nvs w' = nvs w).
Proof.
  split.
  - rewrite WiFiEvent_disconnected_run. eexists. repeat split.
  - intros k. cbv zeta. revert w. induction k as [|k IH]; intros w.
    + cbn. split; [lia | reflexivity].
    + cbn [List.repeat]. rewrite deliver_cons, WiFiEvent_disconnected_run.
      destruct (IH (final (Returned tt (append_calls
        [CPreferencesBegin "basecamp" false;
         CLog LOG_DEBUG "WiFiEvent %d, Bootcounter is %d";
         CLog LOG_INFO "WIFI Lost connection";
         CWiFiReconnect;
         CPreferencesEnd] w)))) as [Hcount Hnvs].
      rewrite Hcount, Hnvs. split; [|reflexivity].
      change (calls (final (Returned tt (append_calls ?l w)))) with (calls w ++ l).
      rewrite reconnects_app. cbn. lia.
Qed.

(** ** generateRandomSecret *)

Lemma charAt_mem (s : string) (i : nat) :
  (i < String.length s)%nat -> string_mem (Arduino.charAt s i) s = true.
Proof.
  unfold Arduino.charAt. revert i.
  induction s as [|c s IH]; intros i Hi; simpl in Hi; [lia|].
  destruct i as [|i]; simpl.
  - now rewrite Ascii.eqb_refl.
  - rewrite IH by lia. apply orb_true_r.
Qed.

Lemma string_forallb_append p (s1 s2 : string) :
  string_forallb p (s1 +:+ s2) = string_forallb p s1 && string_forallb p s2.
Proof.
  induction s1 as [|c s1 IH]; [reflexivity|].
  rewrite append_cons. simpl. now rewrite IH, andb_assoc.
Qed.

Lemma string_mem_excluded (x : ascii) (alphabet s : string) :
  string_forallb (fun c => string_mem c alphabet) s = true ->
  string_mem x alphabet = false ->
  string_mem x s = false.
Proof.
  intros Hall Hx. induction s as [|c s IH]; [reflexivity|].
  simpl in Hall. apply andb_true_iff in Hall as [Hc Hs].
  simpl. rewrite (IH Hs), orb_false_r.
  destruct (Ascii.eqb_spec x c) as [->|]; [congruence | reflexivity].
Qed.

Lemma random_index_in_range (r : Z) :
  (Z.to_nat (r mod Z.of_nat (String.length WifiControl.validChars))
   < String.length WifiControl.validChars)%nat.
Proof.
  change (String.length WifiControl.validChars) with 61%nat.
  pose proof (Z.mod_pos_bound r (Z.of_nat 61)). lia.
Qed.

(** The loop appends [remaining] characters of the alphabet, drawing one
    random number for each. *)
Lemma generateRandomSecret_loop_spec (remaining : nat) :
  forall (returnValue : string) (w : World),
  exists s,
    WifiControl.generateRandomSecret_loop remaining returnValue w
    = Returned s (set_drawn (drawn w + remaining)%nat w)
    /\ String.length s = (String.length returnValue + remaining)%nat
    /\ (string_forallb (fun c => string_mem c WifiControl.validChars) returnValue = true ->
        string_forallb (fun c => string_mem c WifiControl.validChars) s = true).
Proof.
  induction remaining as [|remaining IH]; intros returnValue w.
  - exists returnValue. cbn. rewrite !Nat.add_0_r.
    split; [destruct w; reflexivity | auto].
  - cbn [WifiControl.generateRandomSecret_loop].
    unfold mbind, Run_bind, esp_random.
    match goal with
    | |- context [WifiControl.generateRandomSecret_loop remaining ?acc ?w1] =>
        destruct (IH acc w1) as (s & Hrun & Hlen & Hall)
    end.
    exists s. rewrite Hrun. split; [|split].
    + cbn. now rewrite Nat.add_succ_r.
    + rewrite Hlen. unfold Arduino.concat_char. rewrite length_append.
      simpl. lia.
    + intros Hacc. apply Hall. unfold Arduino.concat_char.
      rewrite string_forallb_append, Hacc. cbn [string_forallb andb].
      now rewrite charAt_mem by apply random_index_in_range.
Qed.

(** C5. For every length argument, [generateRandomSecret] returns a string
    of exactly max(length, 8) characters, each one a character of the
    alphabet [validChars]; the letter "O" does not occur in it. *)
Theorem generateRandomSecret_spec (length : N) (w : World) :
  exists s w',
    WifiControl.generateRandomSecret length w = Returned s w'
    /\ String.length s = N.to_nat (N.max length 8)
    /\ string_forallb (fun c => string_mem c WifiControl.validChars) s = true
    /\ string_mem "O"%char s = false.
Proof.
  unfold WifiControl.generateRandomSecret.
  match goal with
  | |- context [WifiControl.generateRandomSecret_loop ?n ?acc w] =>
      destruct (generateRandomSecret_loop_spec n acc w) as (s & Hrun & Hlen & Hall)
  end.
  exists s. eexists. split; [exact Hrun|].
  assert (Hin : string_forallb (fun c => string_mem c WifiControl.validChars) s = true)
    by (apply Hall; reflexivity).
  split; [|split; [exact Hin|]].
  - rewrite Hlen. cbn [String.length Nat.add]. unfold WifiControl.minApSecretLength.
    destruct (N.ltb_spec length 8); f_equal; lia.
  - apply (string_mem_excluded _ WifiControl.validChars); [exact Hin | reflexivity].
Qed.

(** ** WifiControl::begin *)

(** [WifiControl.begin] always returns, in its closed form. *)
Lemma WifiControl_begin_run essid password configured hostname apSecret w :
  WifiControl.begin essid password configured hostname apSecret w
  = Returned tt (WifiControl_begin_summary essid password configured hostname apSecret w).
Proof.
  unfold WifiControl.begin, WifiControl_begin_summary, accessPointName,
    WifiControl.getHardwareMacAddress, append_calls.
  run_unfold.
  destruct (Arduino.equalsIgnoreCase configured "true");
    destruct (0 <? String.length apSecret)%nat;
    cbn; destruct (String.length (_wifiAPName w) =? 0)%nat;
    cbn; rewrite <- !app_assoc; reflexivity.
Qed.

(** C7. [WifiControl::begin] always returns.  If the configured flag
    equals "true" up to letter case, the operation mode becomes client and
    a connection to the given essid and password is started (followed by
    setting the host name); for every other flag the mode becomes
    accessPoint and no connection is started, in particular for the empty
    flag. *)
Theorem WifiControl_begin_selects_mode
    (essid password configured hostname apSecret : string) (w : World) :
  (exists w' new,
     WifiControl.begin essid password configured hostname apSecret w = Returned tt w'
     /\ calls w' = calls w ++ new
     /\ (equalsCaseInsensitively configured "true" ->
         operationMode_ w' = Mode.client
         /\ new = [CLog LOG_INFO "Connecting to Wifi";
                   CWiFiOnEvent;
                   CLog LOG_INFO "Wifi is configured, connecting to '%s'";
                   CWiFiBegin essid password;
                   CWiFiSetHostname hostname])
     /\ (~ equalsCaseInsensitively configured "true" ->
         operationMode_ w' = Mode.accessPoint
         /\ existsb is_connect new = false))
  /\ operationMode_
       (final (WifiControl.begin essid password EmptyString hostname apSecret w))
     = Mode.accessPoint.
Proof.
  split.
  - rewrite WifiControl_begin_run. unfold WifiControl_begin_summary.
    destruct (Arduino.equalsIgnoreCase configured "true") eqn:Hflag.
    + eexists; eexists. split; [reflexivity|]. split; [reflexivity|].
      split; [intros _; split; reflexivity|].
      intros Hother. apply equalsIgnoreCase_false in Hother. congruence.
    + destruct (0 <? String.length apSecret)%nat;
        (eexists; eexists; split; [reflexivity|]; split; [reflexivity|];
         split; [|intros _; split; reflexivity]);
        intros Htrue; apply equalsIgnoreCase_spec in Htrue; congruence.
  - rewrite WifiControl_begin_run. unfold WifiControl_begin_summary.
    change (Arduino.equalsIgnoreCase EmptyString "true") with false.
    now destruct (0 <? String.length apSecret)%nat.
Qed.

Lemma apPasswordLogFormat_line_feed :
  String.length WifiControl.apPasswordLogFormat = 29%nat
  /\ String.get 28 WifiControl.apPasswordLogFormat = Some (ascii_of_nat 10).
Proof. split; reflexivity. Qed.

(** C8. When [WifiControl::begin] enters access point mode (the flag is
    not "true" up to case), the WiFi stack is put into WIFI_AP_STA mode and
    then the soft access point is started under the access point name:
    with the secret as its password when [apSecret] is not empty, and with
    no password when it is empty. *)
Theorem WifiControl_begin_accessPoint
    (essid password configured hostname apSecret : string) (w : World) :
  ~ equalsCaseInsensitively configured "true" ->
  exists w',
    WifiControl.begin essid password configured hostname apSecret w = Returned tt w'
    /\ operationMode_ w' = Mode.accessPoint
    /\ (apSecret <> EmptyString ->
        calls w' = calls w ++
          [CLog LOG_INFO "Connecting to Wifi";
           CWiFiOnEvent;
           CLog LOG_WARN "Wifi is NOT configured, starting Wifi AP '%s'";
           CWiFiMode WIFI_AP_STA;
           CLog LOG_DEBUG WifiControl.apPasswordLogFormat;
           CWiFiSoftAP (accessPointName w) (Some apSecret)])
    /\ (apSecret = EmptyString ->
        calls w' = calls w ++
          [CLog LOG_INFO "Connecting to Wifi";
           CWiFiOnEvent;
           CLog LOG_WARN "Wifi is NOT configured, starting Wifi AP '%s'";
           CWiFiMode WIFI_AP_STA;
           CWiFiSoftAP (accessPointName w) None]).
Proof.
  intros Hother. apply equalsIgnoreCase_false in Hother.
  rewrite WifiControl_begin_run. unfold WifiControl_begin_summary.
  rewrite Hother. destruct apSecret as [|c apSecret].
  - eexists. split; [reflexivity|]. split; [reflexivity|].
    split; [congruence | reflexivity].
  - eexists. split; [reflexivity|]. split; [reflexivity|].
    split; [reflexivity | discriminate].
Qed.

Lemma WifiControl_begin_accessPoint_witness :
  ~ equalsCaseInsensitively "False" "true"
  /\ exists w',
       WifiControl.begin "home" "hunter22" "False" "basecamp-device" "k3Wq9.xM"
         (device_at_boot 12 0 ∅) = Returned tt w'
       /\ operationMode_ w' = Mode.accessPoint
       /\ calls w' =
            [CLog LOG_INFO "Connecting to Wifi";
             CWiFiOnEvent;
             CLog LOG_WARN "Wifi is NOT configured, starting Wifi AP '%s'";
             CWiFiMode WIFI_AP_STA;
             CLog LOG_DEBUG WifiControl.apPasswordLogFormat;
             CWiFiSoftAP "ESP32_246f28ab012c" (Some "k3Wq9.xM"%string)].
Proof.
  assert (Hflag : ~ equalsCaseInsensitively "False" "true")
    by (unfold equalsCaseInsensitively; vm_compute; discriminate).
  split; [exact Hflag|].
  destruct (WifiControl_begin_accessPoint "home" "hunter22" "False"
              "basecamp-device" "k3Wq9.xM" (device_at_boot 12 0 ∅) Hflag)
    as (w' & Hrun & Hmode & Hsecret & _).
  exists w'. split; [exact Hrun|]. split; [exact Hmode|].
  rewrite Hsecret by discriminate. reflexivity.
Defined.

(** ** Basecamp::begin *)

Lemma frame_refl w : frame w w.
Proof. repeat split. exists []. now rewrite app_nil_r. Qed.

Lemma frame_trans w1 w2 w3 : frame w1 w2 -> frame w2 w3 -> frame w1 w3.
Proof.
  intros (Hr1 & Hn1 & He1 & new1 & Hc1) (Hr2 & Hn2 & He2 & new2 & Hc2).
  repeat split; try congruence.
  exists (new1 ++ new2). rewrite Hc2, Hc1. now rewrite app_assoc.
Qed.

Lemma frame_append_calls cs w : frame w (append_calls cs w).
Proof. repeat split. now exists cs. Qed.

Lemma bind_returned {A B : Type} (m : Run A) (f : A -> Run B) w a w' :
  m w = Returned a w' -> (m ≫= f) w = f a w'.
Proof. intros H. unfold mbind, Run_bind. now rewrite H. Qed.

Lemma bind_restarted {A B : Type} (m : Run A) (f : A -> Run B) w w' :
  m w = Restarted w' -> (m ≫= f) w = Restarted w'.
Proof. intros H. unfold mbind, Run_bind. now rewrite H. Qed.

Lemma steady_ret {A : Type} (P : A -> Prop) (a : A) : P a -> steady P (mret a).
Proof. intros HP w. exists a, w. split; [reflexivity|]. split; [exact HP | apply frame_refl]. Qed.

Lemma steady_bind {A B : Type} (P : B -> Prop) (m : Run A) (f : A -> Run B) :
  steady (fun _ => True) m -> (forall a, steady P (f a)) -> steady P (m ≫= f).
Proof.
  intros Hm Hf w.
  destruct (Hm w) as (a & w1 & Hrun1 & _ & Hframe1).
  destruct (Hf a w1) as (b & w2 & Hrun2 & HP & Hframe2).
  exists b, w2. rewrite (bind_returned _ _ _ _ _ Hrun1).
  split; [exact Hrun2|]. split; [exact HP | eapply frame_trans; eassumption].
Qed.

Lemma steady_weaken {A : Type} (P Q : A -> Prop) (m : Run A) :
  (forall a, P a -> Q a) -> steady P m -> steady Q m.
Proof.
  intros HPQ Hm w. destruct (Hm w) as (a & w' & Hrun & HP & Hframe).
  exists a, w'. auto.
Qed.

Lemma steady_gets {A : Type} (f : World -> A) : steady (fun _ => True) (gets f).
Proof. intros w. exists (f w), w. split; [reflexivity|]. split; [exact I | apply frame_refl]. Qed.

Lemma steady_modify (f : World -> World) :
  (forall w, frame w (f w)) -> steady (fun _ => True) (modify f).
Proof. intros Hf w. exists tt, (f w). split; [reflexivity|]. split; [exact I | apply Hf]. Qed.

Lemma steady_emit (c : Call) : steady (fun _ => True) (emit c).
Proof. apply steady_modify. intros w. apply (frame_append_calls [c]). Qed.

Lemma steady_esp_random : steady (fun _ => True) esp_random.
Proof.
  intros w. eexists; eexists. split; [reflexivity|]. split; [exact I|].
  repeat split. exists []. cbn. now rewrite app_nil_r.
Qed.

Lemma steady_load : steady (fun _ => True) Configuration.load.
Proof.
  intros w. unfold Configuration.load. destruct (spiffs w);
    (eexists; eexists; split; [reflexivity|]; split; [exact I|]);
    repeat split; eexists; reflexivity.
Qed.

Lemma frame_setter_solved w w' :
  reset_reason w' = reset_reason w -> nvs w' = nvs w ->
  setupModeWifiEncryption_ w' = setupModeWifiEncryption_ w ->
  calls w' = calls w -> frame w w'.
Proof.
  intros Hr Hn He Hc. repeat split; try assumption.
  exists []. now rewrite app_nil_r.
Qed.

(** Syntax-directed proof that a run built from the primitives is steady. *)
Ltac steady_step :=
  first
    [ apply steady_ret; exact I
    | apply steady_ret; reflexivity
    | apply steady_bind; [|intros ?]
    | apply steady_gets
    | apply steady_emit
    | apply steady_esp_random
    | apply steady_load
    | apply steady_modify; intros ?; apply frame_setter_solved; reflexivity
    | match goal with
      | |- steady _ (if ?c then _ else _) => destruct c
      | |- steady _ (match ?x with _ => _ end) => destruct x
      end ].

Ltac steady_unfold :=
  repeat progress unfold
    Preferences.begin, Preferences.end_,
    Configuration.get, Configuration.set, Configuration.save,
    Configuration.isKeySet, Configuration.reset,
    WiFi.onEvent, WiFi.begin, WiFi.setHostname, WiFi.mode, WiFi.softAP,
    WiFi.reconnect, WiFi.macAddress,
    ESP_LOGE, ESP_LOGW, ESP_LOGI, ESP_LOGD, external;
  cbv zeta.

Ltac steady := steady_unfold; repeat steady_step.

Lemma steady_generateRandomSecret_loop remaining returnValue :
  steady (fun _ => True) (WifiControl.generateRandomSecret_loop remaining returnValue).
Proof.
  revert returnValue. induction remaining as [|remaining IH]; intros returnValue;
    cbn [WifiControl.generateRandomSecret_loop].
  - steady.
  - apply steady_bind; [apply steady_esp_random|]. intros r. apply IH.
Qed.

Lemma steady_generateRandomSecret length :
  steady (fun _ => True) (WifiControl.generateRandomSecret length).
Proof. apply steady_generateRandomSecret_loop. Qed.

Lemma steady_WifiControl_begin essid password configured hostname apSecret :
  steady (fun _ => True)
    (WifiControl.begin essid password configured hostname apSecret).
Proof.
  unfold WifiControl.begin, WifiControl.getHardwareMacAddress. steady.
Qed.

Lemma steady_showSystemInfo : steady (fun _ => True) Basecamp.showSystemInfo.
Proof.
  unfold Basecamp.showSystemInfo, WifiControl.getHardwareMacAddress. steady.
Qed.

Lemma steady_setupOTA : steady (fun _ => True) Basecamp.setupOTA.
Proof. unfold Basecamp.setupOTA. steady. Qed.

Lemma steady_setupWebInterface : steady (fun _ => True) Basecamp.setupWebInterface.
Proof. unfold Basecamp.setupWebInterface. steady. Qed.

Lemma steady_cleanHostname : steady (fun _ => True) Basecamp._cleanHostname.
Proof. unfold Basecamp._cleanHostname. steady. Qed.

Lemma steady_begin_loadConfiguration :
  steady (fun _ => True) Basecamp.begin_loadConfiguration.
Proof. unfold Basecamp.begin_loadConfiguration. steady. Qed.

Lemma steady_begin_assignHostname :
  steady (fun _ => True) Basecamp.begin_assignHostname.
Proof.
  unfold Basecamp.begin_assignHostname.
  apply steady_bind; [apply steady_cleanHostname|]. intros cleaned. steady.
Qed.

(** Everything after the boot resilience check returns [true]. *)
Lemma steady_begin_services fixedWiFiApEncryptionPassword :
  steady (fun b => b = true) (Basecamp.begin_services fixedWiFiApEncryptionPassword).
Proof.
  unfold Basecamp.begin_services.
  apply steady_bind.
  { unfold Basecamp.begin_provisionApSecret. steady_unfold.
    apply steady_bind; [apply steady_gets|]. intros secretSet.
    apply steady_bind; [|intros ?; steady].
    destruct (_ || _); [|steady].
    apply steady_bind; [|intros ?; steady].
    destruct (_ <? _)%N; [|steady].
    apply steady_bind; [steady | intros ?; apply steady_generateRandomSecret]. }
  intros _. apply steady_bind.
  { unfold Basecamp.begin_startNetwork, WifiControl.getSoftwareMacAddress.
    steady_unfold.
    do 5 (apply steady_bind; [apply steady_gets | intros ?]).
    apply steady_bind; [steady|]. intros apSecret.
    apply steady_bind; [apply steady_WifiControl_begin|]. intros _. steady. }
  intros _. apply steady_bind.
  { unfold Basecamp.begin_startMqtt. steady. }
  intros _. apply steady_bind.
  { unfold Basecamp.begin_startOTA. steady_unfold.
    apply steady_bind; [apply steady_gets|]. intros otaActive.
    destruct (negb _); [apply steady_setupOTA | steady]. }
  intros _. apply steady_bind.
  { unfold Basecamp.begin_startWeb, Basecamp.shouldEnableConfigWebserver,
      WifiControl.getOperationMode.
    apply steady_bind; [steady|]. intros enableWeb.
    destruct enableWeb; [apply steady_setupWebInterface | steady]. }
  intros _. apply steady_bind.
  { unfold Basecamp.begin_startSntp. steady. }
  intros _. apply steady_bind; [apply steady_showSystemInfo|]. intros info.
  steady.
Qed.

Lemma suspicious_cause_inv (reason : Z) :
  (reason =? 1) || (reason =? 16) = true -> reason = 1 \/ reason = 16.
Proof.
  intros H. apply orb_true_iff in H as [H|H]; apply Z.eqb_eq in H; auto.
Qed.

(** What the check does to the state, whichever way it ends: the reset
    cause and the encryption setting stay, calls are added; a restart
    needs a suspicious cause and an incremented counter above 2, and its
    last call is the restart. *)
Lemma checkResetReason_outcome w :
  match Basecamp.checkResetReason w with
  | Returned _ w' =>
      setupModeWifiEncryption_ w' = setupModeWifiEncryption_ w
      /\ exists new, calls w' = calls w ++ new
  | Restarted w' =>
      (reset_reason w = 1 \/ reset_reason w = 16)
      /\ 2 < wrap32 (bootCounter w + 1)
      /\ setupModeWifiEncryption_ w' = setupModeWifiEncryption_ w
      /\ exists new, calls w' = calls w ++ new ++ [CEspRestart]
  end.
Proof.
  rewrite checkResetReason_run. unfold checkResetReason_summary.
  destruct ((reset_reason w =? 1) || (reset_reason w =? 16)) eqn:Hcause; cbv zeta.
  - apply suspicious_cause_inv in Hcause.
    destruct (3 <? _) eqn:H3.
    + apply Z.ltb_lt in H3. repeat split; [assumption | lia |].
      eexists (_ :: _ :: _ :: _ :: _ :: _ :: _ :: _ :: [_]). reflexivity.
    + destruct (2 <? _) eqn:H2; cbn [andb].
      * destruct (reportsNotConfigured w).
        -- apply Z.ltb_lt in H2. repeat split; [assumption | lia |].
           eexists (_ :: _ :: _ :: _ :: _ :: _ :: _ :: [_]). reflexivity.
        -- split; [reflexivity|]. eexists. reflexivity.
      * split; [reflexivity|]. eexists. reflexivity.
  - split; [reflexivity|]. eexists. reflexivity.
Qed.

Lemma checkResetReason_returns w :
  (reset_reason w <> 1 /\ reset_reason w <> 16) \/ wrap32 (bootCounter w + 1) <= 2 ->
  restarted (Basecamp.checkResetReason w) = false.
Proof.
  intros Hcalm. rewrite checkResetReason_run. unfold checkResetReason_summary.
  destruct Hcalm as [[H1 H16] | Hle].
  - now rewrite (other_cause_test _ H1 H16).
  - destruct (_ || _); [|reflexivity]. cbv zeta.
    assert (H3 : (3 <? wrap32 (bootCounter w + 1)) = false) by (apply Z.ltb_ge; lia).
    assert (H2 : (2 <? wrap32 (bootCounter w + 1)) = false) by (apply Z.ltb_ge; lia).
    now rewrite H3, H2.
Qed.

(** The fixed-secret check of [begin]: nothing for the empty password,
    [secured] for a password of at least the minimum length, an error log
    and nothing else for a shorter one. *)
Lemma begin_acceptFixedSecret_run (fixedWiFiApEncryptionPassword : string) w :
  Basecamp.begin_acceptFixedSecret fixedWiFiApEncryptionPassword w
  = Returned tt
      (if (String.length fixedWiFiApEncryptionPassword =? 0)%nat then w
       else if (8 <=? String.length fixedWiFiApEncryptionPassword)%nat
            then set_setupModeWifiEncryption_ SetupModeWifiEncryption.secured w
            else append_calls [tooShortLog] w).
Proof.
  unfold Basecamp.begin_acceptFixedSecret, WifiControl.getMinimumSecretLength,
    WifiControl.minApSecretLength. cbv zeta.
  destruct (Nat.eqb_spec (String.length fixedWiFiApEncryptionPassword) 0) as [H0|H0].
  - rewrite H0. reflexivity.
  - destruct (N.eqb_spec (N.of_nat (String.length fixedWiFiApEncryptionPassword)) 0);
      [lia|]. cbn [negb].
    destruct (Nat.leb_spec 8 (String.length fixedWiFiApEncryptionPassword));
      destruct (N.leb_spec 8 (N.of_nat (String.length fixedWiFiApEncryptionPassword)));
      try lia; reflexivity.
Qed.

(** The lifesign is logged first, whatever the stored configuration. *)
Lemma begin_loadConfiguration_lifesign w :
  exists w' more,
    Basecamp.begin_loadConfiguration w = Returned tt w'
    /\ frame w w'
    /\ calls w' = calls w ++
         CLog LOG_WARN "********************"
         :: CLog LOG_WARN "Basecamp Startup" :: more.
Proof.
  destruct (steady_begin_loadConfiguration w) as ([] & w' & Hrun & _ & Hframe).
  exists w'. revert Hrun.
  unfold Basecamp.begin_loadConfiguration, Configuration.load. run_unfold.
  unfold Configuration.reset. run_unfold.
  destruct (spiffs w) eqn:Hsp; cbn; rewrite Hsp; cbn;
    intros [= <-]; eexists; (split; [reflexivity|]);
    (split; [exact Hframe|]); cbn; rewrite <- !app_assoc; reflexivity.
Qed.

(** [begin] on a device restarted by software, with a too short password:
    it returns [true], the encryption setting is still [none], and the
    device ends up as an open access point. *)
Example begin_short_password_after_software_reset :
  let o := Basecamp.begin "short" (device_at_boot 12 2 ∅) in
  restarted o = false
  /\ setupModeWifiEncryption_ (final o) = SetupModeWifiEncryption.none
  /\ operationMode_ (final o) = Mode.accessPoint
  /\ bootCounter (final o) = 0
  /\ existsb (fun c => match c with
                       | CWiFiSoftAP "ESP32_246f28ab012c" None => true
                       | _ => false
                       end) (calls (final o)) = true.
Proof. vm_compute. repeat split. Qed.

(** C10 as stated does not hold: [begin] does not return [true] for every
    argument and device state.  On a device whose fourth suspicious boot in
    a row makes [checkResetReason] restart it, [begin] does not return at
    all. *)
Lemma begin_restart_counterexample :
  ~ (forall (fixedWiFiApEncryptionPassword : string) (w : World),
       exists w', Basecamp.begin fixedWiFiApEncryptionPassword w = Returned true w').
Proof.
  intros Hall.
  destruct (Hall EmptyString (device_at_boot 1 3 ∅)) as [w' Hrun].
  vm_compute in Hrun. discriminate Hrun.
Qed.

(** C10, amended. For every argument and every device state, [begin] either
    returns [true], or does not return because [checkResetReason] restarted
    the device (which needs a suspicious reset cause and an incremented
    counter above 2; the restart is then the last call made); it never
    returns [false], and it does return [true] whenever the reset cause is
    not suspicious or the incremented counter is at most 2.  A non-empty
    password shorter than 8 leaves the setup-mode encryption setting as it
    was and logs the error, after which the start-up continues with the
    lifesign. *)
Theorem begin_returns_true_or_restarts
    (fixedWiFiApEncryptionPassword : string) (w : World) :
  ((exists w', Basecamp.begin fixedWiFiApEncryptionPassword w = Returned true w')
   \/ (exists w',
         Basecamp.begin fixedWiFiApEncryptionPassword w = Restarted w'
         /\ restarted (Basecamp.checkResetReason
                         (final ((Basecamp.begin_acceptFixedSecret
                                    fixedWiFiApEncryptionPassword;;
                                  Basecamp.begin_loadConfiguration;;
                                  Basecamp.begin_assignHostname) w))) = true
         /\ (reset_reason w = 1 \/ reset_reason w = 16)
         /\ 2 < wrap32 (bootCounter w + 1)
         /\ exists before, calls w' = before ++ [CEspRestart]))
  /\ ((reset_reason w <> 1 /\ reset_reason w <> 16)
      \/ wrap32 (bootCounter w + 1) <= 2 ->
      exists w', Basecamp.begin fixedWiFiApEncryptionPassword w = Returned true w')
  /\ ((0 < String.length fixedWiFiApEncryptionPassword < 8)%nat ->
      setupModeWifiEncryption_ (final (Basecamp.begin fixedWiFiApEncryptionPassword w))
      = setupModeWifiEncryption_ w
      /\ exists more,
           calls (final (Basecamp.begin fixedWiFiApEncryptionPassword w))
           = calls w ++
               tooShortLog
               :: CLog LOG_WARN "********************"
               :: CLog LOG_WARN "Basecamp Startup" :: more).
Proof.
  set (pw := fixedWiFiApEncryptionPassword).
  (* the three blocks before the check *)
  pose proof (begin_acceptFixedSecret_run pw w) as Ha.
  set (wa := if (String.length pw =? 0)%nat then w
             else if (8 <=? String.length pw)%nat
                  then set_setupModeWifiEncryption_ SetupModeWifiEncryption.secured w
                  else append_calls [tooShortLog] w) in Ha.
  destruct (begin_loadConfiguration_lifesign wa)
    as (wb & more_b & Hb & (Hrb & Hnb & Heb & _) & Hcb).
  destruct (steady_begin_assignHostname wb)
    as ([] & wc & Hc & _ & (Hrc & Hnc & Hec & new_c & Hcc)).
  assert (Hprelude :
    (Basecamp.begin_acceptFixedSecret pw;; Basecamp.begin_loadConfiguration;;
     Basecamp.begin_assignHostname) w = Returned tt wc).
  { rewrite (bind_returned _ _ _ _ _ Ha), (bind_returned _ _ _ _ _ Hb). exact Hc. }
  assert (Hbegin : Basecamp.begin pw w
    = (Basecamp.checkResetReason;; Basecamp.begin_services pw) wc).
  { unfold Basecamp.begin.
    rewrite (bind_returned _ _ _ _ _ Ha), (bind_returned _ _ _ _ _ Hb).
    now rewrite (bind_returned _ _ _ _ _ Hc). }
  assert (Hwa : reset_reason wa = reset_reason w /\ nvs wa = nvs w).
  { subst wa. destruct (String.length pw =? 0)%nat; [auto|].
    destruct (8 <=? String.length pw)%nat; auto. }
  destruct Hwa as [Hra Hna].
  assert (Hreason : reset_reason wc = reset_reason w) by congruence.
  assert (Hcounter : bootCounter wc = bootCounter w)
    by (unfold bootCounter; congruence).
  (* the check, then the services *)
  pose proof (checkResetReason_outcome wc) as Hcheck.
  pose proof (checkResetReason_returns wc) as Hcalm.
  rewrite Hreason, Hcounter in Hcheck, Hcalm.
  rewrite Hprelude. cbn [final].
  destruct (Basecamp.checkResetReason wc) as [[] wd | wd] eqn:Hrun.
  - (* the check returned *)
    destruct Hcheck as [Hed [new_d Hcd]].
    destruct (steady_begin_services pw wd)
      as (b & we & He & -> & (_ & _ & Hee & new_e & Hce)).
    assert (Hfinal : Basecamp.begin pw w = Returned true we).
    { rewrite Hbegin. rewrite (bind_returned _ _ _ _ _ Hrun). exact He. }
    split; [left; eauto|]. split; [eauto|].
    intros [Hpos Hshort]. rewrite Hfinal. cbn [final].
    assert (Hwa : wa = append_calls [tooShortLog] w).
    { subst wa. destruct (Nat.eqb_spec (String.length pw) 0); [lia|].
      destruct (Nat.leb_spec 8 (String.length pw)); [lia | reflexivity]. }
    split.
    + rewrite Hee, Hed, Hec, Heb, Hwa. reflexivity.
    + exists (more_b ++ new_c ++ new_d ++ new_e).
      rewrite Hce, Hcd, Hcc, Hcb, Hwa. cbn [append_calls calls set_calls].
      rewrite <- !app_assoc. reflexivity.
  - (* the check restarted the device *)
    destruct Hcheck as (Hcause & Hgt & Hed & new_d & Hcd).
    assert (Hfinal : Basecamp.begin pw w = Restarted wd).
    { rewrite Hbegin. now rewrite (bind_restarted _ _ _ _ Hrun). }
    split; [right; exists wd; repeat split; try assumption|].
    { exists (calls wc ++ new_d). rewrite Hcd. now rewrite app_assoc. }
    split.
    + intros Hquiet. specialize (Hcalm Hquiet). discriminate Hcalm.
    + intros [Hpos Hshort]. rewrite Hfinal. cbn [final].
      assert (Hwa : wa = append_calls [tooShortLog] w).
      { subst wa. destruct (Nat.eqb_spec (String.length pw) 0); [lia|].
        destruct (Nat.leb_spec 8 (String.length pw)); [lia | reflexivity]. }
      split.
      * rewrite Hed, Hec, Heb, Hwa. reflexivity.
      * exists (more_b ++ new_c ++ new_d ++ [CEspRestart]).
        rewrite Hcd, Hcc, Hcb, Hwa. cbn [append_calls calls set_calls].
        rewrite <- !app_assoc. reflexivity.
Qed.

(* ===================================================================== *)
(** * Further properties of the code *)
(* ===================================================================== *)

(** ** format6Bytes: length and injectivity *)

Lemma format6Bytes_six (b0 b1 b2 b3 b4 b5 : byte) (d : string) :
  format6Bytes [b0; b1; b2; b3; b4; b5] d
  = hex_group b0 +:+ d +:+ hex_group b1 +:+ d +:+ hex_group b2 +:+ d
    +:+ hex_group b3 +:+ d +:+ hex_group b4 +:+ d +:+ hex_group b5.
Proof.
  unfold format6Bytes, OStream.str. cbn [seq fold_left].
  repeat match goal with
  | |- context [OStream.buffer (format6Bytes_step ?bs ?dl ?os ?i)] =>
      let H := fresh in
      assert (H : OStream.width os = 0%nat)
        by (first [reflexivity | apply format6Bytes_step_buffer; trivial]);
      rewrite (proj1 (format6Bytes_step_buffer bs dl os i H))
  end.
  cbn [separator Nat.eqb byte_at nth OStream.empty OStream.buffer].
  rewrite !append_empty_l. now rewrite !append_assoc.
Qed.

(** X1. The formatted address has 12 digits and five delimiters. *)
Theorem format6Bytes_length (bytes : list byte) (delimiter : string) :
  List.length bytes = 6%nat ->
  String.length (format6Bytes bytes delimiter)
  = (12 + 5 * String.length delimiter)%nat.
Proof.
  intros Hlen.
  destruct bytes as [|b0 [|b1 [|b2 [|b3 [|b4 [|b5 [|b6 rest]]]]]]];
    simpl in Hlen; try discriminate.
  rewrite format6Bytes_six, !length_append, !hex_group_length. lia.
Qed.

Lemma format6Bytes_length_witness :
  String.length (format6Bytes [x24; x6f; x28; xab; x01; x2c] ":") = 17%nat.
Proof.
  apply (format6Bytes_length [x24; x6f; x28; xab; x01; x2c] ":"). reflexivity.
Defined.

Lemma hex_value_digit_char (d : N) :
  (d < 16)%N -> hex_value (OStream.digit_char d) = Some d.
Proof.
  intros Hd.
  assert (Hcases : (d = 0 \/ d = 1 \/ d = 2 \/ d = 3 \/ d = 4 \/ d = 5 \/ d = 6
                   \/ d = 7 \/ d = 8 \/ d = 9 \/ d = 10 \/ d = 11 \/ d = 12
                   \/ d = 13 \/ d = 14 \/ d = 15)%N) by lia.
  repeat (destruct Hcases as [->|Hcases]; [reflexivity|]).
  subst d. reflexivity.
Qed.

Lemma hex_group_inj (b b' : byte) : hex_group b = hex_group b' -> b = b'.
Proof.
  unfold hex_group. intros [= Hhi Hlo].
  pose proof (Byte.to_N_bounded b) as Hb.
  pose proof (Byte.to_N_bounded b') as Hb'.
  assert (H1 : Some (Byte.to_N b / 16)%N = Some (Byte.to_N b' / 16)%N).
  { rewrite <- !hex_value_digit_char by (apply N.Div0.div_lt_upper_bound; lia).
    now rewrite Hhi. }
  assert (H2 : Some (Byte.to_N b mod 16)%N = Some (Byte.to_N b' mod 16)%N).
  { rewrite <- !hex_value_digit_char by (apply N.mod_lt; lia). now rewrite Hlo. }
  injection H1 as H1. injection H2 as H2.
  assert (HN : Byte.to_N b = Byte.to_N b').
  { rewrite (N.div_mod' (Byte.to_N b) 16), (N.div_mod' (Byte.to_N b') 16). congruence. }
  assert (Hs : Some b = Some b') by (rewrite <- !Byte.of_to_N; now rewrite HN).
  congruence.
Qed.

Lemma append_cancel_l (p s t : string) : p +:+ s = p +:+ t -> s = t.
Proof.
  induction p as [|c p IH]; [trivial|].
  rewrite !append_cons. intros [= H]. now apply IH.
Qed.

Lemma hex_group_append_inj (b b' : byte) (s t : string) :
  hex_group b +:+ s = hex_group b' +:+ t -> b = b' /\ s = t.
Proof.
  unfold hex_group. rewrite !append_cons, !append_empty_l.
  intros [= Hhi Hlo Hst]. split; [|exact Hst].
  apply hex_group_inj. unfold hex_group. now rewrite Hhi, Hlo.
Qed.

(** X2. Two addresses formatted with the same delimiter give the same string
    only if they are the same address. *)
Theorem format6Bytes_injective (bytes bytes' : list byte) (delimiter : string) :
  List.length bytes = 6%nat -> List.length bytes' = 6%nat ->
  format6Bytes bytes delimiter = format6Bytes bytes' delimiter ->
  bytes = bytes'.
Proof.
  intros Hlen Hlen' Heq.
  destruct bytes as [|b0 [|b1 [|b2 [|b3 [|b4 [|b5 [|b6 rest]]]]]]];
    simpl in Hlen; try discriminate.
  destruct bytes' as [|c0 [|c1 [|c2 [|c3 [|c4 [|c5 [|c6 rest']]]]]]];
    simpl in Hlen'; try discriminate.
  rewrite !format6Bytes_six in Heq.
  repeat match type of Heq with
  | hex_group _ +:+ _ = hex_group _ +:+ _ =>
      apply hex_group_append_inj in Heq as [-> Heq];
      try apply append_cancel_l in Heq
  end.
  apply hex_group_inj in Heq. now subst.
Qed.

Lemma format6Bytes_injective_witness :
  [x24; x6f; x28; xab; x01; x2c] = [x24; x6f; x28; xab; x01; x2c].
Proof.
  apply (format6Bytes_injective _ _ ":"); reflexivity.
Defined.

(** ** generateRandomSecret: which characters, how many draws *)

Lemma set_drawn_twice (a b : nat) (w : World) :
  set_drawn a (set_drawn b w) = set_drawn a w.
Proof. reflexivity. Qed.

Lemma generateRandomSecret_loop_chars (remaining : nat) :
  forall (returnValue : string) (w : World),
  exists tail,
    WifiControl.generateRandomSecret_loop remaining returnValue w
    = Returned (returnValue +:+ tail) (set_drawn (drawn w + remaining)%nat w)
    /\ String.length tail = remaining
    /\ forall i, (i < remaining)%nat -> String.get i tail = Some (secret_char w i).
Proof.
  induction remaining as [|remaining IH]; intros returnValue w.
  - exists EmptyString. cbn. rewrite append_empty_r, Nat.add_0_r.
    split; [destruct w; reflexivity|]. split; [reflexivity | intros i Hi; lia].
  - cbn [WifiControl.generateRandomSecret_loop].
    unfold mbind, Run_bind, esp_random.
    match goal with
    | |- context [WifiControl.generateRandomSecret_loop remaining ?acc ?w1] =>
        destruct (IH acc w1) as (tail & Hrun & Hlen & Hget)
    end.
    exists (String (secret_char w 0) tail). rewrite Hrun. split; [|split].
    + unfold Arduino.concat_char, secret_char.
      rewrite append_assoc, append_cons, append_empty_l, Nat.add_0_r.
      rewrite set_drawn_twice. cbn [drawn set_drawn].
      now rewrite Nat.add_succ_r.
    + simpl. now rewrite Hlen.
    + intros [|i] Hi; [reflexivity|].
      cbn [String.get]. rewrite Hget by lia.
      unfold secret_char. cbn [entropy drawn set_drawn].
      now rewrite Nat.add_succ_r.
Qed.

(** X3. [generateRandomSecret] draws exactly max(length, 8) random numbers and
    changes nothing else on the device; the [i]-th character of the result
    is the alphabet character selected by the [i]-th of these numbers. *)
Theorem generateRandomSecret_draws (length : N) (w : World) :
  exists s,
    WifiControl.generateRandomSecret length w
    = Returned s (set_drawn (drawn w + N.to_nat (N.max length 8))%nat w)
    /\ forall i, (i < N.to_nat (N.max length 8))%nat ->
                 String.get i s = Some (secret_char w i).
Proof.
  unfold WifiControl.generateRandomSecret, WifiControl.minApSecretLength.
  assert (Huse : (if (length <? 8)%N then 8%N else length) = N.max length 8).
  { destruct (N.ltb_spec length 8); lia. }
  cbv zeta. rewrite Huse.
  destruct (generateRandomSecret_loop_chars (N.to_nat (N.max length 8)) EmptyString w)
    as (tail & Hrun & _ & Hget).
  exists tail. rewrite Hrun, append_empty_l. auto.
Qed.

(** ** The event handler on arbitrary event sequences *)

Lemma WiFiEvent_other_run id w :
  WifiControl.WiFiEvent (SYSTEM_EVENT_OTHER id) w
  = Returned tt (append_calls
      [CPreferencesBegin "basecamp" false;
       CLog LOG_DEBUG "WiFiEvent %d, Bootcounter is %d";
       CPreferencesEnd] w).
Proof.
  unfold WifiControl.WiFiEvent, append_calls. run_unfold. cbn.
  rewrite <- !app_assoc. reflexivity.
Qed.

Lemma count_calls_app kind cs1 cs2 :
  count_calls kind (cs1 ++ cs2) = (count_calls kind cs1 + count_calls kind cs2)%nat.
Proof. unfold count_calls. now rewrite List.filter_app, List.length_app. Qed.

(** What one event does, whichever it is. *)
Lemma WiFiEvent_step e w :
  exists new,
    WifiControl.WiFiEvent e w
    = Returned tt (append_calls new
        (if is_got_ip e then set_nvs (<["bootcounter" := 0]> (nvs w)) w else w))
    /\ count_calls is_reconnect new = (if is_disconnected e then 1 else 0)%nat
    /\ count_calls is_store_open new = 1%nat
    /\ count_calls is_store_close new = 1%nat
    /\ count_calls is_restart new = 0%nat.
Proof.
  destruct e as [| |id].
  - rewrite WiFiEvent_got_ip_run. eexists. split; [reflexivity|]. repeat split.
  - rewrite WiFiEvent_disconnected_run. eexists. split; [reflexivity|]. repeat split.
  - rewrite WiFiEvent_other_run. eexists. split; [reflexivity|]. repeat split.
Qed.

Lemma deliver_store_holds (events : list WiFiEvent_t) (w : World) :
  nvs (deliver events w)
  = (if existsb is_got_ip events
     then <["bootcounter" := 0]> (nvs w) else nvs w)
  /\ bootCounter (deliver events w)
     = (if existsb is_got_ip events then 0 else bootCounter w).
Proof.
  assert (Hnvs : nvs (deliver events w)
    = (if existsb is_got_ip events
       then <["bootcounter" := 0]> (nvs w) else nvs w)).
  { revert w. induction events as [|e events IH]; intros w; [reflexivity|].
    rewrite deliver_cons. destruct (WiFiEvent_step e w) as (new & Hrun & _).
    rewrite Hrun, IH. cbn [final existsb].
    destruct (is_got_ip e); cbn [orb append_calls nvs set_calls set_nvs].
    - destruct (existsb is_got_ip events); [apply insert_insert_eq | reflexivity].
    - reflexivity. }
  split; [exact Hnvs|].
  unfold bootCounter. rewrite Hnvs.
  destruct (existsb is_got_ip events); [now rewrite lookup_insert_eq | reflexivity].
Qed.

(** X4. After any sequence of events the persisted store is the original one
    with the boot counter set to 0 if an address-acquired event occurred,
    and the original one itself otherwise: link-lost and all other events
    never write it. *)
Theorem deliver_store (events : list WiFiEvent_t) (w : World) :
  nvs (deliver events w)
  = (if existsb is_got_ip events
     then <["bootcounter" := 0]> (nvs w) else nvs w)
  /\ bootCounter (deliver events w)
     = (if existsb is_got_ip events then 0 else bootCounter w).
Proof. apply deliver_store_holds. Qed.

(** X5. The handler never restarts the device and touches nothing but the
    persisted store and the WiFi stack: over any sequence of events it
    requests one reconnect per link-lost event, opens and closes the store
    once per event, and leaves the configuration, the flash storage and the
    network controller's state as they were. *)
Theorem deliver_frame (events : list WiFiEvent_t) (w : World) :
  (forall e w0, restarted (WifiControl.WiFiEvent e w0) = false)
  /\ exists new,
       calls (deliver events w) = calls w ++ new
       /\ count_calls is_reconnect new = List.length (List.filter is_disconnected events)
       /\ count_calls is_store_open new = List.length events
       /\ count_calls is_store_close new = List.length events
       /\ count_calls is_restart new = 0%nat
       /\ configuration (deliver events w) = configuration w
       /\ spiffs (deliver events w) = spiffs w
       /\ operationMode_ (deliver events w) = operationMode_ w
       /\ _wifiAPName (deliver events w) = _wifiAPName w
       /\ setupModeWifiEncryption_ (deliver events w) = setupModeWifiEncryption_ w.
Proof.
  split.
  { intros e w0. destruct (WiFiEvent_step e w0) as (new & Hrun & _). now rewrite Hrun. }
  revert w. induction events as [|e events IH]; intros w.
  - exists []. cbn. rewrite app_nil_r. repeat split.
  - rewrite deliver_cons.
    destruct (WiFiEvent_step e w) as (new & Hrun & Hrec & Hopen & Hclose & Hrst).
    rewrite Hrun. cbn [final].
    match goal with
    | |- context [deliver events ?w1] =>
        destruct (IH w1) as (new' & Hc & Hrec' & Hopen' & Hclose' & Hrst' & Hcfg
                             & Hsp & Hmode & Hname & Henc)
    end.
    exists (new ++ new').
    rewrite Hc, Hcfg, Hsp, Hmode, Hname, Henc, !count_calls_app.
    rewrite Hrec, Hrec', Hopen, Hopen', Hclose, Hclose', Hrst, Hrst'.
    cbn [List.filter List.length].
    split.
    { destruct (is_got_ip e); cbn; now rewrite app_assoc. }
    split; [now destruct (is_disconnected e)|].
    split; [reflexivity|]. split; [reflexivity|]. split; [reflexivity|].
    destruct (is_got_ip e); repeat split.
Qed.

(** ** WifiControl::begin: access point name, and what it leaves alone *)

(** X6. After [begin] the access point name is never empty: a name set before
    is kept, an empty one is replaced by "ESP32_" followed by the hardware
    address; in access point mode the soft access point is started under
    exactly this name, and a second [begin] would keep it. *)
Theorem WifiControl_begin_apName
    (essid password configured hostname apSecret : string) (w : World) :
  let w' := final (WifiControl.begin essid password configured hostname apSecret w) in
  _wifiAPName w' <> EmptyString
  /\ (_wifiAPName w <> EmptyString -> _wifiAPName w' = _wifiAPName w)
  /\ (_wifiAPName w = EmptyString ->
      _wifiAPName w'
      = "ESP32_" +:+ format6Bytes (efuse_mac w) WifiControl.defaultDelimiter)
  /\ accessPointName w' = _wifiAPName w'
  /\ (operationMode_ w' = Mode.accessPoint ->
      exists before passphrase,
        calls w' = before ++ [CWiFiSoftAP (_wifiAPName w') passphrase]).
Proof.
  cbv zeta. rewrite WifiControl_begin_run. cbn [final].
  assert (Hname : _wifiAPName
            (WifiControl_begin_summary essid password configured hostname apSecret w)
          = accessPointName w).
  { unfold WifiControl_begin_summary.
    destruct (Arduino.equalsIgnoreCase configured "true"); [reflexivity|].
    destruct (0 <? String.length apSecret)%nat; reflexivity. }
  assert (Hne : accessPointName w <> EmptyString).
  { unfold accessPointName. destruct (_wifiAPName w); [discriminate|]. simpl. discriminate. }
  rewrite Hname. split; [exact Hne|].
  split; [unfold accessPointName; destruct (_wifiAPName w); [congruence | reflexivity]|].
  split; [intros H; unfold accessPointName; now rewrite H|].
  split.
  - unfold accessPointName at 1. rewrite Hname.
    destruct (accessPointName w); [congruence | reflexivity].
  - unfold WifiControl_begin_summary.
    destruct (Arduino.equalsIgnoreCase configured "true"); [discriminate|].
    destruct (0 <? String.length apSecret)%nat; intros _.
    + exists (calls w ++
        [CLog LOG_INFO "Connecting to Wifi"; CWiFiOnEvent;
         CLog LOG_WARN "Wifi is NOT configured, starting Wifi AP '%s'";
         CWiFiMode WIFI_AP_STA;
         CLog LOG_DEBUG WifiControl.apPasswordLogFormat]), (Some apSecret).
      cbn. now rewrite <- app_assoc.
    + exists (calls w ++
        [CLog LOG_INFO "Connecting to Wifi"; CWiFiOnEvent;
         CLog LOG_WARN "Wifi is NOT configured, starting Wifi AP '%s'";
         CWiFiMode WIFI_AP_STA]), None.
      cbn. now rewrite <- app_assoc.
Qed.

(** X7. [begin] records the credentials it is given and touches neither the
    persisted counter store, nor the configuration, nor the flash storage.
    In client mode it makes no access point call (no [WiFi.mode], no
    [softAP]); in access point mode it starts exactly one access point and
    never sets the host name. *)
Theorem WifiControl_begin_frame
    (essid password configured host apSecret : string) (w : World) :
  exists w' new,
    WifiControl.begin essid password configured host apSecret w = Returned tt w'
    /\ calls w' = calls w ++ new
    /\ _wifiEssid w' = essid /\ _wifiPassword w' = password
    /\ nvs w' = nvs w /\ configuration w' = configuration w /\ spiffs w' = spiffs w
    /\ hostname w' = hostname w
    /\ setupModeWifiEncryption_ w' = setupModeWifiEncryption_ w
    /\ operationMode_ w' <> Mode.unconfigured
    /\ (operationMode_ w' = Mode.client ->
        count_calls is_soft_ap new = 0%nat /\ count_calls is_wifi_mode new = 0%nat
        /\ count_calls is_connect new = 1%nat)
    /\ (operationMode_ w' = Mode.accessPoint ->
        count_calls is_soft_ap new = 1%nat /\ count_calls is_set_hostname new = 0%nat
        /\ count_calls is_connect new = 0%nat).
Proof.
  rewrite WifiControl_begin_run. unfold WifiControl_begin_summary.
  destruct (Arduino.equalsIgnoreCase configured "true").
  - eexists; eexists. split; [reflexivity|]. split; [reflexivity|].
    cbn. repeat split; try discriminate.
  - destruct (0 <? String.length apSecret)%nat;
      (eexists; eexists; split; [reflexivity|]; split; [reflexivity|]);
      cbn; repeat split; try discriminate.
Qed.

(** X8. A name given with [setAPName] before [begin] is the name of the access
    point that [begin] starts when the network is not configured. *)
Theorem setAPName_then_begin
    (name essid password configured hostname apSecret : string) (w : World) :
  name <> EmptyString ->
  Arduino.equalsIgnoreCase configured "true" = false ->
  exists w1 w',
    WifiControl.setAPName name w = Returned tt w1
    /\ WifiControl.begin essid password configured hostname apSecret w1 = Returned tt w'
    /\ WifiControl.getAPName w' = Returned name w'
    /\ exists before,
         calls w' = before ++
           [CWiFiSoftAP name (if (0 <? String.length apSecret)%nat
                              then Some apSecret else None)].
Proof.
  intros Hname Hflag.
  exists (set__wifiAPName name w). eexists.
  split; [reflexivity|]. rewrite WifiControl_begin_run.
  split; [reflexivity|].
  unfold WifiControl_begin_summary, accessPointName. rewrite Hflag.
  cbn [_wifiAPName set__wifiAPName].
  destruct name as [|c name]; [congruence|]. cbn [String.length Nat.eqb].
  destruct (0 <? String.length apSecret)%nat.
  - split; [reflexivity|].
    exists (calls w ++
      [CLog LOG_INFO "Connecting to Wifi"; CWiFiOnEvent;
       CLog LOG_WARN "Wifi is NOT configured, starting Wifi AP '%s'";
       CWiFiMode WIFI_AP_STA;
       CLog LOG_DEBUG WifiControl.apPasswordLogFormat]).
    cbn. now rewrite <- app_assoc.
  - split; [reflexivity|].
    exists (calls w ++
      [CLog LOG_INFO "Connecting to Wifi"; CWiFiOnEvent;
       CLog LOG_WARN "Wifi is NOT configured, starting Wifi AP '%s'";
       CWiFiMode WIFI_AP_STA]).
    cbn. now rewrite <- app_assoc.
Qed.

Lemma setAPName_then_begin_witness :
  exists w',
    WifiControl.begin "home" "hunter22" "false" "basecamp-device" EmptyString
      (set__wifiAPName "Setup-AP" (device_at_boot 12 0 ∅)) = Returned tt w'
    /\ WifiControl.getAPName w' = Returned "Setup-AP"%string w'.
Proof.
  destruct (setAPName_then_begin "Setup-AP" "home" "hunter22" "false"
              "basecamp-device" EmptyString (device_at_boot 12 0 ∅))
    as (w1 & w' & Hset & Hrun & Hget & _).
  - discriminate.
  - vm_compute. reflexivity.
  - injection Hset as <-. exists w'. auto.
Defined.

(** ** checkResetReason: the store handle and what is left alone *)


(** ** _cleanHostname *)

Lemma charAt_append_here (p : string) (c : ascii) (q : string) :
  Arduino.charAt (p +:+ String c q) (String.length p) = c.
Proof.
  unfold Arduino.charAt. induction p as [|x p IH]; [reflexivity|].
  rewrite append_cons. simpl. exact IH.
Qed.

Lemma charAt_past_end (p : string) :
  Arduino.charAt p (String.length p) = zero.
Proof.
  unfold Arduino.charAt. induction p as [|x p IH]; [reflexivity|]. simpl. exact IH.
Qed.

Lemma setCharAt_append_here (p : string) (c x : ascii) (q : string) :
  Basecamp.setCharAt (p +:+ String c q) (String.length p) x = p +:+ String x q.
Proof.
  induction p as [|y p IH]; [reflexivity|].
  rewrite !append_cons. simpl. now rewrite IH.
Qed.

Lemma setCharAt_past_end (p : string) (x : ascii) :
  Basecamp.setCharAt p (String.length p) x = p.
Proof. induction p as [|y p IH]; [reflexivity|]. simpl. now rewrite IH. Qed.

(** The replacement loop, started at index [length p] on a string whose
    first [length p] characters are done, maps [clean_char] over the rest;
    its last iteration, one past the end, changes nothing. *)
Lemma cleanHostname_loop (q : string) :
  forall p : string,
    fold_left Basecamp._cleanHostname_step
      (seq (String.length p) (S (String.length q))) (p +:+ q)
    = p +:+ string_map clean_char q.
Proof.
  induction q as [|c q IH]; intros p.
  - cbn [String.length seq fold_left string_map].
    unfold Basecamp._cleanHostname_step. rewrite append_empty_r.
    rewrite charAt_past_end. cbn [Arduino.isalnum negb].
    change (Arduino.isalnum zero) with false. cbn [negb].
    apply setCharAt_past_end.
  - cbn [String.length string_map].
    change (seq (String.length p) (S (S (String.length q))))
      with (String.length p :: seq (S (String.length p)) (S (String.length q))).
    cbn [fold_left]. unfold Basecamp._cleanHostname_step at 2.
    rewrite charAt_append_here.
    assert (Hstep : (if negb (Arduino.isalnum c)
                     then Basecamp.setCharAt (p +:+ String c q) (String.length p) "-"%char
                     else p +:+ String c q)
                    = (p +:+ String (clean_char c) EmptyString) +:+ q).
    { rewrite append_assoc, append_cons, append_empty_l. unfold clean_char.
      destruct (Arduino.isalnum c); cbn [negb]; [reflexivity|].
      apply setCharAt_append_here. }
    rewrite Hstep.
    replace (S (String.length p))
      with (String.length (p +:+ String (clean_char c) EmptyString))
      by (rewrite length_append; simpl; lia).
    rewrite IH. now rewrite append_assoc, append_cons, append_empty_l.
Qed.

Lemma toLowerCase_nonempty (s : string) :
  s <> EmptyString -> Arduino.toLowerCase s <> EmptyString.
Proof. destruct s; [congruence | discriminate]. Qed.

(** [_cleanHostname] returns [cleanName] of the configured device name and
    changes nothing but the log. *)
Lemma cleanHostname_run (w : World) :
  exists new,
    Basecamp._cleanHostname w = Returned (cleanName (deviceNameOf w)) (append_calls new w)
    /\ forallb is_plain_call new = true.
Proof.
  unfold Basecamp._cleanHostname, cleanName, deviceNameOf, Configuration.get.
  run_unfold. cbn beta.
  destruct (String.eqb _ EmptyString).
  - exists []. unfold append_calls. rewrite app_nil_r. split; [|reflexivity].
    destruct w; reflexivity.
  - exists [CLog LOG_DEBUG "clean_hostname: %s"]. split; [|reflexivity]. f_equal.
    exact (cleanHostname_loop (Arduino.toLowerCase _) EmptyString).
Qed.

Lemma clean_char_is_hostname_char (c : ascii) :
  is_hostname_char (clean_char (Arduino.tolower c)) = true.
Proof.
  destruct c as [b0 b1 b2 b3 b4 b5 b6 b7].
  destruct b0, b1, b2, b3, b4, b5, b6, b7; vm_compute; reflexivity.
Qed.

Lemma clean_char_fixes_hostname_char (c : ascii) :
  is_hostname_char c = true -> clean_char (Arduino.tolower c) = c.
Proof.
  destruct c as [b0 b1 b2 b3 b4 b5 b6 b7].
  destruct b0, b1, b2, b3, b4, b5, b6, b7; vm_compute; intros H;
    first [reflexivity | discriminate H].
Qed.

Lemma string_map_length f (s : string) :
  String.length (string_map f s) = String.length s.
Proof. induction s as [|c s IH]; simpl; [reflexivity | now rewrite IH]. Qed.

Lemma cleaned_get (s : string) (i : nat) (c : ascii) :
  String.get i s = Some c ->
  String.get i (string_map clean_char (Arduino.toLowerCase s))
  = Some (clean_char (Arduino.tolower c)).
Proof.
  revert i. induction s as [|x s IH]; intros i; [discriminate|].
  destruct i as [|i]; simpl; [now intros [= ->] | apply IH].
Qed.

Lemma cleaned_all_hostname_chars (s : string) :
  string_forallb is_hostname_char (string_map clean_char (Arduino.toLowerCase s)) = true.
Proof.
  induction s as [|x s IH]; [reflexivity|].
  simpl. now rewrite clean_char_is_hostname_char, IH.
Qed.

Lemma cleaned_fixes_hostname (s : string) :
  string_forallb is_hostname_char s = true ->
  string_map clean_char (Arduino.toLowerCase s) = s.
Proof.
  induction s as [|x s IH]; [reflexivity|].
  simpl. intros H. apply andb_true_iff in H as [Hx Hs].
  now rewrite clean_char_fixes_hostname_char, IH.
Qed.

Lemma cleanHostname_result_holds (w : World) :
  exists h new,
    Basecamp._cleanHostname w = Returned h (append_calls new w)
    /\ h <> EmptyString
    /\ string_forallb is_hostname_char h = true
    /\ (deviceNameOf w = EmptyString -> h = "basecamp-device"%string)
    /\ (deviceNameOf w <> EmptyString ->
        String.length h = String.length (deviceNameOf w)
        /\ forall i c, String.get i (deviceNameOf w) = Some c ->
                       String.get i h = Some (clean_char (Arduino.tolower c))).
Proof.
  destruct (cleanHostname_run w) as (new & Hrun & Hplain).
  exists (cleanName (deviceNameOf w)), new. split; [exact Hrun|].
  unfold cleanName.
  destruct (String.eqb_spec (deviceNameOf w) EmptyString) as [Hempty|Hname].
  - split; [discriminate|]. split; [reflexivity|]. split; [reflexivity | congruence].
  - split.
    { destruct (deviceNameOf w); [congruence | discriminate]. }
    split; [apply cleaned_all_hostname_chars|]. split; [congruence|].
    intros _. split.
    + now rewrite string_map_length, toLowerCase_length.
    + intros i c. apply cleaned_get.
Qed.


Lemma cleanHostname_fixpoint_holds (w : World) :
  deviceNameOf w <> EmptyString ->
  string_forallb is_hostname_char (deviceNameOf w) = true ->
  exists new,
    Basecamp._cleanHostname w = Returned (deviceNameOf w) (append_calls new w).
Proof.
  intros Hname Hclean. destruct (cleanHostname_run w) as (new & Hrun & Hplain).
  exists new. rewrite Hrun. f_equal. unfold cleanName.
  destruct (String.eqb_spec (deviceNameOf w) EmptyString); [contradiction|].
  now apply cleaned_fixes_hostname.
Qed.

(** X11. A device name that already is a clean host name is returned as it is;
    in particular cleaning is idempotent: a device whose name is the result
    of an earlier [_cleanHostname] gets the same host name. *)
Theorem cleanHostname_fixpoint (w : World) :
  deviceNameOf w <> EmptyString ->
  string_forallb is_hostname_char (deviceNameOf w) = true ->
  exists new,
    Basecamp._cleanHostname w = Returned (deviceNameOf w) (append_calls new w).
Proof. apply cleanHostname_fixpoint_holds. Qed.

Lemma cleanHostname_fixpoint_witness :
  exists new,
    Basecamp._cleanHostname
      (device_at_boot 12 0 {[ConfigurationKey.deviceName := "living-room-2"%string]})
    = Returned "living-room-2"%string
        (append_calls new
           (device_at_boot 12 0 {[ConfigurationKey.deviceName := "living-room-2"%string]})).
Proof.
  destruct (cleanHostname_fixpoint
              (device_at_boot 12 0 {[ConfigurationKey.deviceName := "living-room-2"%string]}))
    as [new Hrun].
  - vm_compute. discriminate.
  - vm_compute. reflexivity.
  - exists new. rewrite Hrun. f_equal.
Defined.

(** X12. Cleaning is idempotent: a device whose name is the host name an
    earlier [_cleanHostname] returned gets that same host name. *)
Theorem cleanHostname_idempotent (w w2 : World) :
  deviceNameOf w2 = match Basecamp._cleanHostname w with
                    | Returned h _ => h
                    | Restarted _ => EmptyString
                    end ->
  exists new,
    Basecamp._cleanHostname w2 = Returned (deviceNameOf w2) (append_calls new w2).
Proof.
  intros Hname.
  destruct (cleanHostname_result_holds w) as (h & new & Hrun & Hne & Hclean & _).
  rewrite Hrun in Hname. apply cleanHostname_fixpoint_holds; now rewrite Hname.
Qed.

Lemma cleanHostname_idempotent_witness :
  exists new,
    Basecamp._cleanHostname
      (device_at_boot 12 0 {[ConfigurationKey.deviceName := "living-room-2"%string]})
    = Returned
        (deviceNameOf
           (device_at_boot 12 0 {[ConfigurationKey.deviceName := "living-room-2"%string]}))
        (append_calls new
           (device_at_boot 12 0 {[ConfigurationKey.deviceName := "living-room-2"%string]})).
Proof.
  apply (cleanHostname_idempotent
           (device_at_boot 12 0 {[ConfigurationKey.deviceName := "Living Room 2"%string]})).
  vm_compute. reflexivity.
Defined.

(** ** Basecamp::begin, block by block *)

Lemma append_calls_nil w : append_calls [] w = w.
Proof. unfold append_calls. rewrite app_nil_r. destruct w; reflexivity. Qed.

Lemma append_calls_append n1 n2 w :
  append_calls n2 (append_calls n1 w) = append_calls (n1 ++ n2) w.
Proof. unfold append_calls. cbn. now rewrite app_assoc. Qed.

Lemma secret_from_shift (w : World) (n : nat) :
  forall i, secret_from (set_drawn (S (drawn w)) w) i n = secret_from w (S i) n.
Proof.
  induction n as [|n IH]; intros i; [reflexivity|].
  cbn [secret_from]. rewrite IH. f_equal.
  unfold secret_char. cbn [entropy drawn set_drawn]. now rewrite Nat.add_succ_r.
Qed.

Lemma generateRandomSecret_loop_run (remaining : nat) :
  forall (returnValue : string) (w : World),
    WifiControl.generateRandomSecret_loop remaining returnValue w
    = Returned (returnValue +:+ secret_from w 0 remaining)
        (set_drawn (drawn w + remaining)%nat w).
Proof.
  induction remaining as [|remaining IH]; intros returnValue w.
  - cbn. rewrite append_empty_r, Nat.add_0_r. destruct w; reflexivity.
  - cbn [WifiControl.generateRandomSecret_loop].
    unfold mbind, Run_bind, esp_random. rewrite IH.
    rewrite secret_from_shift, set_drawn_twice. cbn [drawn set_drawn secret_from].
    unfold Arduino.concat_char, secret_char.
    rewrite append_assoc, append_cons, append_empty_l, Nat.add_0_r.
    now rewrite Nat.add_succ_r.
Qed.

Lemma generatedSecret_run (w : World) :
  WifiControl.generateRandomSecret Basecamp.defaultApSecretLength w
  = Returned (generatedSecret w) (set_drawn (drawn w + 8)%nat w).
Proof.
  unfold WifiControl.generateRandomSecret. cbv zeta.
  change (N.to_nat _) with 8%nat. rewrite generateRandomSecret_loop_run.
  now rewrite append_empty_l.
Qed.

Section Quiet.
Variable ok : Call -> bool.

Lemma quiet_ret {A : Type} (P : A -> Prop) (a : A) : P a -> quiet ok P (mret a).
Proof.
  intros HP w. exists a, []. rewrite append_calls_nil. repeat split. exact HP.
Qed.

Lemma quiet_bind {A B : Type} (P : B -> Prop) (m : Run A) (f : A -> Run B) :
  quiet ok (fun _ => True) m -> (forall a, quiet ok P (f a)) -> quiet ok P (m ≫= f).
Proof.
  intros Hm Hf w.
  destruct (Hm w) as (a & new1 & Hrun1 & Hok1 & _).
  destruct (Hf a (append_calls new1 w)) as (b & new2 & Hrun2 & Hok2 & HP).
  exists b, (new1 ++ new2). rewrite (bind_returned _ _ _ _ _ Hrun1), Hrun2.
  rewrite append_calls_append, forallb_app, Hok1, Hok2. auto.
Qed.

Lemma quiet_gets {A : Type} (f : World -> A) : quiet ok (fun _ => True) (gets f).
Proof. intros w. exists (f w), []. rewrite append_calls_nil. repeat split. Qed.

Lemma quiet_emit (c : Call) : ok c = true -> quiet ok (fun _ => True) (emit c).
Proof.
  intros Hc w. exists tt, [c]. split; [reflexivity|].
  cbn. rewrite Hc. auto.
Qed.
End Quiet.

Ltac quiet_step :=
  first
    [ apply quiet_ret; exact I
    | apply quiet_ret; reflexivity
    | apply quiet_bind; [|intros ?]
    | apply quiet_gets
    | apply quiet_emit; reflexivity
    | match goal with
      | |- quiet _ _ (if ?c then _ else _) => destruct c
      | |- quiet _ _ (match ?x with _ => _ end) => destruct x
      end ].

Ltac quiet_run := steady_unfold; repeat quiet_step.

Lemma quiet_showSystemInfo : quiet is_plain_call (fun _ => True) Basecamp.showSystemInfo.
Proof.
  unfold Basecamp.showSystemInfo, WifiControl.getHardwareMacAddress. quiet_run.
Qed.

Lemma quiet_begin_startMqtt : quiet is_plain_call (fun _ => True) Basecamp.begin_startMqtt.
Proof. unfold Basecamp.begin_startMqtt. quiet_run. Qed.

Lemma quiet_begin_startOTA : quiet is_plain_call (fun _ => True) Basecamp.begin_startOTA.
Proof. unfold Basecamp.begin_startOTA, Basecamp.setupOTA. quiet_run. Qed.

Lemma quiet_begin_startSntp : quiet is_plain_call (fun _ => True) Basecamp.begin_startSntp.
Proof. unfold Basecamp.begin_startSntp. quiet_run. Qed.

(** Calls allowed before the web server is started. *)
Lemma ends_with_web_begin_bind {A : Type} (m : Run A) (f : A -> Run unit) :
  quiet (fun c => negb (is_wifi_call c) && negb (is_web_begin c)) (fun _ => True) m ->
  (forall a w, exists new,
     f a w = Returned tt (append_calls (new ++ [CExternal "web" "begin" []]) w)
     /\ forallb (fun c => negb (is_wifi_call c) && negb (is_web_begin c)) new = true) ->
  forall w, exists new,
    (m ≫= f) w = Returned tt (append_calls (new ++ [CExternal "web" "begin" []]) w)
    /\ forallb (fun c => negb (is_wifi_call c) && negb (is_web_begin c)) new = true.
Proof.
  intros Hm Hf w.
  destruct (Hm w) as (a & n1 & H1 & Hok1 & _).
  destruct (Hf a (append_calls n1 w)) as (n2 & H2 & Hok2).
  exists (n1 ++ n2). rewrite (bind_returned _ _ _ _ _ H1), H2.
  rewrite append_calls_append, forallb_app, Hok1, Hok2, app_assoc. auto.
Qed.

(** Setting up the web interface only talks to the web server, and starts
    it once, as the last step. *)
Lemma setupWebInterface_run (w : World) :
  exists new,
    Basecamp.setupWebInterface w = Returned tt (append_calls new w)
    /\ forallb (fun c => negb (is_wifi_call c)) new = true
    /\ count_calls is_web_begin new = 1%nat.
Proof.
  assert (Hrun : forall w, exists new,
    Basecamp.setupWebInterface w
    = Returned tt (append_calls (new ++ [CExternal "web" "begin" []]) w)
    /\ forallb (fun c => negb (is_wifi_call c) && negb (is_web_begin c)) new = true).
  { unfold Basecamp.setupWebInterface. steady_unfold.
    repeat (apply ends_with_web_begin_bind; [repeat quiet_step | intros ?]).
    intros w0. exists []. split; reflexivity. }
  destruct (Hrun w) as (new & Hw & Hok). exists (new ++ [CExternal "web" "begin" []]).
  split; [exact Hw|].
  rewrite forallb_app, count_calls_app.
  assert (Hboth : forallb (fun c => negb (is_wifi_call c)) new = true
                  /\ count_calls is_web_begin new = 0%nat).
  { clear Hw. induction new as [|c l IH]; [auto|]. cbn [forallb] in Hok.
    apply andb_true_iff in Hok as [Hc Hl]. destruct (IH Hl) as [IH1 IH2].
    apply andb_true_iff in Hc as [Hc1 Hc2]. apply negb_true_iff in Hc2.
    unfold count_calls in *. cbn [forallb List.filter]. now rewrite Hc1, Hc2, IH1. }
  destruct Hboth as [-> ->]. split; reflexivity.
Qed.

Lemma begin_startWeb_run (w : World) :
  exists new,
    Basecamp.begin_startWeb w = Returned tt (append_calls new w)
    /\ forallb (fun c => negb (is_wifi_call c)) new = true
    /\ count_calls is_web_begin new = (if webEnabled w then 1 else 0)%nat.
Proof.
  unfold Basecamp.begin_startWeb, Basecamp.shouldEnableConfigWebserver,
    WifiControl.getOperationMode, webEnabled.
  run_unfold. cbn beta.
  destruct (configurationUi_ w); [|destruct (operationMode_ w)];
    try apply setupWebInterface_run;
    exists []; rewrite append_calls_nil; repeat split.
Qed.

(** Two device states with the same fields are the same. *)
Lemma world_ext (w v : World) :
  reset_reason w = reset_reason v -> nvs w = nvs v -> spiffs w = spiffs v ->
  efuse_mac w = efuse_mac v -> wifi_mac w = wifi_mac v -> entropy w = entropy v ->
  drawn w = drawn v -> calls w = calls v -> configuration w = configuration v ->
  setupModeWifiEncryption_ w = setupModeWifiEncryption_ v ->
  configurationUi_ w = configurationUi_ v -> hostname w = hostname v ->
  mac w = mac v -> operationMode_ w = operationMode_ v ->
  _wifiEssid w = _wifiEssid v -> _wifiPassword w = _wifiPassword v ->
  _wifiAPName w = _wifiAPName v -> w = v.
Proof. destruct w, v; cbn; intros; subst; reflexivity. Qed.

(** Normalisation of field accesses through the state-changing functions. *)
Ltac world_lazy :=
  lazy beta iota zeta delta
    [append_calls set_nvs set_spiffs set_drawn set_calls set_configuration
     set_setupModeWifiEncryption_ set_hostname set_mac set_operationMode_
     set__wifiEssid set__wifiPassword set__wifiAPName
     reset_reason nvs spiffs efuse_mac wifi_mac entropy drawn calls configuration
     setupModeWifiEncryption_ configurationUi_ hostname mac operationMode_
     _wifiEssid _wifiPassword _wifiAPName
     loaded named checked networked loadedConfiguration deviceNameOf
     countedBoot suspiciousCause bootCounter networkMode accessPointName
     wifiConfiguredFlag].

Ltac world_eq := apply world_ext; world_lazy; reflexivity.

(** The state changes commute with adding calls. *)

Lemma loaded_append_calls n w : loaded (append_calls n w) = append_calls n (loaded w).
Proof. world_eq. Qed.

Lemma named_append_calls n w : named (append_calls n w) = append_calls n (named w).
Proof. world_eq. Qed.

Lemma checked_append_calls n w : checked (append_calls n w) = append_calls n (checked w).
Proof. world_eq. Qed.

Lemma provisioned_append_calls pw n w :
  provisioned pw (append_calls n w) = append_calls n (provisioned pw w).
Proof.
  unfold provisioned.
  change (secretIsSet (append_calls n w)) with (secretIsSet w).
  destruct (negb (secretIsSet w) || _); [|reflexivity].
  destruct (_ <? 8)%nat; world_eq.
Qed.

Lemma networked_append_calls n w :
  networked (append_calls n w) = append_calls n (networked w).
Proof. world_eq. Qed.

Lemma begin_acceptFixedSecret_block (pw : string) (w : World) :
  exists new,
    Basecamp.begin_acceptFixedSecret pw w = Returned tt (append_calls new (accepted pw w))
    /\ forallb is_plain_call new = true.
Proof.
  rewrite begin_acceptFixedSecret_run. unfold accepted.
  destruct (Nat.eqb_spec (String.length pw) 0) as [H0|H0].
  - exists []. rewrite H0. cbn. now rewrite append_calls_nil.
  - destruct (8 <=? String.length pw)%nat.
    + exists []. now rewrite append_calls_nil.
    + exists [tooShortLog]. split; reflexivity.
Qed.

Lemma begin_loadConfiguration_block (w : World) :
  exists new,
    Basecamp.begin_loadConfiguration w = Returned tt (append_calls new (loaded w))
    /\ forallb is_plain_call new = true.
Proof.
  unfold Basecamp.begin_loadConfiguration, Configuration.load, loaded,
    loadedConfiguration, append_calls.
  run_unfold. unfold Configuration.reset. run_unfold.
  destruct w as [rr nv sp em wm en dr cs cf se ui hn mc om es pw an].
  destruct sp as [stored|]; cbn;
    (eexists; split; [rewrite <- !app_assoc; reflexivity | reflexivity]).
Qed.

Lemma begin_assignHostname_block (w : World) :
  exists new,
    Basecamp.begin_assignHostname w = Returned tt (append_calls new (named w))
    /\ forallb is_plain_call new = true.
Proof.
  unfold Basecamp.begin_assignHostname.
  destruct (cleanHostname_run w) as (new & Hrun & Hplain).
  rewrite (bind_returned _ _ _ _ _ Hrun). run_unfold.
  exists (new ++ [CLog LOG_DEBUG "hostname: %s"]). split.
  - apply (f_equal (Returned tt)). apply world_ext; world_lazy; try reflexivity.
    now rewrite <- !app_assoc.
  - rewrite forallb_app, Hplain. reflexivity.
Qed.

Lemma checkResetReason_block (w : World) :
  checkRestarts w = false ->
  exists new,
    Basecamp.checkResetReason w = Returned tt (append_calls new (checked w))
    /\ forallb is_plain_call new = true.
Proof.
  rewrite checkResetReason_run.
  unfold checkRestarts, checkResetReason_summary, checked, countedBoot, suspiciousCause.
  destruct ((reset_reason w =? 1) || (reset_reason w =? 16)); cbv zeta; cbn [andb].
  - intros Hno. apply orb_false_iff in Hno as [H3 H2]. rewrite H3, H2.
    eexists. split; reflexivity.
  - intros _. eexists. split; reflexivity.
Qed.

Lemma secretIsSet_N (pw : string) :
  (WifiControl.getMinimumSecretLength <=? N.of_nat (String.length pw))%N
  = (8 <=? String.length pw)%nat
  /\ (N.of_nat (String.length pw) <? WifiControl.getMinimumSecretLength)%N
     = (String.length pw <? 8)%nat.
Proof.
  unfold WifiControl.getMinimumSecretLength, WifiControl.minApSecretLength. split.
  - destruct (N.leb_spec 8 (N.of_nat (String.length pw)));
      destruct (Nat.leb_spec 8 (String.length pw)); try reflexivity; lia.
  - destruct (N.ltb_spec (N.of_nat (String.length pw)) 8);
      destruct (Nat.ltb_spec (String.length pw) 8); try reflexivity; lia.
Qed.

Lemma begin_provisionApSecret_block (pw : string) (w : World) :
  exists new,
    Basecamp.begin_provisionApSecret pw w = Returned tt (append_calls new (provisioned pw w))
    /\ forallb is_plain_call new = true.
Proof.
  unfold Basecamp.begin_provisionApSecret, provisioned. cbv zeta.
  destruct (secretIsSet_N pw) as [-> ->].
  unfold mbind at 1, Run_bind at 1. unfold Configuration.isKeySet at 1, gets at 1.
  fold (secretIsSet w).
  destruct (negb (secretIsSet w) || (8 <=? String.length pw)%nat).
  - destruct (String.length pw <? 8)%nat.
    + run_unfold. rewrite generatedSecret_run. cbn.
      eexists. unfold append_calls. cbn.
      split; [rewrite <- !app_assoc; reflexivity | reflexivity].
    + run_unfold. cbn. eexists. unfold append_calls. cbn.
      split; [rewrite <- !app_assoc; reflexivity | reflexivity].
  - run_unfold. cbn. eexists. split; reflexivity.
Qed.

Lemma webEnabled_append_calls n w : webEnabled (append_calls n w) = webEnabled w.
Proof. reflexivity. Qed.

Lemma emit_run (c : Call) (w : World) : emit c w = Returned tt (append_calls [c] w).
Proof. reflexivity. Qed.

Lemma bind_gets {A B : Type} (f : World -> A) (k : A -> Run B) (w : World) :
  (gets f ≫= k) w = k (f w) w.
Proof. reflexivity. Qed.

Lemma WifiControl_begin_summary_networked (w : World) :
  WifiControl_begin_summary
    (default EmptyString (configuration w !! ConfigurationKey.wifiEssid))
    (default EmptyString (configuration w !! ConfigurationKey.wifiPassword))
    (wifiConfiguredFlag w) (hostname w) (apSecretArgument w) w
  = append_calls (networkCalls w)
      (set_operationMode_ (networkMode w)
         (set__wifiAPName (accessPointName w)
            (set__wifiPassword
               (default EmptyString (configuration w !! ConfigurationKey.wifiPassword))
               (set__wifiEssid
                  (default EmptyString (configuration w !! ConfigurationKey.wifiEssid))
                  w)))).
Proof.
  unfold WifiControl_begin_summary, networkCalls, networkMode.
  destruct (Arduino.equalsIgnoreCase (wifiConfiguredFlag w) "true").
  - apply world_ext; world_lazy; reflexivity.
  - destruct (0 <? String.length (apSecretArgument w))%nat;
      apply world_ext; world_lazy; reflexivity.
Qed.

Lemma begin_startNetwork_block (w : World) :
  Basecamp.begin_startNetwork w
  = Returned tt (append_calls (startNetworkCalls w) (networked w)).
Proof.
  unfold Basecamp.begin_startNetwork, Configuration.get.
  rewrite !bind_gets.
  assert (Harg :
    match setupModeWifiEncryption_ w with
    | SetupModeWifiEncryption.none => mret EmptyString
    | SetupModeWifiEncryption.secured =>
        gets (fun w0 : World =>
                default EmptyString
                  (configuration w0 !! ConfigurationKey.accessPointSecret))
    end w = Returned (apSecretArgument w) w).
  { unfold apSecretArgument, storedSecret.
    destruct (setupModeWifiEncryption_ w); reflexivity. }
  rewrite (bind_returned _ _ _ _ _ Harg).
  fold (wifiConfiguredFlag w).
  rewrite (bind_returned _ _ _ _ _ (WifiControl_begin_run _ _ _ _ _ w)).
  rewrite WifiControl_begin_summary_networked. cbv beta.
  unfold WifiControl.getSoftwareMacAddress, WiFi.macAddress.
  unfold mbind, Run_bind, mret, Run_ret, modify, gets, emit. cbv beta iota.
  apply (f_equal (Returned tt)). apply world_ext; world_lazy; try reflexivity.
  unfold startNetworkCalls. now rewrite app_assoc.
Qed.

Lemma web_begin_is_web_call (c : Call) :
  is_web_begin c = true -> is_web_call c = true.
Proof.
  destruct c; try discriminate. unfold is_web_begin, is_web_call.
  destruct component as [|a0 component]; [discriminate|].
  destruct a0 as [[] [] [] [] [] [] [] []]; try (intros H; discriminate H).
  destruct component as [|a1 component]; [discriminate|].
  destruct a1 as [[] [] [] [] [] [] [] []]; try (intros H; discriminate H).
  destruct component as [|a2 component]; [discriminate|].
  destruct a2 as [[] [] [] [] [] [] [] []]; try (intros H; discriminate H).
  destruct component as [|a3 component]; [reflexivity | discriminate].
Qed.

Lemma plain_call_not_web_begin (c : Call) :
  is_plain_call c = true -> is_wifi_call c = false /\ is_web_begin c = false.
Proof.
  unfold is_plain_call. intros H.
  apply andb_true_iff in H as [H _]. apply andb_true_iff in H as [H _].
  apply andb_true_iff in H as [Hw Hweb].
  apply negb_true_iff in Hw, Hweb. split; [exact Hw|].
  destruct (is_web_begin c) eqn:Hb; [|reflexivity].
  apply web_begin_is_web_call in Hb. congruence.
Qed.

Lemma plain_calls_stay (l : list Call) :
  forallb is_plain_call l = true ->
  count_calls is_restart l = 0%nat /\ count_calls is_storage_wipe l = 0%nat.
Proof.
  induction l as [|c l IH]; [auto|]. cbn [forallb]. intros H.
  apply andb_true_iff in H as [Hc Hl]. destruct (IH Hl) as [IH1 IH2].
  unfold is_plain_call in Hc.
  apply andb_true_iff in Hc as [Hc Hwipe]. apply andb_true_iff in Hc as [_ Hrestart].
  apply negb_true_iff in Hwipe, Hrestart.
  unfold count_calls in *. cbn [List.filter]. now rewrite Hwipe, Hrestart.
Qed.

Lemma plain_calls (l : list Call) :
  forallb is_plain_call l = true ->
  forallb (fun c => negb (is_wifi_call c)) l = true
  /\ count_calls is_web_begin l = 0%nat.
Proof.
  induction l as [|c l IH]; [auto|]. cbn [forallb]. intros H.
  apply andb_true_iff in H as [Hc Hl]. destruct (IH Hl) as [IH1 IH2].
  destruct (plain_call_not_web_begin c Hc) as [Hw Hb].
  unfold count_calls in *. cbn [List.filter]. now rewrite Hw, Hb, IH1.
Qed.

(** Everything [begin] does after the network is started only logs or
    talks to collaborators; the web server is started iff the
    configuration UI is enabled for the operation mode. *)
Lemma begin_tail_block (w : World) :
  exists new,
    (Basecamp.begin_startMqtt;;
     Basecamp.begin_startOTA;;
     Basecamp.begin_startWeb;;
     Basecamp.begin_startSntp;;
     info ← Basecamp.showSystemInfo;
     ESP_LOGW "%s";;
     mret true) w = Returned true (append_calls new w)
    /\ forallb (fun c => negb (is_wifi_call c)) new = true
    /\ count_calls is_web_begin new = (if webEnabled w then 1 else 0)%nat.
Proof.
  destruct (quiet_begin_startMqtt w) as ([] & n1 & H1 & Hok1 & _).
  destruct (quiet_begin_startOTA (append_calls n1 w)) as ([] & n2 & H2 & Hok2 & _).
  rewrite append_calls_append in H2.
  destruct (begin_startWeb_run (append_calls (n1 ++ n2) w)) as (n3 & H3 & Hok3 & Hweb).
  rewrite append_calls_append in H3.
  destruct (quiet_begin_startSntp (append_calls ((n1 ++ n2) ++ n3) w))
    as ([] & n4 & H4 & Hok4 & _).
  rewrite append_calls_append in H4.
  destruct (quiet_showSystemInfo (append_calls (((n1 ++ n2) ++ n3) ++ n4) w))
    as (info & n5 & H5 & Hok5 & _).
  rewrite append_calls_append in H5.
  exists (((((n1 ++ n2) ++ n3) ++ n4) ++ n5) ++ [CLog LOG_WARN "%s"]).
  rewrite (bind_returned _ _ _ _ _ H1), (bind_returned _ _ _ _ _ H2),
    (bind_returned _ _ _ _ _ H3), (bind_returned _ _ _ _ _ H4),
    (bind_returned _ _ _ _ _ H5).
  pose proof plain_calls as Hplain.
  destruct (Hplain _ Hok1) as [Hw1 Hc1]. destruct (Hplain _ Hok2) as [Hw2 Hc2].
  destruct (Hplain _ Hok4) as [Hw4 Hc4]. destruct (Hplain _ Hok5) as [Hw5 Hc5].
  split.
  - unfold ESP_LOGW. rewrite (bind_returned _ _ _ _ _ (emit_run _ _)).
    unfold mret, Run_ret. now rewrite append_calls_append.
  - rewrite !forallb_app, !count_calls_app, Hw1, Hw2, Hok3, Hw4, Hw5.
    rewrite Hc1, Hc2, Hweb, Hc4, Hc5. split; [reflexivity|].
    rewrite webEnabled_append_calls. cbn. lia.
Qed.

(** [begin], put together: the state before the check is
    [named (loaded (accepted pw w))]; if the check does not restart the
    device, [begin] returns [true] in state [begun pw w], having made the
    network calls between calls that do not concern the WiFi stack. *)
Lemma begin_run (pw : string) (w : World) :
  let w3 := named (loaded (accepted pw w)) in
  (checkRestarts w3 = false ->
   exists pre post,
     Basecamp.begin pw w
     = Returned true
         (append_calls (pre ++ startNetworkCalls (provisioned pw (checked w3)) ++ post)
            (begun pw w))
     /\ forallb (fun c => negb (is_wifi_call c)) pre = true
     /\ forallb (fun c => negb (is_wifi_call c)) post = true
     /\ count_calls is_web_begin pre = 0%nat
     /\ count_calls is_web_begin post = (if webEnabled (begun pw w) then 1 else 0)%nat)
  /\ (checkRestarts w3 = true ->
      exists pre,
        Basecamp.begin pw w
        = match Basecamp.checkResetReason (append_calls pre w3) with
          | Returned _ w' => Restarted w'
          | Restarted w' => Restarted w'
          end
        /\ restarted (Basecamp.checkResetReason (append_calls pre w3)) = true).
Proof.
  cbv zeta.
  destruct (begin_acceptFixedSecret_block pw w) as (n1 & H1 & Hok1).
  destruct (begin_loadConfiguration_block (append_calls n1 (accepted pw w)))
    as (n2 & H2 & Hok2).
  rewrite loaded_append_calls, append_calls_append in H2.
  destruct (begin_assignHostname_block (append_calls (n1 ++ n2) (loaded (accepted pw w))))
    as (n3 & H3 & Hok3).
  rewrite named_append_calls, append_calls_append in H3.
  set (w3 := named (loaded (accepted pw w))) in *.
  assert (Hbegin : Basecamp.begin pw w
    = (Basecamp.checkResetReason;; Basecamp.begin_services pw)
        (append_calls ((n1 ++ n2) ++ n3) w3)).
  { unfold Basecamp.begin.
    rewrite (bind_returned _ _ _ _ _ H1), (bind_returned _ _ _ _ _ H2).
    now rewrite (bind_returned _ _ _ _ _ H3). }
  pose proof plain_calls as Hplain.
  split.
  - intros Hcalm.
    destruct (checkResetReason_block (append_calls ((n1 ++ n2) ++ n3) w3) Hcalm)
      as (n4 & H4 & Hok4).
    rewrite checked_append_calls, append_calls_append in H4.
    destruct (begin_provisionApSecret_block pw
                (append_calls (((n1 ++ n2) ++ n3) ++ n4) (checked w3)))
      as (n5 & H5 & Hok5).
    rewrite provisioned_append_calls, append_calls_append in H5.
    set (w5 := provisioned pw (checked w3)) in *.
    pose proof (begin_startNetwork_block
                  (append_calls ((((n1 ++ n2) ++ n3) ++ n4) ++ n5) w5)) as H6.
    rewrite networked_append_calls in H6.
    change (startNetworkCalls (append_calls ((((n1 ++ n2) ++ n3) ++ n4) ++ n5) w5))
      with (startNetworkCalls w5) in H6.
    rewrite append_calls_append in H6.
    destruct (begin_tail_block
                (append_calls (((((n1 ++ n2) ++ n3) ++ n4) ++ n5) ++ startNetworkCalls w5)
                   (networked w5)))
      as (n7 & H7 & Hok7 & Hweb7).
    rewrite append_calls_append in H7.
    exists ((((n1 ++ n2) ++ n3) ++ n4) ++ n5), n7.
    split.
    + rewrite Hbegin, (bind_returned _ _ _ _ _ H4). unfold Basecamp.begin_services.
      rewrite (bind_returned _ _ _ _ _ H5), (bind_returned _ _ _ _ _ H6), H7.
      unfold begun. fold w3. fold w5. now rewrite <- !app_assoc.
    + destruct (Hplain _ Hok1) as [Hw1 Hc1]. destruct (Hplain _ Hok2) as [Hw2 Hc2].
      destruct (Hplain _ Hok3) as [Hw3 Hc3]. destruct (Hplain _ Hok4) as [Hw4 Hc4].
      destruct (Hplain _ Hok5) as [Hw5 Hc5].
      rewrite !forallb_app, !count_calls_app, Hw1, Hw2, Hw3, Hw4, Hw5, Hok7.
      rewrite Hc1, Hc2, Hc3, Hc4, Hc5.
      rewrite webEnabled_append_calls in Hweb7.
      unfold begun. fold w3. fold w5. rewrite Hweb7. repeat split.
  - intros Hrestart. exists ((n1 ++ n2) ++ n3).
    assert (Hr : restarted (Basecamp.checkResetReason
                              (append_calls ((n1 ++ n2) ++ n3) w3)) = true).
    { rewrite checkResetReason_run. unfold checkResetReason_summary.
      unfold checkRestarts, suspiciousCause in Hrestart.
      change (reset_reason (append_calls ((n1 ++ n2) ++ n3) w3)) with (reset_reason w3).
      change (bootCounter (append_calls ((n1 ++ n2) ++ n3) w3)) with (bootCounter w3).
      change (reportsNotConfigured (append_calls ((n1 ++ n2) ++ n3) w3))
        with (reportsNotConfigured w3).
      apply andb_true_iff in Hrestart as [-> Hesc]. cbv zeta.
      destruct (3 <? _); [reflexivity|]. cbn [orb] in Hesc. now rewrite Hesc. }
    split; [|exact Hr].
    rewrite Hbegin. unfold mbind at 1, Run_bind at 1.
    destruct (Basecamp.checkResetReason _); [discriminate Hr | reflexivity].
Qed.

(** ** Basecamp::begin, end to end *)

Ltac split_ifs :=
  repeat match goal with
  | |- context [if ?c then _ else _] => destruct c
  end.

Lemma prelude_checkRestarts pw w :
  checkRestarts (named (loaded (accepted pw w))) = escalates w.
Proof.
  unfold checkRestarts, escalates, reportsNotConfigured, persistedFlag, accepted.
  destruct (8 <=? String.length pw)%nat; world_lazy; reflexivity.
Qed.

Lemma prelude_countedBoot pw w :
  countedBoot (named (loaded (accepted pw w))) = countedBoot w.
Proof.
  unfold accepted. destruct (8 <=? String.length pw)%nat; world_lazy; reflexivity.
Qed.

Lemma prelude_bootCounter pw n w :
  bootCounter (append_calls n (named (loaded (accepted pw w)))) = bootCounter w.
Proof.
  unfold accepted. destruct (8 <=? String.length pw)%nat; world_lazy; reflexivity.
Qed.

Lemma prelude_configuration pw n w :
  configuration (append_calls n (named (loaded (accepted pw w)))) = loadedConfiguration w.
Proof.
  unfold accepted. destruct (8 <=? String.length pw)%nat; world_lazy; reflexivity.
Qed.

Lemma prelude_secretIsSet pw w :
  secretIsSet (checked (named (loaded (accepted pw w))))
  = bool_decide (is_Some (loadedConfiguration w !! ConfigurationKey.accessPointSecret)).
Proof.
  unfold secretIsSet, accepted.
  destruct (8 <=? String.length pw)%nat; world_lazy; reflexivity.
Qed.

Lemma prelude_generatedSecret pw w :
  generatedSecret (checked (named (loaded (accepted pw w)))) = generatedSecret w.
Proof.
  unfold generatedSecret, accepted. cbn [secret_from]. unfold secret_char.
  destruct (8 <=? String.length pw)%nat; world_lazy; reflexivity.
Qed.

(** What a restarting check leaves behind. *)
Lemma checkResetReason_restart_effect (v : World) :
  checkRestarts v = true ->
  exists w',
    Basecamp.checkResetReason v = Restarted w'
    /\ bootCounter w' = 0
    /\ (if 3 <? wrap32 (bootCounter v + 1)
        then persistedFlag w' = "False"%string
        else spiffs w' = None).
Proof.
  unfold checkRestarts, suspiciousCause. intros Hr.
  apply andb_true_iff in Hr as [Hcause Hesc].
  rewrite checkResetReason_run. unfold checkResetReason_summary.
  rewrite Hcause. cbv zeta.
  destruct (3 <? wrap32 (bootCounter v + 1)).
  - eexists. split; [reflexivity|].
    rewrite bootCounter_append_calls, bootCounter_stored. split; [reflexivity|].
    unfold persistedFlag, loadedConfiguration. cbn. now rewrite lookup_insert_eq.
  - cbn [orb] in Hesc. rewrite Hesc. eexists. split; [reflexivity|].
    rewrite bootCounter_append_calls, bootCounter_stored. split; reflexivity.
Qed.

Lemma begun_nvs pw w :
  nvs (begun pw w) = <["bootcounter" := countedBoot w]> (nvs w).
Proof.
  unfold begun, provisioned. rewrite <- (prelude_countedBoot pw w).
  unfold accepted. split_ifs; world_lazy; reflexivity.
Qed.

Lemma begun_bootCounter pw w : bootCounter (begun pw w) = countedBoot w.
Proof.
  unfold bootCounter at 1. rewrite begun_nvs, lookup_insert_eq. cbn [default].
  unfold countedBoot. destruct (suspiciousCause w); [apply wrap32_idem | reflexivity].
Qed.

Lemma begun_configuration pw w :
  configuration (begun pw w)
  = (if writesSecret pw w
     then <[ConfigurationKey.accessPointSecret := secretAfterBegin pw w]>
            (loadedConfiguration w)
     else loadedConfiguration w).
Proof.
  unfold begun, provisioned, secretAfterBegin.
  rewrite prelude_secretIsSet, prelude_generatedSecret. fold (writesSecret pw w).
  destruct (writesSecret pw w).
  - destruct (String.length pw <? 8)%nat; unfold accepted;
      destruct (8 <=? String.length pw)%nat; world_lazy; reflexivity.
  - unfold accepted. destruct (8 <=? String.length pw)%nat; world_lazy; reflexivity.
Qed.

Lemma begun_spiffs pw w : spiffs (begun pw w) = Some (configuration (begun pw w)).
Proof.
  unfold begun, provisioned. split_ifs; unfold accepted; split_ifs;
    world_lazy; reflexivity.
Qed.

Lemma provisioned_flag pw w :
  wifiConfiguredFlag (provisioned pw (checked (named (loaded (accepted pw w)))))
  = persistedFlag w.
Proof.
  unfold wifiConfiguredFlag, persistedFlag, provisioned.
  rewrite prelude_secretIsSet. fold (writesSecret pw w).
  destruct (writesSecret pw w).
  - destruct (String.length pw <? 8)%nat; unfold accepted;
      destruct (8 <=? String.length pw)%nat; world_lazy;
      rewrite lookup_insert_ne by discriminate; reflexivity.
  - unfold accepted. destruct (8 <=? String.length pw)%nat; world_lazy; reflexivity.
Qed.

Lemma networked_operationMode w : operationMode_ (networked w) = networkMode w.
Proof. reflexivity. Qed.

Lemma begun_operationMode pw w :
  operationMode_ (begun pw w)
  = (if Arduino.equalsIgnoreCase (persistedFlag w) "true"
     then Mode.client else Mode.accessPoint).
Proof.
  unfold begun. rewrite networked_operationMode. unfold networkMode.
  now rewrite provisioned_flag.
Qed.

Lemma begun_fields pw w :
  setupModeWifiEncryption_ (begun pw w) = encryptionAfterBegin pw w
  /\ configurationUi_ (begun pw w) = configurationUi_ w
  /\ hostname (begun pw w)
     = cleanName (default EmptyString
                    (loadedConfiguration w !! ConfigurationKey.deviceName))
  /\ mac (begun pw w) = format6Bytes (wifi_mac w) ":"
  /\ _wifiAPName (begun pw w) = accessPointName w
  /\ reset_reason (begun pw w) = reset_reason w.
Proof.
  unfold begun, encryptionAfterBegin, provisioned, accepted.
  repeat split; split_ifs; world_lazy; reflexivity.
Qed.

Lemma filter_no_wifi (kind : Call -> bool) (l : list Call) :
  (forall c, kind c = true -> is_wifi_call c = true) ->
  forallb (fun c => negb (is_wifi_call c)) l = true ->
  List.filter kind l = [].
Proof.
  intros Hkind. induction l as [|c l IH]; [reflexivity|].
  cbn [forallb List.filter]. intros H. apply andb_true_iff in H as [Hc Hl].
  rewrite (IH Hl). destruct (kind c) eqn:Hk; [|reflexivity].
  apply Hkind in Hk. rewrite Hk in Hc. discriminate.
Qed.

Lemma soft_ap_is_wifi c : is_soft_ap c = true -> is_wifi_call c = true.
Proof. destruct c; (discriminate || reflexivity). Qed.

Lemma connect_is_wifi c : is_connect c = true -> is_wifi_call c = true.
Proof. destruct c; (discriminate || reflexivity). Qed.

Lemma set_hostname_is_wifi c : is_set_hostname c = true -> is_wifi_call c = true.
Proof. destruct c; (discriminate || reflexivity). Qed.

(** The calls [begin] hands to the WiFi stack, in terms of the state it
    starts in. *)
Lemma provisioned_networkCalls pw w :
  networkCalls (provisioned pw (checked (named (loaded (accepted pw w)))))
  = if Arduino.equalsIgnoreCase (persistedFlag w) "true"
    then
      [CLog LOG_INFO "Connecting to Wifi";
       CWiFiOnEvent;
       CLog LOG_INFO "Wifi is configured, connecting to '%s'";
       CWiFiBegin (loadedEssid w) (loadedPassword w);
       CWiFiSetHostname (loadedHostname w)]
    else
      match accessPointPassphrase pw w with
      | Some secret =>
          [CLog LOG_INFO "Connecting to Wifi";
           CWiFiOnEvent;
           CLog LOG_WARN "Wifi is NOT configured, starting Wifi AP '%s'";
           CWiFiMode WIFI_AP_STA;
           CLog LOG_DEBUG WifiControl.apPasswordLogFormat;
           CWiFiSoftAP (accessPointName w) (Some secret)]
      | None =>
          [CLog LOG_INFO "Connecting to Wifi";
           CWiFiOnEvent;
           CLog LOG_WARN "Wifi is NOT configured, starting Wifi AP '%s'";
           CWiFiMode WIFI_AP_STA;
           CWiFiSoftAP (accessPointName w) None]
      end.
Proof.
  set (w5 := provisioned pw (checked (named (loaded (accepted pw w))))).
  assert (Hessid : default EmptyString (configuration w5 !! ConfigurationKey.wifiEssid)
                   = loadedEssid w).
  { subst w5. unfold loadedEssid, provisioned. split_ifs; unfold accepted; split_ifs;
      world_lazy; rewrite ?lookup_insert_ne by discriminate; reflexivity. }
  assert (Hpass : default EmptyString (configuration w5 !! ConfigurationKey.wifiPassword)
                  = loadedPassword w).
  { subst w5. unfold loadedPassword, provisioned. split_ifs; unfold accepted; split_ifs;
      world_lazy; rewrite ?lookup_insert_ne by discriminate; reflexivity. }
  assert (Hhost : hostname w5 = loadedHostname w).
  { subst w5. unfold loadedHostname, provisioned. split_ifs; unfold accepted; split_ifs;
      world_lazy; reflexivity. }
  assert (Hname : accessPointName w5 = accessPointName w).
  { subst w5. unfold provisioned. split_ifs; unfold accepted; split_ifs;
      world_lazy; reflexivity. }
  assert (Henc : setupModeWifiEncryption_ w5 = encryptionAfterBegin pw w).
  { subst w5. unfold encryptionAfterBegin, provisioned, accepted.
    split_ifs; world_lazy; reflexivity. }
  assert (Hsecret : storedSecret w5 = secretAfterBegin pw w).
  { subst w5. unfold storedSecret, secretAfterBegin, provisioned.
    rewrite prelude_secretIsSet, prelude_generatedSecret. fold (writesSecret pw w).
    destruct (writesSecret pw w).
    - destruct (String.length pw <? 8)%nat; unfold accepted;
        destruct (8 <=? String.length pw)%nat; world_lazy;
        rewrite lookup_insert_eq; reflexivity.
    - unfold accepted. destruct (8 <=? String.length pw)%nat; world_lazy; reflexivity. }
  unfold networkCalls, apSecretArgument, accessPointPassphrase.
  fold w5. pose proof (provisioned_flag pw w) as Hflag. fold w5 in Hflag.
  rewrite Hflag, Hessid, Hpass, Hhost, Hname, Henc, Hsecret.
  destruct (Arduino.equalsIgnoreCase (persistedFlag w) "true"); [reflexivity|].
  destruct (encryptionAfterBegin pw w); [reflexivity|].
  destruct (0 <? String.length (secretAfterBegin pw w))%nat; reflexivity.
Qed.

(** A boot that does not escalate: [begin] returns [true] in state
    [begun], and the calls it added are the network calls between calls
    that do not concern the WiFi stack. *)
Lemma begin_returned (pw : string) (w : World) :
  escalates w = false ->
  exists pre post,
    Basecamp.begin pw w
    = Returned true
        (append_calls
           (pre ++ startNetworkCalls (provisioned pw (checked (named (loaded (accepted pw w)))))
                ++ post)
           (begun pw w))
    /\ forallb (fun c => negb (is_wifi_call c)) pre = true
    /\ forallb (fun c => negb (is_wifi_call c)) post = true
    /\ count_calls is_web_begin pre = 0%nat
    /\ count_calls is_web_begin post = (if webEnabled (begun pw w) then 1 else 0)%nat.
Proof.
  intros Hcalm. rewrite <- (prelude_checkRestarts pw w) in Hcalm.
  exact (proj1 (begin_run pw w) Hcalm).
Qed.

Lemma begin_restarted (pw : string) (w : World) :
  escalates w = true ->
  exists w',
    Basecamp.begin pw w = Restarted w'
    /\ bootCounter w' = 0
    /\ (if 3 <? wrap32 (bootCounter w + 1)
        then persistedFlag w' = "False"%string
        else spiffs w' = None).
Proof.
  intros Hesc. rewrite <- (prelude_checkRestarts pw w) in Hesc.
  destruct (proj2 (begin_run pw w) Hesc) as (pre & Hrun & _).
  destruct (checkResetReason_restart_effect
              (append_calls pre (named (loaded (accepted pw w)))))
    as (w' & Hcheck & Hcount & Heffect).
  { exact Hesc. }
  rewrite prelude_bootCounter in Heffect.
  exists w'. rewrite Hrun, Hcheck. auto.
Qed.

Lemma spiffs_append_calls n w : spiffs (append_calls n w) = spiffs w.
Proof. reflexivity. Qed.

Lemma configuration_append_calls n w : configuration (append_calls n w) = configuration w.
Proof. reflexivity. Qed.

Lemma operationMode_append_calls n w :
  operationMode_ (append_calls n w) = operationMode_ w.
Proof. reflexivity. Qed.

Lemma encryption_append_calls n w :
  setupModeWifiEncryption_ (append_calls n w) = setupModeWifiEncryption_ w.
Proof. reflexivity. Qed.

Lemma reset_reason_append_calls n w : reset_reason (append_calls n w) = reset_reason w.
Proof. reflexivity. Qed.

Lemma hostname_append_calls n w : hostname (append_calls n w) = hostname w.
Proof. reflexivity. Qed.

Lemma mac_append_calls n w : mac (append_calls n w) = mac w.
Proof. reflexivity. Qed.

Lemma wifiAPName_append_calls n w : _wifiAPName (append_calls n w) = _wifiAPName w.
Proof. reflexivity. Qed.

Lemma efuse_mac_append_calls n w : efuse_mac (append_calls n w) = efuse_mac w.
Proof. reflexivity. Qed.

Lemma calls_append_calls n w : calls (append_calls n w) = calls w ++ n.
Proof. reflexivity. Qed.

Lemma begun_calls pw w : calls (begun pw w) = calls w.
Proof.
  unfold begun, provisioned, accepted. split_ifs; world_lazy; reflexivity.
Qed.

Lemma begun_persistedFlag pw n w :
  persistedFlag (append_calls n (begun pw w)) = persistedFlag w.
Proof.
  unfold persistedFlag at 1, loadedConfiguration at 1.
  rewrite spiffs_append_calls, begun_spiffs, begun_configuration.
  destruct (writesSecret pw w); [|reflexivity].
  now rewrite lookup_insert_ne by discriminate.
Qed.

(** The two ways [begin] ends. *)
Lemma begin_cases (fixedWiFiApEncryptionPassword : string) (w : World) :
  restarted (Basecamp.begin fixedWiFiApEncryptionPassword w) = escalates w
  /\ (escalates w = false ->
      exists w',
        Basecamp.begin fixedWiFiApEncryptionPassword w = Returned true w'
        /\ bootCounter w' = countedBoot w
        /\ operationMode_ w'
           = (if Arduino.equalsIgnoreCase (persistedFlag w) "true"
              then Mode.client else Mode.accessPoint)
        /\ persistedFlag w' = persistedFlag w)
  /\ (escalates w = true ->
      exists w',
        Basecamp.begin fixedWiFiApEncryptionPassword w = Restarted w'
        /\ bootCounter w' = 0
        /\ (if 3 <? wrap32 (bootCounter w + 1)
            then persistedFlag w' = "False"%string
            else spiffs w' = None)).
Proof.
  set (pw := fixedWiFiApEncryptionPassword).
  assert (Hcalm : escalates w = false ->
    exists w',
      Basecamp.begin pw w = Returned true w'
      /\ bootCounter w' = countedBoot w
      /\ operationMode_ w'
         = (if Arduino.equalsIgnoreCase (persistedFlag w) "true"
            then Mode.client else Mode.accessPoint)
      /\ persistedFlag w' = persistedFlag w).
  { intros Hno. destruct (begin_returned pw w Hno) as (pre & post & Hrun & _).
    eexists. split; [exact Hrun|].
    rewrite bootCounter_append_calls, begun_bootCounter.
    rewrite operationMode_append_calls, begun_operationMode, begun_persistedFlag.
    auto. }
  split; [|split; [exact Hcalm | apply begin_restarted]].
  destruct (escalates w) eqn:Hesc.
  - destruct (begin_restarted pw w Hesc) as (w' & Hrun & _). now rewrite Hrun.
  - destruct (Hcalm eq_refl) as (w' & Hrun & _). now rewrite Hrun.
Qed.

(** X13. [begin] restarts the device exactly when the boot escalates: the reset
    cause is 1 or 16 and the incremented counter is above 3, or equal to 3
    with the persisted flag equal to "false" up to case.  Otherwise it
    returns [true] with the counter at the incremented value (0 for any
    other reset cause), in client mode iff the persisted flag is "true" up
    to case, and with the persisted flag unchanged.  When it restarts, the
    counter is back at 0 and either the persisted flag is "False" (counter
    above 3) or the flash storage is formatted. *)
Theorem begin_outcome (fixedWiFiApEncryptionPassword : string) (w : World) :
  restarted (Basecamp.begin fixedWiFiApEncryptionPassword w) = escalates w
  /\ (escalates w = false ->
      exists w',
        Basecamp.begin fixedWiFiApEncryptionPassword w = Returned true w'
        /\ bootCounter w' = countedBoot w
        /\ operationMode_ w'
           = (if Arduino.equalsIgnoreCase (persistedFlag w) "true"
              then Mode.client else Mode.accessPoint)
        /\ persistedFlag w' = persistedFlag w)
  /\ (escalates w = true ->
      exists w',
        Basecamp.begin fixedWiFiApEncryptionPassword w = Restarted w'
        /\ bootCounter w' = 0
        /\ (if 3 <? wrap32 (bootCounter w + 1)
            then persistedFlag w' = "False"%string
            else spiffs w' = None)).
Proof. apply begin_cases. Qed.

Lemma begun_drawn pw w :
  drawn (begun pw w)
  = if writesSecret pw w && (String.length pw <? 8)%nat
    then (drawn w + 8)%nat else drawn w.
Proof.
  unfold begun, provisioned. rewrite prelude_secretIsSet. fold (writesSecret pw w).
  destruct (writesSecret pw w); cbn [andb].
  - destruct (String.length pw <? 8)%nat; unfold accepted;
      destruct (8 <=? String.length pw)%nat; world_lazy; reflexivity.
  - unfold accepted. destruct (8 <=? String.length pw)%nat; world_lazy; reflexivity.
Qed.

Lemma drawn_append_calls n w : drawn (append_calls n w) = drawn w.
Proof. reflexivity. Qed.

Lemma configurationUi_append_calls n w :
  configurationUi_ (append_calls n w) = configurationUi_ w.
Proof. reflexivity. Qed.

Lemma filter_wifi_sub (kind : Call -> bool) (l : list Call) :
  (forall c, kind c = true -> is_wifi_call c = true) ->
  List.filter kind (List.filter is_wifi_call l) = List.filter kind l.
Proof.
  intros Hkind. induction l as [|c l IH]; [reflexivity|].
  cbn [List.filter]. destruct (is_wifi_call c) eqn:Hw.
  - cbn [List.filter]. now rewrite IH.
  - rewrite IH. destruct (kind c) eqn:Hk; [|reflexivity].
    apply Hkind in Hk. congruence.
Qed.

Lemma count_calls_no_wifi (kind : Call -> bool) (l : list Call) :
  (forall c, kind c = true -> is_wifi_call c = false) ->
  count_calls kind (List.filter (fun c => negb (is_wifi_call c)) l) = count_calls kind l.
Proof.
  intros Hkind. unfold count_calls. induction l as [|c l IH]; [reflexivity|].
  cbn [List.filter]. destruct (is_wifi_call c) eqn:Hw; cbn [negb List.filter].
  - destruct (kind c) eqn:Hk; [apply Hkind in Hk; congruence | exact IH].
  - destruct (kind c); cbn [List.length]; now rewrite IH.
Qed.

Lemma networkCalls_no_web_begin w : count_calls is_web_begin (networkCalls w) = 0%nat.
Proof.
  unfold networkCalls.
  destruct (Arduino.equalsIgnoreCase (wifiConfiguredFlag w) "true"); [reflexivity|].
  destruct (0 <? String.length (apSecretArgument w))%nat; reflexivity.
Qed.

(** What a returning [begin] leaves behind, in terms of the state it
    started in. *)
Lemma begin_returned_summary (pw : string) (w : World) :
  escalates w = false ->
  exists w' new,
    Basecamp.begin pw w = Returned true w'
    /\ calls w' = calls w ++ new
    /\ List.filter is_wifi_call new
       = (if Arduino.equalsIgnoreCase (persistedFlag w) "true"
          then [CWiFiOnEvent; CWiFiBegin (loadedEssid w) (loadedPassword w);
                CWiFiSetHostname (loadedHostname w); CWiFiMacAddress]
          else [CWiFiOnEvent; CWiFiMode WIFI_AP_STA;
                CWiFiSoftAP (accessPointName w) (accessPointPassphrase pw w);
                CWiFiMacAddress])
    /\ count_calls is_web_begin new
       = (match configurationUi_ w with
          | ConfigurationUI.always => 1
          | ConfigurationUI.accessPoint =>
              if Arduino.equalsIgnoreCase (persistedFlag w) "true" then 0 else 1
          end)%nat
    /\ configuration w'
       = (if writesSecret pw w
          then <[ConfigurationKey.accessPointSecret := secretAfterBegin pw w]>
                 (loadedConfiguration w)
          else loadedConfiguration w)
    /\ spiffs w' = Some (configuration w')
    /\ drawn w'
       = (if writesSecret pw w && (String.length pw <? 8)%nat
          then (drawn w + 8)%nat else drawn w)
    /\ setupModeWifiEncryption_ w' = encryptionAfterBegin pw w
    /\ operationMode_ w'
       = (if Arduino.equalsIgnoreCase (persistedFlag w) "true"
          then Mode.client else Mode.accessPoint)
    /\ hostname w' = loadedHostname w
    /\ mac w' = format6Bytes (wifi_mac w) ":"
    /\ _wifiAPName w' = accessPointName w
    /\ efuse_mac w' = efuse_mac w.
Proof.
  intros Hno.
  destruct (begin_returned pw w Hno) as (pre & post & Hrun & Hpre & Hpost & Hwpre & Hwpost).
  unfold startNetworkCalls in Hrun. rewrite provisioned_networkCalls in Hrun.
  eexists. eexists. split; [exact Hrun|].
  rewrite calls_append_calls, begun_calls. split; [reflexivity|].
  destruct (begun_fields pw w) as (Henc & Hui & Hhost & Hmac & Hname & _).
  split; [|split; [|split; [|split; [|split; [|split; [|split; [|split; [|split; [|split]]]]]]]]].
  - rewrite !List.filter_app.
    rewrite (filter_no_wifi is_wifi_call pre (fun c H => H) Hpre).
    rewrite (filter_no_wifi is_wifi_call post (fun c H => H) Hpost).
    destruct (Arduino.equalsIgnoreCase (persistedFlag w) "true"); [reflexivity|].
    destruct (accessPointPassphrase pw w); reflexivity.
  - rewrite !count_calls_app, Hwpre, Hwpost.
    unfold webEnabled. rewrite Hui, begun_operationMode.
    assert (Hnet : forall l,
      l = (if Arduino.equalsIgnoreCase (persistedFlag w) "true"
           then
            [CLog LOG_INFO "Connecting to Wifi"; CWiFiOnEvent;
             CLog LOG_INFO "Wifi is configured, connecting to '%s'";
             CWiFiBegin (loadedEssid w) (loadedPassword w);
             CWiFiSetHostname (loadedHostname w)]
           else
            match accessPointPassphrase pw w with
            | Some secret =>
                [CLog LOG_INFO "Connecting to Wifi"; CWiFiOnEvent;
                 CLog LOG_WARN "Wifi is NOT configured, starting Wifi AP '%s'";
                 CWiFiMode WIFI_AP_STA;
                 CLog LOG_DEBUG WifiControl.apPasswordLogFormat;
                 CWiFiSoftAP (accessPointName w) (Some secret)]
            | None =>
                [CLog LOG_INFO "Connecting to Wifi"; CWiFiOnEvent;
                 CLog LOG_WARN "Wifi is NOT configured, starting Wifi AP '%s'";
                 CWiFiMode WIFI_AP_STA; CWiFiSoftAP (accessPointName w) None]
            end) ->
      count_calls is_web_begin l = 0%nat).
    { intros l ->. destruct (Arduino.equalsIgnoreCase (persistedFlag w) "true");
        [reflexivity|]. destruct (accessPointPassphrase pw w); reflexivity. }
    rewrite (Hnet _ eq_refl).
    destruct (configurationUi_ w); [reflexivity|].
    destruct (Arduino.equalsIgnoreCase (persistedFlag w) "true"); reflexivity.
  - now rewrite configuration_append_calls, begun_configuration.
  - now rewrite spiffs_append_calls, configuration_append_calls, begun_spiffs.
  - now rewrite drawn_append_calls, begun_drawn.
  - now rewrite encryption_append_calls.
  - now rewrite operationMode_append_calls, begun_operationMode.
  - now rewrite hostname_append_calls.
  - now rewrite mac_append_calls.
  - now rewrite wifiAPName_append_calls.
  - rewrite efuse_mac_append_calls. unfold begun, provisioned, accepted.
    split_ifs; world_lazy; reflexivity.
Qed.

Lemma secret_from_length w i n : String.length (secret_from w i n) = n.
Proof.
  revert i. induction n as [|n IH]; intros i; [reflexivity|].
  cbn [secret_from String.length]. now rewrite IH.
Qed.

Lemma filter_soft_ap_of_wifi (new : list Call) (l : list Call) :
  List.filter is_wifi_call new = l ->
  List.filter is_soft_ap new = List.filter is_soft_ap l.
Proof. intros <-. symmetry. apply filter_wifi_sub, soft_ap_is_wifi. Qed.

Lemma filter_connect_of_wifi (new : list Call) (l : list Call) :
  List.filter is_wifi_call new = l ->
  List.filter is_connect new = List.filter is_connect l.
Proof. intros <-. symmetry. apply filter_wifi_sub, connect_is_wifi. Qed.

(** ** [Basecamp::begin], end to end *)

(** X14. A fixed password of at least 8 characters overrides everything else
    about the access point: whatever encryption the constructor selected
    and whatever secret is stored, a boot that neither escalates nor finds
    the network configured starts exactly one access point, protected by
    that password, makes no connection attempt, switches the encryption
    setting to [secured], and stores and persists the password as the
    access point secret without drawing a random number. *)
Theorem begin_fixed_password (fixedWiFiApEncryptionPassword : string) (w : World) :
  (8 <= String.length fixedWiFiApEncryptionPassword)%nat ->
  escalates w = false ->
  Arduino.equalsIgnoreCase (persistedFlag w) "true" = false ->
  exists w' new,
    Basecamp.begin fixedWiFiApEncryptionPassword w = Returned true w'
    /\ calls w' = calls w ++ new
    /\ List.filter is_soft_ap new
       = [CWiFiSoftAP (accessPointName w) (Some fixedWiFiApEncryptionPassword)]
    /\ List.filter is_connect new = []
    /\ setupModeWifiEncryption_ w' = SetupModeWifiEncryption.secured
    /\ configuration w' !! ConfigurationKey.accessPointSecret
       = Some fixedWiFiApEncryptionPassword
    /\ spiffs w' = Some (configuration w')
    /\ drawn w' = drawn w.
Proof.
  set (pw := fixedWiFiApEncryptionPassword). intros Hlen Hno Hflag.
  destruct (begin_returned_summary pw w Hno)
    as (w' & new & Hrun & Hcalls & Hwifi & _ & Hcfg & Hspiffs & Hdrawn & Henc & _).
  assert (Hle : (8 <=? String.length pw)%nat = true) by now apply Nat.leb_le.
  assert (Hlt : (String.length pw <? 8)%nat = false) by (apply Nat.ltb_ge; lia).
  assert (Hwrites : writesSecret pw w = true).
  { unfold writesSecret. rewrite Hle. apply orb_true_r. }
  assert (Hsecret : secretAfterBegin pw w = pw).
  { unfold secretAfterBegin. now rewrite Hwrites, Hlt. }
  assert (Hpass : accessPointPassphrase pw w = Some pw).
  { unfold accessPointPassphrase, encryptionAfterBegin. rewrite Hle, Hsecret.
    destruct (0 <? String.length pw)%nat eqn:Hpos; [reflexivity|].
    apply Nat.ltb_ge in Hpos. lia. }
  rewrite Hflag, Hpass in Hwifi. rewrite Hwrites, Hsecret in Hcfg.
  rewrite Hwrites, Hlt in Hdrawn. cbn [andb] in Hdrawn.
  exists w', new. split; [exact Hrun|]. split; [exact Hcalls|].
  split; [now rewrite (filter_soft_ap_of_wifi _ _ Hwifi)|].
  split; [now rewrite (filter_connect_of_wifi _ _ Hwifi)|].
  split; [rewrite Henc; unfold encryptionAfterBegin; now rewrite Hle|].
  split; [rewrite Hcfg; apply lookup_insert_eq|].
  split; [exact Hspiffs | exact Hdrawn].
Qed.

Lemma begin_fixed_password_witness :
  exists w' new,
    Basecamp.begin "correct horse"
      (device_at_boot 12 0 {[ConfigurationKey.accessPointSecret := "oldsecret"%string]})
    = Returned true w'
    /\ calls w' = new
    /\ List.filter is_soft_ap new
       = [CWiFiSoftAP "ESP32_246f28ab012c" (Some "correct horse"%string)]
    /\ configuration w' !! ConfigurationKey.accessPointSecret
       = Some "correct horse"%string.
Proof.
  destruct (begin_fixed_password "correct horse"
              (device_at_boot 12 0
                 {[ConfigurationKey.accessPointSecret := "oldsecret"%string]}))
    as (w' & new & Hrun & Hcalls & Hap & _ & _ & Hsecret & _).
  - vm_compute. lia.
  - vm_compute. reflexivity.
  - vm_compute. reflexivity.
  - exists w', new. auto.
Defined.

(** X15. Without a usable fixed password (fewer than 8 characters, the empty
    default included) and with the encryption setting [none], a boot that
    neither escalates nor finds the network configured starts exactly one
    access point and it is open: no password is handed to the WiFi stack,
    whatever secret is stored or generated. *)
Theorem begin_open_access_point (fixedWiFiApEncryptionPassword : string) (w : World) :
  (String.length fixedWiFiApEncryptionPassword < 8)%nat ->
  setupModeWifiEncryption_ w = SetupModeWifiEncryption.none ->
  escalates w = false ->
  Arduino.equalsIgnoreCase (persistedFlag w) "true" = false ->
  exists w' new,
    Basecamp.begin fixedWiFiApEncryptionPassword w = Returned true w'
    /\ calls w' = calls w ++ new
    /\ List.filter is_soft_ap new = [CWiFiSoftAP (accessPointName w) None]
    /\ List.filter is_connect new = []
    /\ setupModeWifiEncryption_ w' = SetupModeWifiEncryption.none.
Proof.
  set (pw := fixedWiFiApEncryptionPassword). intros Hlen Hnone Hno Hflag.
  destruct (begin_returned_summary pw w Hno)
    as (w' & new & Hrun & Hcalls & Hwifi & _ & _ & _ & _ & Henc & _).
  assert (Hle : (8 <=? String.length pw)%nat = false) by (apply Nat.leb_gt; lia).
  assert (Hpass : accessPointPassphrase pw w = None).
  { unfold accessPointPassphrase, encryptionAfterBegin. now rewrite Hle, Hnone. }
  rewrite Hflag, Hpass in Hwifi.
  exists w', new. split; [exact Hrun|]. split; [exact Hcalls|].
  split; [now rewrite (filter_soft_ap_of_wifi _ _ Hwifi)|].
  split; [now rewrite (filter_connect_of_wifi _ _ Hwifi)|].
  rewrite Henc. unfold encryptionAfterBegin. now rewrite Hle, Hnone.
Qed.

Lemma begin_open_access_point_witness :
  exists w' new,
    Basecamp.begin "short" (device_at_boot 12 0 ∅) = Returned true w'
    /\ calls w' = new
    /\ List.filter is_soft_ap new = [CWiFiSoftAP "ESP32_246f28ab012c" None].
Proof.
  destruct (begin_open_access_point "short" (device_at_boot 12 0 ∅))
    as (w' & new & Hrun & Hcalls & Hap & _).
  - vm_compute. lia.
  - reflexivity.
  - vm_compute. reflexivity.
  - vm_compute. reflexivity.
  - exists w', new. auto.
Defined.

(** X16. First boot of a secured device: without a usable fixed password, with
    the encryption setting [secured] and no access point secret stored, a
    boot that neither escalates nor finds the network configured generates
    a secret of 8 characters from the next 8 random numbers, stores and
    persists it, and starts exactly one access point protected by it. *)
Theorem begin_generates_secret (fixedWiFiApEncryptionPassword : string) (w : World) :
  (String.length fixedWiFiApEncryptionPassword < 8)%nat ->
  setupModeWifiEncryption_ w = SetupModeWifiEncryption.secured ->
  loadedConfiguration w !! ConfigurationKey.accessPointSecret = None ->
  escalates w = false ->
  Arduino.equalsIgnoreCase (persistedFlag w) "true" = false ->
  exists w' new secret,
    Basecamp.begin fixedWiFiApEncryptionPassword w = Returned true w'
    /\ calls w' = calls w ++ new
    /\ String.length secret = 8%nat
    /\ (forall i, (i < 8)%nat -> Arduino.charAt secret i = secret_char w i)
    /\ List.filter is_soft_ap new = [CWiFiSoftAP (accessPointName w) (Some secret)]
    /\ configuration w' !! ConfigurationKey.accessPointSecret = Some secret
    /\ spiffs w' = Some (configuration w')
    /\ drawn w' = (drawn w + 8)%nat.
Proof.
  set (pw := fixedWiFiApEncryptionPassword). intros Hlen Hsec Hunset Hno Hflag.
  destruct (begin_returned_summary pw w Hno)
    as (w' & new & Hrun & Hcalls & Hwifi & _ & Hcfg & Hspiffs & Hdrawn & _).
  assert (Hle : (8 <=? String.length pw)%nat = false) by (apply Nat.leb_gt; lia).
  assert (Hlt : (String.length pw <? 8)%nat = true) by now apply Nat.ltb_lt.
  assert (Hwrites : writesSecret pw w = true).
  { unfold writesSecret. rewrite Hunset.
    rewrite bool_decide_eq_false_2; [reflexivity|]. intros [s Hs]. discriminate. }
  assert (Hsecret : secretAfterBegin pw w = generatedSecret w).
  { unfold secretAfterBegin. now rewrite Hwrites, Hlt. }
  assert (Hpass : accessPointPassphrase pw w = Some (generatedSecret w)).
  { unfold accessPointPassphrase, encryptionAfterBegin.
    rewrite Hle, Hsec, Hsecret. unfold generatedSecret.
    now rewrite secret_from_length. }
  rewrite Hflag, Hpass in Hwifi. rewrite Hwrites, Hsecret in Hcfg.
  rewrite Hwrites, Hlt in Hdrawn. cbn [andb] in Hdrawn.
  exists w', new, (generatedSecret w).
  split; [exact Hrun|]. split; [exact Hcalls|].
  split; [apply secret_from_length|].
  split.
  { intros i Hi. unfold generatedSecret.
    do 8 (destruct i as [|i]; [reflexivity|]). lia. }
  split; [now rewrite (filter_soft_ap_of_wifi _ _ Hwifi)|].
  split; [rewrite Hcfg; apply lookup_insert_eq|].
  split; [exact Hspiffs | exact Hdrawn].
Qed.

Lemma begin_generates_secret_witness :
  exists w' new secret,
    Basecamp.begin EmptyString
      (set_setupModeWifiEncryption_ SetupModeWifiEncryption.secured
         (device_at_boot 12 0 ∅))
    = Returned true w'
    /\ calls w' = new
    /\ String.length secret = 8%nat
    /\ List.filter is_soft_ap new = [CWiFiSoftAP "ESP32_246f28ab012c" (Some secret)].
Proof.
  destruct (begin_generates_secret EmptyString
              (set_setupModeWifiEncryption_ SetupModeWifiEncryption.secured
                 (device_at_boot 12 0 ∅)))
    as (w' & new & secret & Hrun & Hcalls & Hlen & _ & Hap & _).
  - vm_compute. lia.
  - reflexivity.
  - vm_compute. reflexivity.
  - vm_compute. reflexivity.
  - vm_compute. reflexivity.
  - exists w', new, secret. auto.
Defined.

(** X17. A stored access point secret survives every boot without a usable
    fixed password: [begin] then leaves the stored secret as it is and
    draws no random number, in either network mode.  When the boot starts
    an access point with the encryption setting [secured], that secret is
    its password, unless it is empty, in which case the access point is
    open. *)
Theorem begin_keeps_stored_secret
    (fixedWiFiApEncryptionPassword secret : string) (w : World) :
  (String.length fixedWiFiApEncryptionPassword < 8)%nat ->
  loadedConfiguration w !! ConfigurationKey.accessPointSecret = Some secret ->
  escalates w = false ->
  exists w' new,
    Basecamp.begin fixedWiFiApEncryptionPassword w = Returned true w'
    /\ calls w' = calls w ++ new
    /\ configuration w' = loadedConfiguration w
    /\ configuration w' !! ConfigurationKey.accessPointSecret = Some secret
    /\ drawn w' = drawn w
    /\ (Arduino.equalsIgnoreCase (persistedFlag w) "true" = false ->
        setupModeWifiEncryption_ w = SetupModeWifiEncryption.secured ->
        List.filter is_soft_ap new
        = [CWiFiSoftAP (accessPointName w)
             (if (0 <? String.length secret)%nat then Some secret else None)]).
Proof.
  set (pw := fixedWiFiApEncryptionPassword). intros Hlen Hset Hno.
  destruct (begin_returned_summary pw w Hno)
    as (w' & new & Hrun & Hcalls & Hwifi & _ & Hcfg & _ & Hdrawn & _).
  assert (Hle : (8 <=? String.length pw)%nat = false) by (apply Nat.leb_gt; lia).
  assert (Hwrites : writesSecret pw w = false).
  { unfold writesSecret. rewrite Hset, Hle.
    rewrite bool_decide_eq_true_2; [reflexivity|]. now exists secret. }
  assert (Hsecret : secretAfterBegin pw w = secret).
  { unfold secretAfterBegin. now rewrite Hwrites, Hset. }
  rewrite Hwrites in Hcfg, Hdrawn. cbn [andb] in Hdrawn.
  exists w', new. split; [exact Hrun|]. split; [exact Hcalls|].
  split; [exact Hcfg|]. split; [now rewrite Hcfg|]. split; [exact Hdrawn|].
  intros Hflag Hsec.
  assert (Hpass : accessPointPassphrase pw w
                  = if (0 <? String.length secret)%nat then Some secret else None).
  { unfold accessPointPassphrase, encryptionAfterBegin. now rewrite Hle, Hsec, Hsecret. }
  rewrite Hflag, Hpass in Hwifi.
  now rewrite (filter_soft_ap_of_wifi _ _ Hwifi).
Qed.

Lemma begin_keeps_stored_secret_witness :
  exists w',
    Basecamp.begin EmptyString
      (device_at_boot 12 0 {[ConfigurationKey.accessPointSecret := "oldsecret"%string]})
    = Returned true w'
    /\ configuration w' !! ConfigurationKey.accessPointSecret = Some "oldsecret"%string.
Proof.
  destruct (begin_keeps_stored_secret EmptyString "oldsecret"
              (device_at_boot 12 0
                 {[ConfigurationKey.accessPointSecret := "oldsecret"%string]}))
    as (w' & new & Hrun & _ & _ & Hsecret & _).
  - vm_compute. lia.
  - vm_compute. reflexivity.
  - vm_compute. reflexivity.
  - exists w'. auto.
Defined.

(** X18. Client mode: when the persisted flag equals "true" up to case and
    the boot does not escalate, [begin] returns in client mode; the only
    calls it makes on the WiFi stack are the event registration, one
    connection attempt with the persisted network name and password,
    setting the host name to the cleaned device name, and reading the
    address of the interface, in this order.  No access point is started,
    and the cleaned device name is also the [hostname] member. *)
Theorem begin_client_mode (fixedWiFiApEncryptionPassword : string) (w : World) :
  escalates w = false ->
  Arduino.equalsIgnoreCase (persistedFlag w) "true" = true ->
  exists w' new,
    Basecamp.begin fixedWiFiApEncryptionPassword w = Returned true w'
    /\ calls w' = calls w ++ new
    /\ List.filter is_wifi_call new
       = [CWiFiOnEvent; CWiFiBegin (loadedEssid w) (loadedPassword w);
          CWiFiSetHostname (loadedHostname w); CWiFiMacAddress]
    /\ List.filter is_soft_ap new = []
    /\ operationMode_ w' = Mode.client
    /\ hostname w' = loadedHostname w.
Proof.
  set (pw := fixedWiFiApEncryptionPassword). intros Hno Hflag.
  destruct (begin_returned_summary pw w Hno)
    as (w' & new & Hrun & Hcalls & Hwifi & _ & _ & _ & _ & _ & Hmode & Hhost & _).
  rewrite Hflag in Hwifi, Hmode.
  exists w', new. split; [exact Hrun|]. split; [exact Hcalls|].
  split; [exact Hwifi|].
  split; [now rewrite (filter_soft_ap_of_wifi _ _ Hwifi)|].
  split; [exact Hmode | exact Hhost].
Qed.

Lemma begin_client_mode_witness :
  exists w' new,
    Basecamp.begin EmptyString
      (device_at_boot 12 0
         {[ConfigurationKey.wifiConfigured := "True"%string;
           ConfigurationKey.wifiEssid := "home"%string;
           ConfigurationKey.wifiPassword := "hunter22"%string;
           ConfigurationKey.deviceName := "Living Room"%string]})
    = Returned true w'
    /\ calls w' = new
    /\ List.filter is_wifi_call new
       = [CWiFiOnEvent; CWiFiBegin "home" "hunter22"; CWiFiSetHostname "living-room";
          CWiFiMacAddress].
Proof.
  destruct (begin_client_mode EmptyString
              (device_at_boot 12 0
                 {[ConfigurationKey.wifiConfigured := "True"%string;
                   ConfigurationKey.wifiEssid := "home"%string;
                   ConfigurationKey.wifiPassword := "hunter22"%string;
                   ConfigurationKey.deviceName := "Living Room"%string]}))
    as (w' & new & Hrun & Hcalls & Hwifi & _).
  - vm_compute. reflexivity.
  - vm_compute. reflexivity.
  - exists w', new. auto.
Defined.

(** X19. The configuration web interface is started at most once by a
    returning [begin]: exactly once when the constructor selected [always]
    or the device ends up in access point mode (the persisted flag is not
    "true" up to case), and not at all otherwise. *)
Theorem begin_web_interface (fixedWiFiApEncryptionPassword : string) (w : World) :
  escalates w = false ->
  exists w' new,
    Basecamp.begin fixedWiFiApEncryptionPassword w = Returned true w'
    /\ calls w' = calls w ++ new
    /\ count_calls is_web_begin new
       = (if match configurationUi_ w with
             | ConfigurationUI.always => true
             | ConfigurationUI.accessPoint =>
                 negb (Arduino.equalsIgnoreCase (persistedFlag w) "true")
             end
          then 1 else 0)%nat.
Proof.
  intros Hno.
  destruct (begin_returned_summary fixedWiFiApEncryptionPassword w Hno)
    as (w' & new & Hrun & Hcalls & _ & Hweb & _).
  exists w', new. split; [exact Hrun|]. split; [exact Hcalls|].
  rewrite Hweb. destruct (configurationUi_ w); [reflexivity|].
  destruct (Arduino.equalsIgnoreCase (persistedFlag w) "true"); reflexivity.
Qed.

Lemma begin_web_interface_witness :
  exists w' new,
    Basecamp.begin EmptyString (device_at_boot 12 0 ∅) = Returned true w'
    /\ calls w' = new
    /\ count_calls is_web_begin new = 1%nat.
Proof.
  destruct (begin_web_interface EmptyString (device_at_boot 12 0 ∅))
    as (w' & new & Hrun & Hcalls & Hweb).
  - vm_compute. reflexivity.
  - exists w', new. auto.
Defined.

(** ** Consecutive boots *)

Lemma bootCounter_of_nvs (w v : World) : nvs v = nvs w -> bootCounter v = bootCounter w.
Proof. unfold bootCounter. now intros ->. Qed.

Lemma persistedFlag_of_spiffs (w v : World) :
  spiffs v = spiffs w -> persistedFlag v = persistedFlag w.
Proof. unfold persistedFlag, loadedConfiguration. now intros ->. Qed.

Lemma deliver_spiffs (events : list WiFiEvent_t) (w : World) :
  spiffs (deliver events w) = spiffs w.
Proof.
  revert w. induction events as [|e events IH]; intros w; [reflexivity|].
  unfold deliver in *. cbn [fold_left]. rewrite IH.
  destruct e as [| |id].
  - now rewrite WiFiEvent_got_ip_run.
  - now rewrite WiFiEvent_disconnected_run.
  - now rewrite WiFiEvent_other_run.
Qed.

Lemma deliver_nvs_quiet (events : list WiFiEvent_t) (w : World) :
  existsb is_got_ip events = false -> nvs (deliver events w) = nvs w.
Proof.
  revert w. induction events as [|e events IH]; intros w; [reflexivity|].
  cbn [existsb]. intros H. apply orb_false_iff in H as [He Hevents].
  unfold deliver in *. cbn [fold_left]. rewrite (IH _ Hevents).
  destruct e as [| |id]; [discriminate| |].
  - now rewrite WiFiEvent_disconnected_run.
  - now rewrite WiFiEvent_other_run.
Qed.

Lemma next_boot_storage pw events w next :
  next_boot pw events w next ->
  bootCounter next = bootCounter (final (Basecamp.begin pw w))
  /\ persistedFlag next = persistedFlag (final (Basecamp.begin pw w)).
Proof.
  intros (Hquiet & Hnvs & Hspiffs). split.
  - apply bootCounter_of_nvs. now rewrite Hnvs, deliver_nvs_quiet.
  - apply persistedFlag_of_spiffs. now rewrite Hspiffs, deliver_spiffs.
Qed.

(** A boot after a suspicious reset with a stored counter below 3 counts
    and goes on, unless it brings the counter to 3 on an unconfigured
    device. *)
Lemma begin_counts (pw : string) (w : World) (k : Z) :
  suspiciousCause w = true ->
  bootCounter w = k ->
  0 <= k < 3 ->
  k < 2 \/ Arduino.equalsIgnoreCase (persistedFlag w) "false" = false ->
  restarted (Basecamp.begin pw w) = false
  /\ bootCounter (final (Basecamp.begin pw w)) = k + 1
  /\ persistedFlag (final (Basecamp.begin pw w)) = persistedFlag w.
Proof.
  intros Hcause Hk Hrange Hcalm.
  assert (Hn : wrap32 (bootCounter w + 1) = k + 1).
  { rewrite Hk. unfold wrap32. apply Z.mod_small. lia. }
  assert (Hno : escalates w = false).
  { unfold escalates. rewrite Hcause, Hn. cbn [andb].
    replace (3 <? k + 1) with false by (symmetry; apply Z.ltb_ge; lia).
    cbn [orb]. destruct Hcalm as [Hlow | Hflag].
    - replace (2 <? k + 1) with false by (symmetry; apply Z.ltb_ge; lia). reflexivity.
    - rewrite Hflag. apply andb_false_r. }
  destruct (begin_cases pw w) as (_ & Hret & _).
  destruct (Hret Hno) as (w' & Hrun & Hcount & _ & Hflag).
  rewrite Hrun. cbn [restarted final]. split; [reflexivity|].
  split; [|exact Hflag]. rewrite Hcount. unfold countedBoot. now rewrite Hcause.
Qed.

Lemma begin_calm (pw : string) (w : World) :
  bootCounter w = 0 ->
  Arduino.equalsIgnoreCase (persistedFlag w) "true" = false ->
  exists w',
    Basecamp.begin pw w = Returned true w'
    /\ operationMode_ w' = Mode.accessPoint.
Proof.
  intros Hzero Hflag.
  assert (Hno : escalates w = false).
  { unfold escalates. rewrite Hzero.
    replace (wrap32 (0 + 1)) with 1 by reflexivity.
    replace (3 <? 1) with false by reflexivity.
    replace (2 <? 1) with false by reflexivity.
    cbn [andb orb]. apply andb_false_r. }
  destruct (begin_cases pw w) as (_ & Hret & _).
  destruct (Hret Hno) as (w' & Hrun & _ & Hmode & _).
  exists w'. split; [exact Hrun|]. now rewrite Hmode, Hflag.
Qed.

(** X20. Four power-ups in a row after a suspicious reset (cause 1 or 16), with
    no address obtained in between, reset the network settings of a device
    whose persisted flag is not "false" up to case: starting from a stored
    counter of 0, the first three runs of [begin] return, the fourth
    restarts the device having set the persisted flag to "False" and the
    counter back to 0, and the boot that follows, whatever its cause,
    returns in access point mode. *)
Theorem four_suspicious_boots_reset_network
    (fixedWiFiApEncryptionPassword : string) (w1 w2 w3 w4 w5 : World)
    (events1 events2 events3 : list WiFiEvent_t) :
  bootCounter w1 = 0 ->
  Arduino.equalsIgnoreCase (persistedFlag w1) "false" = false ->
  suspiciousCause w1 = true ->
  suspiciousCause w2 = true ->
  suspiciousCause w3 = true ->
  suspiciousCause w4 = true ->
  next_boot fixedWiFiApEncryptionPassword events1 w1 w2 ->
  next_boot fixedWiFiApEncryptionPassword events2 w2 w3 ->
  next_boot fixedWiFiApEncryptionPassword events3 w3 w4 ->
  next_boot fixedWiFiApEncryptionPassword [] w4 w5 ->
  restarted (Basecamp.begin fixedWiFiApEncryptionPassword w1) = false
  /\ restarted (Basecamp.begin fixedWiFiApEncryptionPassword w2) = false
  /\ restarted (Basecamp.begin fixedWiFiApEncryptionPassword w3) = false
  /\ restarted (Basecamp.begin fixedWiFiApEncryptionPassword w4) = true
  /\ persistedFlag w5 = "False"%string
  /\ bootCounter w5 = 0
  /\ exists w',
       Basecamp.begin fixedWiFiApEncryptionPassword w5 = Returned true w'
       /\ operationMode_ w' = Mode.accessPoint.
Proof.
  set (pw := fixedWiFiApEncryptionPassword).
  intros Hzero Hflag Hc1 Hc2 Hc3 Hc4 H12 H23 H34 H45.
  destruct (begin_counts pw w1 0 Hc1 Hzero ltac:(lia) ltac:(left; lia))
    as (Hr1 & Hn1 & Hf1).
  destruct (next_boot_storage _ _ _ _ H12) as (Hk2 & Hg2).
  rewrite Hn1 in Hk2. rewrite Hf1 in Hg2.
  destruct (begin_counts pw w2 1 Hc2 Hk2 ltac:(lia) ltac:(left; lia))
    as (Hr2 & Hn2 & Hf2).
  destruct (next_boot_storage _ _ _ _ H23) as (Hk3 & Hg3).
  rewrite Hn2 in Hk3. rewrite Hf2, Hg2 in Hg3.
  assert (Hflag3 : Arduino.equalsIgnoreCase (persistedFlag w3) "false" = false)
    by now rewrite Hg3.
  destruct (begin_counts pw w3 2 Hc3 Hk3 ltac:(lia) (or_intror Hflag3))
    as (Hr3 & Hn3 & Hf3).
  destruct (next_boot_storage _ _ _ _ H34) as (Hk4 & _).
  rewrite Hn3 in Hk4.
  assert (Hesc : escalates w4 = true).
  { unfold escalates. rewrite Hc4, Hk4. reflexivity. }
  destruct (begin_cases pw w4) as (_ & _ & Hrestart).
  destruct (Hrestart Hesc) as (w' & Hrun & Hcount & Heffect).
  rewrite Hk4 in Heffect.
  replace (3 <? wrap32 (2 + 1 + 1)) with true in Heffect by reflexivity.
  destruct (next_boot_storage _ _ _ _ H45) as (Hk5 & Hg5).
  rewrite Hrun in Hk5, Hg5. cbn [final] in Hk5, Hg5.
  rewrite Hcount in Hk5. rewrite Heffect in Hg5.
  split; [exact Hr1|]. split; [exact Hr2|]. split; [exact Hr3|].
  split; [now rewrite Hrun|]. split; [exact Hg5|]. split; [exact Hk5|].
  apply begin_calm; [exact Hk5|]. rewrite Hg5. reflexivity.
Qed.

Lemma four_suspicious_boots_reset_network_witness :
  let w1 := device_at_boot 1 0
              {[ConfigurationKey.wifiConfigured := "True"%string;
                ConfigurationKey.wifiEssid := "home"%string]} in
  let w2 := deliver [SYSTEM_EVENT_STA_DISCONNECTED] (final (Basecamp.begin EmptyString w1)) in
  let w3 := deliver [SYSTEM_EVENT_OTHER 2] (final (Basecamp.begin EmptyString w2)) in
  let w4 := deliver [] (final (Basecamp.begin EmptyString w3)) in
  let w5 := deliver [] (final (Basecamp.begin EmptyString w4)) in
  restarted (Basecamp.begin EmptyString w3) = false
  /\ restarted (Basecamp.begin EmptyString w4) = true
  /\ persistedFlag w5 = "False"%string.
Proof.
  intros w1 w2 w3 w4 w5.
  destruct (four_suspicious_boots_reset_network EmptyString w1 w2 w3 w4 w5
              [SYSTEM_EVENT_STA_DISCONNECTED] [SYSTEM_EVENT_OTHER 2] [])
    as (_ & _ & Hr3 & Hr4 & Hflag & _).
  - vm_compute. reflexivity.
  - vm_compute. reflexivity.
  - vm_compute. reflexivity.
  - vm_compute. reflexivity.
  - vm_compute. reflexivity.
  - vm_compute. reflexivity.
  - split; [reflexivity|]. split; reflexivity.
  - split; [reflexivity|]. split; reflexivity.
  - split; [reflexivity|]. split; reflexivity.
  - split; [reflexivity|]. split; reflexivity.
  - auto.
Defined.

(** ** Escalating boots *)

Lemma begin_prelude_run (pw : string) (w : World) :
  exists pre,
    Basecamp.begin pw w
    = (Basecamp.checkResetReason;; Basecamp.begin_services pw)
        (append_calls pre (named (loaded (accepted pw w))))
    /\ forallb is_plain_call pre = true.
Proof.
  destruct (begin_acceptFixedSecret_block pw w) as (n1 & H1 & Hok1).
  destruct (begin_loadConfiguration_block (append_calls n1 (accepted pw w)))
    as (n2 & H2 & Hok2).
  rewrite loaded_append_calls, append_calls_append in H2.
  destruct (begin_assignHostname_block (append_calls (n1 ++ n2) (loaded (accepted pw w))))
    as (n3 & H3 & Hok3).
  rewrite named_append_calls, append_calls_append in H3.
  exists ((n1 ++ n2) ++ n3). split.
  - unfold Basecamp.begin.
    rewrite (bind_returned _ _ _ _ _ H1), (bind_returned _ _ _ _ _ H2).
    now rewrite (bind_returned _ _ _ _ _ H3).
  - now rewrite !forallb_app, Hok1, Hok2, Hok3.
Qed.

Lemma checkResetReason_restart_state (v : World) :
  checkRestarts v = true ->
  exists new w',
    Basecamp.checkResetReason v = Restarted w'
    /\ calls w' = calls v ++ new
    /\ forallb (fun c => negb (is_wifi_call c)) new = true
    /\ count_calls is_web_begin new = 0%nat
    /\ count_calls is_restart new = 1%nat
    /\ last new = Some CEspRestart
    /\ nvs w' = <["bootcounter" := 0]> (nvs v)
    /\ (if 3 <? wrap32 (bootCounter v + 1)
        then spiffs w'
             = Some (<[ConfigurationKey.wifiConfigured := "False"%string]>
                       (configuration v))
             /\ count_calls is_storage_wipe new = 0%nat
        else spiffs w' = None
             /\ count_calls is_storage_wipe new = 1%nat).
Proof.
  unfold checkRestarts, suspiciousCause. intros Hr.
  apply andb_true_iff in Hr as [Hcause Hesc].
  rewrite checkResetReason_run. unfold checkResetReason_summary.
  rewrite Hcause. cbv zeta.
  destruct (3 <? wrap32 (bootCounter v + 1)).
  - eexists. eexists. split; [reflexivity|]. repeat split.
  - cbn [orb] in Hesc. rewrite Hesc. eexists. eexists. split; [reflexivity|].
    repeat split.
Qed.

(** X21. An escalating boot never reaches the network: [begin] restarts the
    device having made no call on the WiFi stack and not started the web
    interface; the restart is the last thing it does and happens once.
    The stored counter is back at 0.  When the incremented counter is
    above 3 the persisted configuration is the loaded one with only the
    "configured" flag replaced by "False" and the flash is not formatted;
    otherwise the flash is formatted, once. *)
Theorem begin_escalation (fixedWiFiApEncryptionPassword : string) (w : World) :
  escalates w = true ->
  exists w' new,
    Basecamp.begin fixedWiFiApEncryptionPassword w = Restarted w'
    /\ calls w' = calls w ++ new
    /\ List.filter is_wifi_call new = []
    /\ count_calls is_web_begin new = 0%nat
    /\ count_calls is_restart new = 1%nat
    /\ last new = Some CEspRestart
    /\ nvs w' = <["bootcounter" := 0]> (nvs w)
    /\ (if 3 <? wrap32 (bootCounter w + 1)
        then spiffs w'
             = Some (<[ConfigurationKey.wifiConfigured := "False"%string]>
                       (loadedConfiguration w))
             /\ count_calls is_storage_wipe new = 0%nat
        else spiffs w' = None
             /\ count_calls is_storage_wipe new = 1%nat).
Proof.
  set (pw := fixedWiFiApEncryptionPassword). intros Hesc.
  rewrite <- (prelude_checkRestarts pw w) in Hesc.
  destruct (begin_prelude_run pw w) as (pre & Hbegin & Hpre).
  destruct (plain_calls _ Hpre) as [Hwpre Hcpre].
  set (v := append_calls pre (named (loaded (accepted pw w)))) in *.
  assert (Hv : checkRestarts v = true) by exact Hesc.
  destruct (checkResetReason_restart_state v Hv)
    as (new & w' & Hcheck & Hcalls & Hwifi & Hweb & Hrestart & Hlast & Hnvs & Heffect).
  exists w', (pre ++ new).
  split.
  { rewrite Hbegin. unfold mbind at 1, Run_bind at 1. now rewrite Hcheck. }
  destruct (plain_calls_stay _ Hpre) as [Hpre_restart Hpre_wipe].
  split.
  { rewrite Hcalls. subst v. rewrite calls_append_calls.
    assert (Hc : calls (named (loaded (accepted pw w))) = calls w).
    { unfold accepted. destruct (8 <=? String.length pw)%nat; world_lazy; reflexivity. }
    now rewrite Hc, app_assoc. }
  split.
  { rewrite List.filter_app.
    rewrite (filter_no_wifi is_wifi_call pre (fun c H => H) Hwpre).
    now rewrite (filter_no_wifi is_wifi_call new (fun c H => H) Hwifi). }
  split; [now rewrite count_calls_app, Hcpre, Hweb|].
  split; [now rewrite count_calls_app, Hpre_restart, Hrestart|].
  split.
  { destruct new as [|c new]; [discriminate Hlast|].
    now rewrite last_app, Hlast. }
  split.
  { rewrite Hnvs. subst v. f_equal.
    unfold accepted. destruct (8 <=? String.length pw)%nat; world_lazy; reflexivity. }
  subst v. rewrite prelude_bootCounter, prelude_configuration in Heffect.
  destruct (3 <? wrap32 (bootCounter w + 1)); destruct Heffect as [Hs Hw];
    (split; [exact Hs | now rewrite count_calls_app, Hpre_wipe, Hw]).
Qed.

Lemma begin_escalation_witness :
  exists w' new,
    Basecamp.begin EmptyString
      (device_at_boot 16 3
         {[ConfigurationKey.wifiConfigured := "True"%string;
           ConfigurationKey.wifiEssid := "home"%string]})
    = Restarted w'
    /\ calls w' = new
    /\ List.filter is_wifi_call new = []
    /\ spiffs w'
       = Some {[ConfigurationKey.wifiConfigured := "False"%string;
                ConfigurationKey.wifiEssid := "home"%string]}.
Proof.
  destruct (begin_escalation EmptyString
              (device_at_boot 16 3
                 {[ConfigurationKey.wifiConfigured := "True"%string;
                   ConfigurationKey.wifiEssid := "home"%string]}))
    as (w' & new & Hrun & Hcalls & Hwifi & _ & _ & _ & _ & Hspiffs & _).
  - vm_compute. reflexivity.
  - exists w', new. split; [exact Hrun|]. split; [exact Hcalls|].
    split; [exact Hwifi|]. rewrite Hspiffs. vm_compute. reflexivity.
Defined.

(** X22. Three power-ups in a row after a suspicious reset, with no address
    obtained in between, wipe a device whose persisted flag is "false" up
    to case: starting from a stored counter of 0, the first two runs of
    [begin] return, the third restarts the device with the flash formatted
    and the counter back at 0, and the boot that follows, whatever its
    cause, returns in access point mode. *)
Theorem three_suspicious_boots_wipe_flash
    (fixedWiFiApEncryptionPassword : string) (w1 w2 w3 w4 : World)
    (events1 events2 : list WiFiEvent_t) :
  bootCounter w1 = 0 ->
  Arduino.equalsIgnoreCase (persistedFlag w1) "false" = true ->
  suspiciousCause w1 = true ->
  suspiciousCause w2 = true ->
  suspiciousCause w3 = true ->
  next_boot fixedWiFiApEncryptionPassword events1 w1 w2 ->
  next_boot fixedWiFiApEncryptionPassword events2 w2 w3 ->
  next_boot fixedWiFiApEncryptionPassword [] w3 w4 ->
  restarted (Basecamp.begin fixedWiFiApEncryptionPassword w1) = false
  /\ restarted (Basecamp.begin fixedWiFiApEncryptionPassword w2) = false
  /\ restarted (Basecamp.begin fixedWiFiApEncryptionPassword w3) = true
  /\ spiffs w4 = None
  /\ bootCounter w4 = 0
  /\ exists w',
       Basecamp.begin fixedWiFiApEncryptionPassword w4 = Returned true w'
       /\ operationMode_ w' = Mode.accessPoint.
Proof.
  set (pw := fixedWiFiApEncryptionPassword).
  intros Hzero Hflag Hc1 Hc2 Hc3 H12 H23 H34.
  destruct (begin_counts pw w1 0 Hc1 Hzero ltac:(lia) ltac:(left; lia))
    as (Hr1 & Hn1 & Hf1).
  destruct (next_boot_storage _ _ _ _ H12) as (Hk2 & Hg2).
  rewrite Hn1 in Hk2. rewrite Hf1 in Hg2.
  destruct (begin_counts pw w2 1 Hc2 Hk2 ltac:(lia) ltac:(left; lia))
    as (Hr2 & Hn2 & Hf2).
  destruct (next_boot_storage _ _ _ _ H23) as (Hk3 & Hg3).
  rewrite Hn2 in Hk3. rewrite Hf2, Hg2 in Hg3.
  assert (Hesc : escalates w3 = true).
  { unfold escalates. rewrite Hc3, Hk3, Hg3, Hflag. reflexivity. }
  destruct (begin_cases pw w3) as (_ & _ & Hrestart).
  destruct (Hrestart Hesc) as (w' & Hrun & Hcount & Heffect).
  rewrite Hk3 in Heffect.
  replace (3 <? wrap32 (1 + 1 + 1)) with false in Heffect by reflexivity.
  destruct H34 as (_ & Hnvs4 & Hspiffs4).
  rewrite Hrun in Hnvs4, Hspiffs4. cbn [final deliver fold_left] in Hnvs4, Hspiffs4.
  rewrite Heffect in Hspiffs4.
  assert (Hk4 : bootCounter w4 = 0).
  { now rewrite (bootCounter_of_nvs _ _ Hnvs4). }
  split; [exact Hr1|]. split; [exact Hr2|]. split; [now rewrite Hrun|].
  split; [exact Hspiffs4|]. split; [exact Hk4|].
  apply begin_calm; [exact Hk4|].
  unfold persistedFlag, loadedConfiguration. rewrite Hspiffs4. reflexivity.
Qed.

Lemma three_suspicious_boots_wipe_flash_witness :
  let w1 := device_at_boot 16 0
              {[ConfigurationKey.wifiConfigured := "False"%string;
                ConfigurationKey.deviceName := "porch"%string]} in
  let w2 := deliver [SYSTEM_EVENT_OTHER 13] (final (Basecamp.begin EmptyString w1)) in
  let w3 := deliver [] (final (Basecamp.begin EmptyString w2)) in
  let w4 := deliver [] (final (Basecamp.begin EmptyString w3)) in
  restarted (Basecamp.begin EmptyString w2) = false
  /\ restarted (Basecamp.begin EmptyString w3) = true
  /\ spiffs w4 = None.
Proof.
  intros w1 w2 w3 w4.
  destruct (three_suspicious_boots_wipe_flash EmptyString w1 w2 w3 w4
              [SYSTEM_EVENT_OTHER 13] [])
    as (_ & Hr2 & Hr3 & Hspiffs & _).
  - vm_compute. reflexivity.
  - vm_compute. reflexivity.
  - vm_compute. reflexivity.
  - vm_compute. reflexivity.
  - vm_compute. reflexivity.
  - split; [reflexivity|]. split; reflexivity.
  - split; [reflexivity|]. split; reflexivity.
  - split; [reflexivity|]. split; reflexivity.
  - auto.
Defined.

(** X23. Obtaining an address forgives all earlier resets: if the events
    handled since the last boot include a got-IP event, the next run of
    [begin] does not restart the device, whatever the reset cause, the
    earlier counter and the configuration, and it leaves the counter at 1
    after a suspicious reset and at 0 otherwise. *)
Theorem got_ip_forgives (fixedWiFiApEncryptionPassword : string)
    (events : list WiFiEvent_t) (w next : World) :
  existsb is_got_ip events = true ->
  nvs next = nvs (deliver events w) ->
  exists w',
    Basecamp.begin fixedWiFiApEncryptionPassword next = Returned true w'
    /\ bootCounter w' = (if suspiciousCause next then 1 else 0).
Proof.
  intros Hgot Hnvs.
  assert (Hzero : bootCounter next = 0).
  { rewrite (bootCounter_of_nvs _ _ Hnvs).
    destruct (deliver_store_holds events w) as [_ Hcount]. now rewrite Hcount, Hgot. }
  assert (Hno : escalates next = false).
  { unfold escalates. rewrite Hzero.
    replace (wrap32 (0 + 1)) with 1 by reflexivity.
    replace (3 <? 1) with false by reflexivity.
    replace (2 <? 1) with false by reflexivity.
    cbn [andb orb]. apply andb_false_r. }
  destruct (begin_cases fixedWiFiApEncryptionPassword next) as (_ & Hret & _).
  destruct (Hret Hno) as (w' & Hrun & Hcount & _).
  exists w'. split; [exact Hrun|]. rewrite Hcount. unfold countedBoot.
  rewrite Hzero. now destruct (suspiciousCause next).
Qed.

Lemma got_ip_forgives_witness :
  exists w',
    Basecamp.begin EmptyString
      (deliver [SYSTEM_EVENT_STA_DISCONNECTED; SYSTEM_EVENT_STA_GOT_IP]
         (device_at_boot 1 3 {[ConfigurationKey.wifiConfigured := "True"%string]}))
    = Returned true w'
    /\ bootCounter w' = 1.
Proof.
  destruct (got_ip_forgives EmptyString
              [SYSTEM_EVENT_STA_DISCONNECTED; SYSTEM_EVENT_STA_GOT_IP]
              (device_at_boot 1 3 {[ConfigurationKey.wifiConfigured := "True"%string]})
              (deliver [SYSTEM_EVENT_STA_DISCONNECTED; SYSTEM_EVENT_STA_GOT_IP]
                 (device_at_boot 1 3
                    {[ConfigurationKey.wifiConfigured := "True"%string]})))
    as (w' & Hrun & Hcount).
  - reflexivity.
  - reflexivity.
  - exists w'. split; [exact Hrun|]. exact Hcount.
Defined.

(** X24. Whatever state [begin] starts in and however it ends, the stored
    counter it leaves behind lies between 0 and 3. *)
Theorem begin_counter_bound (fixedWiFiApEncryptionPassword : string) (w : World) :
  0 <= bootCounter (final (Basecamp.begin fixedWiFiApEncryptionPassword w)) <= 3.
Proof.
  destruct (begin_cases fixedWiFiApEncryptionPassword w) as (_ & Hret & Hrestart).
  destruct (escalates w) eqn:Hesc.
  - destruct (Hrestart eq_refl) as (w' & Hrun & Hcount & _).
    rewrite Hrun. cbn [final]. lia.
  - destruct (Hret eq_refl) as (w' & Hrun & Hcount & _).
    rewrite Hrun. cbn [final]. rewrite Hcount.
    unfold escalates in Hesc. unfold countedBoot.
    destruct (suspiciousCause w); [|lia]. cbn [andb] in Hesc.
    apply orb_false_iff in Hesc as [Hhigh _]. apply Z.ltb_ge in Hhigh.
    unfold wrap32 in *.
    pose proof (Z.mod_pos_bound (bootCounter w + 1) (2 ^ 32) ltac:(lia)). lia.
Qed.

(** X25. The set-up getters describe the access point [begin] started.  After a
    boot that neither escalates nor finds the network configured, the one
    access point started carries the name [getSetupModeWifiName] returns,
    and its password is the secret [getSetupModeWifiSecret] returns when
    [isSetupModeWifiEncrypted] returns true and that secret is not empty;
    otherwise the access point is open. *)
Theorem begin_setup_getters (fixedWiFiApEncryptionPassword : string) (w : World) :
  escalates w = false ->
  Arduino.equalsIgnoreCase (persistedFlag w) "true" = false ->
  exists w' new name secret encrypted,
    Basecamp.begin fixedWiFiApEncryptionPassword w = Returned true w'
    /\ calls w' = calls w ++ new
    /\ Basecamp.getSetupModeWifiName w' = Returned name w'
    /\ Basecamp.getSetupModeWifiSecret w' = Returned secret w'
    /\ Basecamp.isSetupModeWifiEncrypted w' = Returned encrypted w'
    /\ List.filter is_soft_ap new
       = [CWiFiSoftAP name
            (if encrypted && (0 <? String.length secret)%nat
             then Some secret else None)].
Proof.
  set (pw := fixedWiFiApEncryptionPassword). intros Hno Hflag.
  destruct (begin_returned_summary pw w Hno)
    as (w' & new & Hrun & Hcalls & Hwifi & _ & Hcfg & _ & _ & Henc & _ & _ & _ & Hname & _).
  rewrite Hflag in Hwifi.
  exists w', new, (accessPointName w), (secretAfterBegin pw w),
    (match encryptionAfterBegin pw w with
     | SetupModeWifiEncryption.secured => true
     | SetupModeWifiEncryption.none => false
     end).
  split; [exact Hrun|]. split; [exact Hcalls|].
  split.
  { unfold Basecamp.getSetupModeWifiName, WifiControl.getAPName, gets.
    now rewrite Hname. }
  split.
  { unfold Basecamp.getSetupModeWifiSecret, Configuration.get, gets.
    rewrite Hcfg. unfold secretAfterBegin.
    destruct (writesSecret pw w); [now rewrite lookup_insert_eq | reflexivity]. }
  split.
  { unfold Basecamp.isSetupModeWifiEncrypted, gets. now rewrite Henc. }
  rewrite (filter_soft_ap_of_wifi _ _ Hwifi). unfold accessPointPassphrase.
  destruct (encryptionAfterBegin pw w); reflexivity.
Qed.

Lemma begin_setup_getters_witness :
  exists w' new name secret encrypted,
    Basecamp.begin "correct horse" (device_at_boot 12 0 ∅) = Returned true w'
    /\ calls w' = new
    /\ Basecamp.getSetupModeWifiName w' = Returned name w'
    /\ Basecamp.getSetupModeWifiSecret w' = Returned secret w'
    /\ Basecamp.isSetupModeWifiEncrypted w' = Returned encrypted w'.
Proof.
  destruct (begin_setup_getters "correct horse" (device_at_boot 12 0 ∅))
    as (w' & new & name & secret & encrypted & Hrun & Hcalls & Hn & Hs & He & _).
  - vm_compute. reflexivity.
  - vm_compute. reflexivity.
  - exists w', new, name, secret, encrypted. auto.
Defined.

(** X26. After a returning [begin] an access point secret is always set, and
    [showSystemInfo] discloses it: it returns, without changing anything,
    the two hardware addresses in colon-separated form followed by the
    password banner around the secret the configuration holds. *)
Theorem begin_then_showSystemInfo (fixedWiFiApEncryptionPassword : string) (w : World) :
  escalates w = false ->
  exists w' secret,
    Basecamp.begin fixedWiFiApEncryptionPassword w = Returned true w'
    /\ configuration w' !! ConfigurationKey.accessPointSecret = Some secret
    /\ Basecamp.showSystemInfo w'
       = Returned
           (("MAC-Address: " +:+ format6Bytes (wifi_mac w) ":"
             +:+ ", Hardware MAC: " +:+ format6Bytes (efuse_mac w) ":" +:+ Basecamp.endl)
            +:+ "*******************************************" +:+ Basecamp.endl
            +:+ "* ACCESS POINT PASSWORD: " +:+ secret +:+ Basecamp.endl
            +:+ "*******************************************" +:+ Basecamp.endl)
           w'.
Proof.
  set (pw := fixedWiFiApEncryptionPassword). intros Hno.
  destruct (begin_returned_summary pw w Hno)
    as (w' & new & Hrun & _ & _ & _ & Hcfg & _ & _ & _ & _ & _ & Hmac & _ & Hefuse).
  assert (Hset : exists secret,
             configuration w' !! ConfigurationKey.accessPointSecret = Some secret).
  { rewrite Hcfg. unfold writesSecret.
    destruct (bool_decide (is_Some (loadedConfiguration w
                                      !! ConfigurationKey.accessPointSecret))) eqn:Hd.
    - apply bool_decide_eq_true_1 in Hd as [s Hs].
      destruct (8 <=? String.length pw)%nat; cbn [negb orb].
      + eexists. apply lookup_insert_eq.
      + now exists s.
    - cbn [negb orb]. eexists. apply lookup_insert_eq. }
  destruct Hset as [secret Hsecret].
  exists w', secret. split; [exact Hrun|]. split; [exact Hsecret|].
  unfold Basecamp.showSystemInfo, WifiControl.getHardwareMacAddress,
    Configuration.isKeySet, Configuration.get.
  run_unfold. rewrite Hsecret, Hmac, Hefuse.
  rewrite bool_decide_eq_true_2 by (now exists secret).
  cbv beta. rewrite ?Hsecret. reflexivity.
Qed.

Lemma begin_then_showSystemInfo_witness :
  exists w' secret,
    Basecamp.begin "correct horse" (device_at_boot 12 0 ∅) = Returned true w'
    /\ configuration w' !! ConfigurationKey.accessPointSecret = Some secret.
Proof.
  destruct (begin_then_showSystemInfo "correct horse" (device_at_boot 12 0 ∅))
    as (w' & secret & Hrun & Hsecret & _).
  - vm_compute. reflexivity.
  - exists w', secret. auto.
Defined.
